(** * Analytics pipeline of [python_analytics/analyze_results.py]

    The class [HFTAnalyzer] loads up to three CSV tables, normalises them
    ([preprocess_data]) and fills a dictionary of performance metrics
    ([calculate_performance_metrics]).  The tables are pandas frames of
    float64 columns, so the numeric cells are modelled by Rocq's primitive
    binary64 floats: NaN is pandas' missing value, a division by zero gives
    an infinity or NaN and raises nothing.

    Conventions of the embedding:
    - the numeric columns of the frames have dtype float64, as the data
      model of the specification has them.  A column of integers only is
      int64 in pandas; the module [Int64] has what becomes of such a
      TotalPnL column on its way to MaxDrawdown, where its running sum
      wraps at 2^63;
    - a column is a [list float]; sums are numpy's pairwise sums
      ([Series.np_sum]), while running sums, minima and maxima go through
      the column from the first row to the last;
    - a CSV file is given by its parsed frame, a directory by the frames
      of the files matching each glob pattern, in glob order;
    - a Python exception is a value of [exn] carried by the [py] monad;
    - plotting and report writing read the analyzer and do not change it.
      [run_analysis] is the method up to the metrics; [Env.run_analysis] is
      the whole method, in which the library calls that depend on what is
      outside the tables (parsing a timestamp, drawing and saving a
      figure, writing the report) are answered by an environment, and the
      two exceptions that depend on the tables ([resample] without a
      datetime index, [pie] without both sides) are raised as the
      libraries raise them. *)

From Stdlib Require Import ZArith List Bool Lia Floats.
From Stdlib Require Uint63.
From stdpp Require Import gmap strings.

(** ** binary64 helpers *)

Module F64.
Local Open Scope float_scope.

(** [float64(n)] for a count [n]. *)
Definition of_nat (n : nat) : float := of_uint63 (Uint63.of_Z (Z.of_nat n)).

(** [x ** 2] on an array is numpy's [square]. *)
Definition sqr (x : float) : float := x * x.

(** [np.sqrt(252)], the annualisation factor. *)
Definition sqrt252 : float := PrimFloat.sqrt 252.

(** The value is a finite number other than zero (not NaN, not an
    infinity, not a positive or negative zero). *)
Definition is_finite_nonzero (x : float) : bool :=
  PrimFloat.is_finite x && negb (PrimFloat.is_zero x).

(** The sign bit of a number that is not NaN, on the specification side. *)
Definition sign_bit (x : spec_float) : option bool :=
  match x with
  | S754_zero s | S754_infinity s | S754_finite s _ _ => Some s
  | S754_nan => None
  end.

(** [x] is the infinity of sign [s], or NaN. *)
Definition inf_or_nan (s : bool) (x : float) : Prop :=
  Prim2SF x = S754_infinity s \/ Prim2SF x = S754_nan.

(** The result of a rounding has the sign it was given, when it is not
    NaN. *)
Definition has_sign (s : bool) (x : spec_float) : Prop :=
  match x with
  | S754_zero s' | S754_infinity s' | S754_finite s' _ _ => s' = s
  | S754_nan => True
  end.

(** [float(z)] for a Python int (exact below 2^53). *)
Definition of_Z (z : Z) : float :=
  if (z <? 0)%Z then - of_uint63 (Uint63.of_Z (- z)) else of_uint63 (Uint63.of_Z z).

End F64.

(** ** pandas [Series] of dtype float64 *)

Module Series.
Local Open Scope float_scope.

Definition isna (v : float) : bool := is_nan v.
Definition notna (v : float) : bool := negb (is_nan v).

(** [s.dropna()]: only NaN is a missing value, an infinity is kept. *)
Definition dropna (s : list float) : list float := List.filter notna s.

(** [s.fillna(v)] *)
Definition fillna (v : float) (s : list float) : list float :=
  map (fun x => if isna x then v else x) s.

(** [ufunc.accumulate] on a one-dimensional array whose first output is
    already known. *)
Fixpoint np_accumulate (f : float -> float -> float) (acc : float) (l : list float)
  : list float :=
  match l with
  | [] => []
  | x :: l' => let acc' := f acc x in acc' :: np_accumulate f acc' l'
  end.

(** [np.cumsum]: the first output is the first input. *)
Definition np_cumsum (l : list float) : list float :=
  match l with
  | [] => []
  | x :: l' => x :: np_accumulate PrimFloat.add x l'
  end.

(** [s.cumsum()] with the default [skipna=True]
    (pandas.core.nanops.na_accum_func): the missing cells count as 0 in the
    running sum and are put back as NaN in the result. *)
Definition cumsum (s : list float) : list float :=
  zip_with (fun v r => if isna v then nan else r) s (np_cumsum (fillna 0 s)).

(** [s.expanding().max()] ([min_periods = 1]): the maximum of the
    non-missing values seen so far, NaN until there is one. *)
Fixpoint expanding_max_from (best : option float) (s : list float) : list float :=
  match s with
  | [] => []
  | x :: s' =>
      let best' :=
        if isna x then best
        else match best with
             | None => Some x
             | Some m => Some (if m <=? x then x else m)
             end in
      default nan best' :: expanding_max_from best' s'
  end.

Definition expanding_max (s : list float) : list float := expanding_max_from None s.

(** Element-wise arithmetic of two series on the same index. *)
Definition sub (a b : list float) : list float := zip_with PrimFloat.sub a b.
Definition div (a b : list float) : list float := zip_with PrimFloat.div a b.
Definition mul (a b : list float) : list float := zip_with PrimFloat.mul a b.

(** [s.min()] and [s.max()] with the default [skipna=True]: the extremum
    of the non-missing values, NaN when there is none. *)
Definition fmin (a b : float) : float := if b <? a then b else a.
Definition fmax (a b : float) : float := if a <? b then b else a.

Definition reduce (pick : float -> float -> float) (s : list float) : float :=
  match dropna s with
  | [] => nan
  | x :: xs => fold_left pick xs x
  end.

Definition min (s : list float) : float := reduce fmin s.
Definition max (s : list float) : float := reduce fmax s.

(** [s.ffill()]: a missing cell takes the last valid value before it. *)
Fixpoint ffill_from (prev : float) (s : list float) : list float :=
  match s with
  | [] => []
  | x :: s' => let v := if isna x then prev else x in v :: ffill_from v s'
  end.

Definition ffill (s : list float) : list float := ffill_from nan s.

(** [s.shift(1)] *)
Definition shift (s : list float) : list float :=
  match s with
  | [] => []
  | _ :: _ => nan :: removelast s
  end.

(** [s.pct_change()] with the defaults [periods=1, fill_method='pad']:
    [data = s.ffill(); data / data.shift(1) - 1]. *)
Definition pct_change (s : list float) : list float :=
  let data := ffill s in
  zip_with (fun d p => d / p - 1) data (shift data).

(** numpy's pairwise summation of a contiguous float64 array
    ([DOUBLE_pairwise_sum], numpy/core/src/umath/loops_utils.h.src).

    The loop over the full rows of eight after the first one:
    [r[j] += a[i + j]] for [j = 0..7]. *)
Fixpoint add_rows (rows : nat) (r a : list float) : list float * list float :=
  match rows with
  | O => (r, a)
  | S rows' => add_rows rows' (zip_with PrimFloat.add r (take 8 a)) (drop 8 a)
  end.

(** At most 128 values.  Fewer than eight are added from left to right,
    starting from -0.  Otherwise eight running sums [r[0..7]] start as the
    first eight values and take one value each from every further full row
    of eight; they are added as a balanced tree, and the values after the
    last full row are added to the result one by one. *)
Definition pairwise_block (a : list float) : float :=
  let '(r, rest) := add_rows (length a / 8 - 1) (take 8 a) (drop 8 a) in
  match r with
  | [r0; r1; r2; r3; r4; r5; r6; r7] =>
      fold_left PrimFloat.add rest (((r0 + r1) + (r2 + r3)) + ((r4 + r5) + (r6 + r7)))
  | _ => fold_left PrimFloat.add a (-0)
  end.

(** More than 128 values are split at [n2 = n / 2 - (n / 2) % 8] and the
    sums of the two parts are added.  [depth] bounds the number of nested
    splits; the length of the array is always enough
    ([pairwise_sum_depth]). *)
Fixpoint pairwise_sum (depth : nat) (a : list float) : float :=
  match depth with
  | S depth' =>
      if (128 <? length a)%nat then
        let n2 := (length a / 2 - (length a / 2) mod 8)%nat in
        pairwise_sum depth' (take n2 a) + pairwise_sum depth' (drop n2 a)
      else pairwise_block a
  | O => pairwise_block a
  end.

(** [ndarray.sum()]: [np.add.reduce] starts from the identity 0 and adds the
    pairwise sum of the array to it. *)
Definition np_sum (l : list float) : float := 0 + pairwise_sum (length l) l.

Definition count (s : list float) : nat := length (dropna s).

(** [s.sum()] (nansum) *)
Definition sum (s : list float) : float := np_sum (fillna 0 s).

(** [s.mean()] (nanmean): NaN when there is no value. *)
Definition mean (s : list float) : float :=
  match count s with
  | O => nan
  | S _ => sum s / F64.of_nat (count s)
  end.

(** [s.var()] with the default [ddof=1] (pandas.core.nanops.nanvar): NaN
    when there are fewer than two values. *)
Definition var (s : list float) : float :=
  let n := count s in
  let '(cnt, d) :=
    if (n <=? 1)%nat then (nan, nan)
    else (F64.of_nat n, F64.of_nat n - 1) in
  let avg := np_sum (fillna 0 s) / cnt in
  let sqr := map (fun v => if isna v then 0 else F64.sqr (avg - v)) s in
  np_sum sqr / d.

(** [s.std()] *)
Definition std (s : list float) : float := PrimFloat.sqrt (var s).

End Series.

(** ** Python values, exceptions and frames *)

(** A metric is a Python float or a Python int. *)
Inductive pyval :=
  | PyFloat (f : float)
  | PyInt (z : Z).

Inductive exn :=
  | IndexError   (* [iloc[-1]] on an empty column *)
  | KeyError (column : string)
  | TypeError    (* [resample] on an index that holds no dates *)
  | ValueError   (* [pie] with labels that do not match the values *)
  | Raised (name : string).   (* an exception of a library call *)

(** A cell of an object column: a string, or a number (NaN when the CSV
    cell is empty). *)
Inductive cell :=
  | Str (s : string)
  | Num (f : float).

(** One row of the PnL file: the columns [TotalPnL] and [DailyPnL]. *)
Record pnl_record := { TotalPnL : float; DailyPnL : float }.

(** The PnL frame.  [pnl_Timestamp] is the column [Timestamp] when the
    frame has one, [pnl_index] the datetime index once [set_index] has
    moved the column there, [pnl_CumulativePnL] the derived column. *)
Record pnl_frame := {
  pnl_Timestamp : option (list string);
  pnl_index : option (list string);
  pnl_records : list pnl_record;
  pnl_CumulativePnL : option (list float);
}.

(** One row of the trade file. *)
Record trade_record := { Price : float; Quantity : float; Side : cell }.

Record trade_frame := {
  trade_Timestamp : option (list string);
  trade_index : option (list string);
  trade_records : list trade_record;
  trade_TradeValue : option (list float);
}.

(** The order book file is loaded and never read. *)
Definition orderbook_frame := list (list string).

(** Frames as [pd.read_csv] returns them. *)
Definition read_pnl (timestamps : option (list string)) (rows : list pnl_record)
  : pnl_frame :=
  {| pnl_Timestamp := timestamps; pnl_index := None;
     pnl_records := rows; pnl_CumulativePnL := None |}.

Definition read_trades (timestamps : option (list string)) (rows : list trade_record)
  : trade_frame :=
  {| trade_Timestamp := timestamps; trade_index := None;
     trade_records := rows; trade_TradeValue := None |}.

(** [pd.to_datetime] keeps the text of the cell here: the parsed value is
    never used by the metrics.  Whether a cell can be parsed is a matter of
    the environment ([Env.preprocess_data]). *)
Definition to_datetime (ts : list string) : list string := ts.

(** The files of the data directory matching [*pnl*.csv], [*trade*.csv]
    and [*orderbook*.csv], in the order [glob] lists them. *)
Record data_dir := {
  pnl_files : list pnl_frame;
  trade_files : list trade_frame;
  orderbook_files : list orderbook_frame;
}.

(** ** The analyzer *)

Record HFTAnalyzer := {
  pnl_data : option pnl_frame;
  trade_data : option trade_frame;
  orderbook_data : option orderbook_frame;
  performance_metrics : gmap string pyval;
}.

(** [HFTAnalyzer.__init__] *)
Definition init : HFTAnalyzer :=
  {| pnl_data := None; trade_data := None; orderbook_data := None;
     performance_metrics := ∅ |}.

(** Methods run in a state-and-exception monad over the analyzer: an
    exception keeps the state reached when it was raised. *)
Definition py (A : Type) : Type := HFTAnalyzer -> (exn + A) * HFTAnalyzer.

#[export] Instance py_ret : MRet py := fun A (x : A) self => (inr x, self).

#[export] Instance py_bind : MBind py := fun A B (f : A -> py B) (m : py A) self =>
  match m self with
  | (inl e, self') => (inl e, self')
  | (inr x, self') => f x self'
  end.

Definition raise {A} (e : exn) : py A := fun self => (inl e, self).
Definition get_self : py HFTAnalyzer := fun self => (inr self, self).
Definition put_self (a : HFTAnalyzer) : py unit := fun _ => (inr tt, a).

(** The analyzer with its dictionary of metrics replaced. *)
Definition with_metrics (m : gmap string pyval) (self : HFTAnalyzer) : HFTAnalyzer :=
  {| pnl_data := pnl_data self; trade_data := trade_data self;
     orderbook_data := orderbook_data self; performance_metrics := m |}.

(** [self.performance_metrics[key] = v] *)
Definition set_metric (key : string) (v : pyval) : py unit := fun self =>
  (inr tt, with_metrics (<[key := v]> (performance_metrics self)) self).

(** [self.performance_metrics[key]] *)
Definition get_metric (key : string) : py pyval := fun self =>
  match performance_metrics self !! key with
  | Some v => (inr v, self)
  | None => (inl (KeyError key), self)
  end.

(** [s.iloc[-1]] *)
Definition iloc_last (s : list float) : py float :=
  match last s with
  | Some v => mret v
  | None => raise IndexError
  end.

(** [df['CumulativePnL']] and [df['TradeValue']]: the derived columns exist
    once [preprocess_data] has run. *)
Definition column (name : string) (c : option (list float)) : py (list float) :=
  match c with
  | Some s => mret s
  | None => raise (KeyError name)
  end.

(** A metric as the float operand of an arithmetic operation. *)
Definition py_float (v : pyval) : float :=
  match v with
  | PyFloat f => f
  | PyInt z => F64.of_Z z
  end.

(** Python's [x > 0] on a metric. *)
Definition py_gt0 (v : pyval) : bool :=
  match v with
  | PyFloat f => (0 <? f)%float
  | PyInt z => (0 <? z)%Z
  end.

(** [load_data]: the first matching file of each kind replaces the table;
    a kind with no file leaves the attribute as it was.  Returns [False]
    when the three attributes are [None]. *)
Definition load_data (d : data_dir) : py bool :=
  self ← get_self;
  let pnl := match pnl_files d with f :: _ => Some f | [] => pnl_data self end in
  let trade := match trade_files d with f :: _ => Some f | [] => trade_data self end in
  let book :=
    match orderbook_files d with f :: _ => Some f | [] => orderbook_data self end in
  put_self {| pnl_data := pnl; trade_data := trade; orderbook_data := book;
              performance_metrics := performance_metrics self |};;
  mret (bool_decide (is_Some pnl) || bool_decide (is_Some trade)
        || bool_decide (is_Some book)).

(** [preprocess_data] on the PnL frame. *)
Definition preprocess_pnl (df : pnl_frame) : pnl_frame :=
  let '(col, idx) :=
    match pnl_Timestamp df with
    | Some ts => (None, Some (to_datetime ts))
    | None => (None, pnl_index df)
    end in
  {| pnl_Timestamp := col; pnl_index := idx;
     pnl_records :=
       zip_with (fun r daily => {| TotalPnL := TotalPnL r; DailyPnL := daily |})
         (pnl_records df) (Series.fillna 0 (DailyPnL <$> pnl_records df));
     pnl_CumulativePnL := Some (Series.cumsum (TotalPnL <$> pnl_records df)) |}.

(** [Series.map({'BUY': 1, 'SELL': -1})]: a value that is not a key of the
    dictionary becomes NaN. *)
Definition map_side (c : cell) : cell :=
  match c with
  | Str s => if String.eqb s "BUY" then Num 1
             else if String.eqb s "SELL" then Num (-1)
             else Num nan
  | Num _ => Num nan
  end.

(** The row with its [Side] replaced by the mapped value. *)
Definition map_side_row (r : trade_record) : trade_record :=
  {| Price := Price r; Quantity := Quantity r; Side := map_side (Side r) |}.

(** [preprocess_data] on the trade frame. *)
Definition preprocess_trades (df : trade_frame) : trade_frame :=
  let '(col, idx) :=
    match trade_Timestamp df with
    | Some ts => (None, Some (to_datetime ts))
    | None => (None, trade_index df)
    end in
  {| trade_Timestamp := col; trade_index := idx;
     trade_records := map_side_row <$> trade_records df;
     trade_TradeValue :=
       Some (Series.mul (Price <$> trade_records df) (Quantity <$> trade_records df)) |}.

Definition preprocess_data : py unit :=
  self ← get_self;
  put_self {| pnl_data := preprocess_pnl <$> pnl_data self;
              trade_data := preprocess_trades <$> trade_data self;
              orderbook_data := orderbook_data self;
              performance_metrics := performance_metrics self |}.

(** [df['Side'] == v] on one row. *)
Definition side_eq (v : float) (r : trade_record) : bool :=
  match Side r with
  | Num f => (f =? v)%float
  | Str _ => false
  end.

(** The drawdown series of [calculate_performance_metrics]:
    [running_max = cumulative.expanding().max()] and
    [drawdown = (cumulative - running_max) / running_max]. *)
Definition drawdown (cumulative : list float) : list float :=
  let running_max := Series.expanding_max cumulative in
  Series.div (Series.sub cumulative running_max) running_max.

(** The PnL half of [calculate_performance_metrics]. *)
Definition calculate_pnl_metrics (df : pnl_frame) : py unit :=
  let total_pnl := TotalPnL <$> pnl_records df in
  last_pnl ← iloc_last total_pnl;
  set_metric "TotalPnL" (PyFloat last_pnl);;
  set_metric "MaxPnL" (PyFloat (Series.max total_pnl));;
  set_metric "MinPnL" (PyFloat (Series.min total_pnl));;
  cumulative ← column "CumulativePnL" (pnl_CumulativePnL df);
  set_metric "MaxDrawdown" (PyFloat (Series.min (drawdown cumulative)));;
  let returns := Series.dropna (Series.pct_change total_pnl) in
  set_metric "Volatility" (PyFloat (Series.std returns * F64.sqrt252));;
  volatility ← get_metric "Volatility";
  if py_gt0 volatility then
    set_metric "SharpeRatio" (PyFloat (Series.mean returns * 252 / py_float volatility))
  else set_metric "SharpeRatio" (PyInt 0).

(** The trade half of [calculate_performance_metrics]. *)
Definition calculate_trade_metrics (df : trade_frame) : py unit :=
  let rows := trade_records df in
  set_metric "TotalTrades" (PyInt (Z.of_nat (length rows)));;
  set_metric "BuyTrades" (PyInt (Z.of_nat (length (List.filter (side_eq 1) rows))));;
  set_metric "SellTrades" (PyInt (Z.of_nat (length (List.filter (side_eq (-1)) rows))));;
  set_metric "TotalVolume" (PyFloat (Series.sum (Quantity <$> rows)));;
  set_metric "AvgTradeSize" (PyFloat (Series.mean (Quantity <$> rows)));;
  set_metric "AvgTradePrice" (PyFloat (Series.mean (Price <$> rows)));;
  set_metric "PriceRange"
    (PyFloat (Series.max (Price <$> rows) - Series.min (Price <$> rows))).

Definition calculate_performance_metrics : py unit :=
  self ← get_self;
  match pnl_data self with
  | Some df => calculate_pnl_metrics df
  | None => mret tt
  end;;
  self ← get_self;
  match trade_data self with
  | Some df => calculate_trade_metrics df
  | None => mret tt
  end.

(** [run_analysis] up to the metrics (lines 299-309), the part of the method
    that changes the analyzer, with timestamps that parse: [false] is the
    early return after a failed [load_data], [true] the end of
    [calculate_performance_metrics].  The whole method, with the figures
    and the report, is [Env.run_analysis]. *)
Definition run_analysis (d : data_dir) : py bool :=
  loaded ← load_data d;
  if negb loaded then mret false
  else
    preprocess_data;;
    calculate_performance_metrics;;
    mret true.

(** The analyzer after [run_analysis] on a fresh instance, and one of its
    metrics. *)
Definition analyze (d : data_dir) : HFTAnalyzer := (run_analysis d init).2.

Definition metric (key : string) (a : HFTAnalyzer) : option pyval :=
  performance_metrics a !! key.

(** ** An int64 column

    A CSV column in which every cell is an integer is read as int64, not
    float64.  The frames above hold float64 columns; this module has what
    becomes of an int64 [TotalPnL] column on its way to [MaxDrawdown]. *)

Module Int64.

(** The two's-complement wrap-around of int64 arithmetic. *)
Definition wrap (z : Z) : Z := ((z + 2 ^ 63) mod 2 ^ 64 - 2 ^ 63)%Z.

(** [s.cumsum()] on int64: numpy's [add.accumulate], which wraps. *)
Fixpoint accumulate (acc : Z) (l : list Z) : list Z :=
  match l with
  | [] => []
  | z :: l' => let acc' := wrap (acc + z) in acc' :: accumulate acc' l'
  end.

Definition cumsum (s : list Z) : list Z :=
  match s with
  | [] => []
  | z :: s' => z :: accumulate z s'
  end.

(** [astype(float64)]: the nearest binary64 number. *)
Definition to_float64 (z : Z) : float := SF2Prim (binary_normalize prec emax z 0 false).

(** [preprocess_data]: [CumulativePnL = TotalPnL.cumsum()] is int64 too. *)
Definition CumulativePnL (total_pnl : list Z) : list Z := cumsum total_pnl.

(** [calculate_performance_metrics]: [expanding().max()] gives float64, and
    the subtraction and the division work on the float64 values of the
    cumulative column. *)
Definition MaxDrawdown (total_pnl : list Z) : float :=
  Series.min (drawdown (to_float64 <$> CumulativePnL total_pnl)).

End Int64.

(** ** The words of the specification *)

(** The period-over-period percentage change of each row, in file order:
    the value of the row over the value of the row before it, minus one.
    [prev] is the value of the row before, when there is one; a row without
    a value counts with the last value before it.  The first row, and
    every row before the first value, has no change (NaN). *)
Fixpoint period_changes (prev : option float) (total_pnl : list float) : list float :=
  match total_pnl with
  | [] => []
  | x :: rest =>
      let cur := if is_nan x then prev else Some x in
      match prev, cur with
      | Some p, Some c => (c / p - 1)%float
      | _, _ => nan
      end :: period_changes cur rest
  end.

(** The percentage changes that are defined: those that are numbers,
    neither NaN nor infinite. *)
Definition defined_changes (total_pnl : list float) : list float :=
  List.filter PrimFloat.is_finite (period_changes None total_pnl).

(** The mean of a list of numbers: their sum over their count. *)
Definition mean_of (xs : list float) : float :=
  (Series.np_sum xs / F64.of_nat (length xs))%float.

(** The sample standard deviation (ddof = 1) of at least two numbers: the
    square root of the sum of the squared deviations from the mean, over
    the count minus one. *)
Definition sample_std (xs : list float) : float :=
  PrimFloat.sqrt
    (Series.np_sum ((fun x => F64.sqr (mean_of xs - x)) <$> xs)
     / (F64.of_nat (length xs) - 1))%float.

(** The change of each row over the row before it, after a first row
    [prev]. *)
Fixpoint changes_from (prev : float) (s : list float) : list float :=
  match s with
  | [] => []
  | x :: s' => (x / prev - 1)%float :: changes_from x s'
  end.

(** A percentage change that is an infinity: a non-zero value over a zero
    prior value. *)
Definition infinite_change (total_pnl : list float) : bool :=
  existsb PrimFloat.is_infinity (period_changes None total_pnl).

(** The cumulative PnL reaches a finite non-zero running peak: at some row
    it is its own running maximum, a finite number other than zero. *)
Definition reaches_peak (cumulative : list float) : Prop :=
  exists (i : nat) (c : float),
    cumulative !! i = Some c /\
    Series.expanding_max cumulative !! i = Some c /\
    F64.is_finite_nonzero c = true.

(** The column never decreases from one row to the next. *)
Fixpoint nondecreasing (s : list float) : bool :=
  match s with
  | x :: (y :: _) as s' => (x <=? y)%float && nondecreasing s'
  | _ => true
  end.

(** The text of a [Side] cell is one of the two recognised strings. *)
Definition recognised_side (c : cell) : bool :=
  match c with
  | Str s => String.eqb s "BUY" || String.eqb s "SELL"
  | Num _ => false
  end.

(** The text of a [Side] cell is the given string. *)
Definition is_side (name : string) (c : cell) : bool :=
  match c with Str s => String.eqb s name | Num _ => false end.

(** The keys of the metrics derived from each table. *)
Definition pnl_keys : list string :=
  ["TotalPnL"; "MaxPnL"; "MinPnL"; "MaxDrawdown"; "Volatility"; "SharpeRatio"].

Definition trade_keys : list string :=
  ["TotalTrades"; "BuyTrades"; "SellTrades"; "TotalVolume"; "AvgTradeSize";
   "AvgTradePrice"; "PriceRange"].

(** A data directory holding one PnL file with the given [TotalPnL] column
    (and the same values as [DailyPnL]), used for the examples. *)
Definition pnl_only (total_pnl : list float) : data_dir :=
  {| pnl_files :=
       [read_pnl None ((fun v => {| TotalPnL := v; DailyPnL := v |}) <$> total_pnl)];
     trade_files := []; orderbook_files := [] |}.

(** The value [calculate_performance_metrics] stores under [SharpeRatio]
    once [Volatility] holds [v]: the two branches of its [if]. *)
Definition sharpe_value (returns : list float) (v : float) : pyval :=
  if (0 <? v)%float then PyFloat (Series.mean returns * 252 / v)%float else PyInt 0.

(** The state of the drawdown scan over a column that never decreases:
    [c] is the cumulative value, [m] the running maximum and [x] the value
    of the current row.  The maximum is a number; the cumulative value, when
    it is one, is the maximum or lies strictly below it; and once the
    maximum has a positive sign the rows are not below zero and the
    cumulative value has reached the maximum. *)
Definition peak_invariant (c m x : float) : Prop :=
  is_nan m = false /\
  (is_nan c = true \/ m = c \/ (c <? m)%float = true) /\
  (F64.sign_bit (Prim2SF m) = Some false ->
   (0 <=? x)%float = true /\ (is_nan c = true \/ (m <=? c)%float = true)).

(** ** What the charts are given *)

(** [self.performance_metrics.get(key, 0)] *)
Definition get_or_0 (key : string) (self : HFTAnalyzer) : pyval :=
  default (PyInt 0) (performance_metrics self !! key).

(** Python's [a > b] on two metrics: two ints are compared as ints, a
    float with anything as floats.  The ints of the dictionary are counts
    and the 0 of the Sharpe ratio, which binary64 holds exactly. *)
Definition py_gt (a b : pyval) : bool :=
  match a, b with
  | PyInt x, PyInt y => (y <? x)%Z
  | _, _ => (py_float b <? py_float a)%float
  end.

(** The builtin [max] on a list with a first item: an item replaces the
    maximum so far only when it compares greater. *)
Definition py_max (v : pyval) (vs : list pyval) : pyval :=
  fold_left (fun best x => if py_gt x best then x else best) vs v.

(** [v / m] with a divisor that is not zero: a float, also for two ints.
    On ints that binary64 holds exactly, as the counts and the 0 of the
    dictionary, the quotient of the converted operands is Python's
    correctly rounded quotient. *)
Definition py_truediv (v m : pyval) : pyval :=
  PyFloat (py_float v / py_float m).

(** The heights of the bars of the risk panel in
    [plot_performance_dashboard]: the list [risk_values] once the [if] has
    run. *)
Definition risk_values (self : HFTAnalyzer) : list pyval :=
  let md := get_or_0 "MaxDrawdown" self in
  let rest := [get_or_0 "Volatility" self; get_or_0 "SharpeRatio" self] in
  if py_gt0 (py_max md rest)
  then (fun v => py_truediv v (py_max md rest)) <$> md :: rest
  else md :: rest.

(** Two cells hold the same value. *)
Definition cell_eqb (a b : cell) : bool :=
  match a, b with
  | Str s, Str t => String.eqb s t
  | Num x, Num y => (x =? y)%float
  | _, _ => false
  end.

Definition cell_isna (c : cell) : bool :=
  match c with Num x => is_nan x | Str _ => false end.

(** One more occurrence of [c] in a table of counts kept in order of first
    appearance. *)
Fixpoint count_value (c : cell) (counts : list (cell * nat)) : list (cell * nat) :=
  match counts with
  | [] => [(c, 1%nat)]
  | (c', n) :: counts' =>
      if cell_eqb c' c then (c', S n) :: counts'
      else (c', n) :: count_value c counts'
  end.

(** Insertion of an entry before the first entry with a count that is not
    larger. *)
Fixpoint insert_by_count (x : cell * nat) (l : list (cell * nat)) : list (cell * nat) :=
  match l with
  | [] => [x]
  | y :: l' => if (snd y <=? snd x)%nat then x :: l else y :: insert_by_count x l'
  end.

(** [s.value_counts()]: the values that are not missing with their number
    of occurrences, the most frequent first; equal counts stay in order of
    first appearance. *)
Definition value_counts (s : list cell) : list (cell * nat) :=
  foldr insert_by_count []
    (fold_left (fun counts c => if cell_isna c then counts else count_value c counts) s []).

(** [ax.pie(x, labels=labels)]: one wedge per value, labelled in order;
    [None] is the ValueError matplotlib raises when there are not as many
    labels as values. *)
Definition pie (x : list nat) (labels : list string) : option (list (string * nat)) :=
  if (length x =? length labels)%nat then Some (zip labels x) else None.

(** The wedges of the buy/sell chart of [plot_trade_analysis]:
    [side_counts = self.trade_data['Side'].value_counts()] drawn with the
    labels [['Sell', 'Buy']]. *)
Definition side_counts (df : trade_frame) : list (cell * nat) :=
  value_counts (Side <$> trade_records df).

Definition side_wedges (df : trade_frame) : option (list (string * nat)) :=
  pie (snd <$> side_counts df) ["Sell"; "Buy"].

(** The table of counts of a normalised [Side] column holding [buys]
    cells equal to 1 and [sells] cells equal to -1: one entry per value
    that occurs, in the order in which the two values first appear. *)
Definition side_table (buys sells : nat) (counts : list (cell * nat)) : Prop :=
  match buys, sells with
  | O, O => counts = []
  | S _, O => counts = [(Num 1, buys)]
  | O, S _ => counts = [(Num (-1), sells)]
  | S _, S _ => counts = [(Num 1, buys); (Num (-1), sells)] \/
                counts = [(Num (-1), sells); (Num 1, buys)]
  end.

(** The number of rows whose [Side] is the given text. *)
Definition count_side (name : string) (rows : list trade_record) : nat :=
  length (List.filter (fun r => is_side name (Side r)) rows).

(** ** The whole of [run_analysis]

    [preprocess_data] parses the timestamps, and [run_analysis] goes on to
    draw three figures and to write a report.  These calls change no table
    and no metric, but each of them can raise: for what the tables hold (a
    trade table without a datetime index, trades on one side only), which
    is modelled here, or for what is outside the tables (the text of a
    timestamp, matplotlib, the file system), which an environment
    decides. *)

Module Env.

(** The calls that the environment answers, with the data they are
    given. *)
Inductive call :=
  | To_datetime (cells : list string)
      (* [pd.to_datetime(df['Timestamp'])] *)
  | Subplots (figure : string)
      (* [plt.subplots(...)] *)
  | Resample (index : list string)
      (* [df.resample('1T')] on a datetime index, with its [sum()] or [size()] *)
  | Plot (y : list float)
      (* [ax.plot(index, y)] and the titles, labels and lines of its panel *)
  | Bar_per_minute (quantity : list float)
      (* [ax1.bar] of the volume per minute *)
  | Hist (x : list float)
      (* [ax.hist(x, bins=30)] *)
  | Pie (wedges : list (string * nat))
      (* the drawing of the wedges *)
  | Text (metrics : gmap string pyval)
      (* the formatted metrics and [ax1.text] *)
  | Plot_per_minute (index : list string)
      (* [ax3.plot] of the trades per minute *)
  | Bar (heights : list pyval)
      (* [ax4.bar] and the value labels of the bars *)
  | Savefig (file : string)
      (* [plt.tight_layout()], [plt.savefig(file)] and [plt.show()] *)
  | Write_report (metrics : gmap string pyval).
      (* [open(report_file, 'w')] and the writes *)

(** An environment tells of every call whether it returns ([None]) or
    raises. *)
Definition t : Type := call -> option exn.

(** The environment in which every call returns. *)
Definition fair : t := fun _ => None.

Definition external (env : t) (c : call) : py unit := fun self =>
  match env c with
  | Some e => (inl e, self)
  | None => (inr tt, self)
  end.

(** [pd.to_datetime] on the [Timestamp] column, when the frame has one. *)
Definition parse_timestamps (env : t) (column : option (list string)) : py unit :=
  match column with
  | Some cells => external env (To_datetime cells)
  | None => mret tt
  end.

(** [preprocess_data]: each table is replaced once its timestamps are
    parsed. *)
Definition preprocess_data (env : t) : py unit :=
  self ← get_self;
  match pnl_data self with
  | Some df =>
      parse_timestamps env (pnl_Timestamp df);;
      put_self {| pnl_data := Some (preprocess_pnl df); trade_data := trade_data self;
                  orderbook_data := orderbook_data self;
                  performance_metrics := performance_metrics self |}
  | None => mret tt
  end;;
  self ← get_self;
  match trade_data self with
  | Some df =>
      parse_timestamps env (trade_Timestamp df);;
      put_self {| pnl_data := pnl_data self; trade_data := Some (preprocess_trades df);
                  orderbook_data := orderbook_data self;
                  performance_metrics := performance_metrics self |}
  | None => mret tt
  end.

(** [df.resample('1T')]: pandas raises TypeError unless the index is a
    datetime index, which the frame has once [set_index('Timestamp')] has
    run. *)
Definition resample (env : t) (df : trade_frame) : py unit :=
  match trade_index df with
  | Some index => external env (Resample index)
  | None => raise TypeError
  end.

Definition plot_pnl_curve (env : t) : py unit :=
  self ← get_self;
  match pnl_data self with
  | None => mret tt
  | Some df =>
      external env (Subplots "pnl_curve");;
      external env (Plot (TotalPnL <$> pnl_records df));;
      cumulative ← column "CumulativePnL" (pnl_CumulativePnL df);
      external env (Plot cumulative);;
      external env (Savefig "pnl_curve.png")
  end.

Definition plot_trade_analysis (env : t) : py unit :=
  self ← get_self;
  match trade_data self with
  | None => mret tt
  | Some df =>
      external env (Subplots "trade_analysis");;
      resample env df;;
      external env (Bar_per_minute (Quantity <$> trade_records df));;
      external env (Hist (Price <$> trade_records df));;
      external env (Hist (Quantity <$> trade_records df));;
      match side_wedges df with
      | Some wedges => external env (Pie wedges)
      | None => raise ValueError
      end;;
      external env (Savefig "trade_analysis.png")
  end.

Definition plot_performance_dashboard (env : t) : py unit :=
  self ← get_self;
  if (size (performance_metrics self) =? 0)%nat then mret tt
  else
    external env (Subplots "performance_dashboard");;
    external env (Text (performance_metrics self));;
    match pnl_data self with
    | Some df => external env (Hist (TotalPnL <$> pnl_records df))
    | None => mret tt
    end;;
    match trade_data self with
    | Some df =>
        resample env df;;
        external env (Plot_per_minute (default [] (trade_index df)))
    | None => mret tt
    end;;
    external env (Bar (risk_values self));;
    external env (Savefig "performance_dashboard.png").

Definition generate_report (env : t) : py unit :=
  self ← get_self;
  if (size (performance_metrics self) =? 0)%nat then mret tt
  else external env (Write_report (performance_metrics self)).

(** [run_analysis], the whole method: [false] is the early return after a
    failed [load_data], [true] the return at the end of the method. *)
Definition run_analysis (env : t) (d : data_dir) : py bool :=
  loaded ← load_data d;
  if negb loaded then mret false
  else
    preprocess_data env;;
    calculate_performance_metrics;;
    plot_pnl_curve env;;
    plot_trade_analysis env;;
    plot_performance_dashboard env;;
    generate_report env;;
    mret true.

End Env.

(** The figures and the report, the part of [run_analysis] after the
    metrics. *)
Definition charts (env : Env.t) : py bool :=
  Env.plot_pnl_curve env;;
  Env.plot_trade_analysis env;;
  Env.plot_performance_dashboard env;;
  Env.generate_report env;;
  mret true.

(** The PnL table of the directory, when there is one, has a row. *)
Definition pnl_has_rows (d : data_dir) : Prop :=
  forall f rest, pnl_files d = f :: rest -> pnl_records f <> [].

(** The trade table of the directory, when there is one, can be drawn: once
    normalised it has a datetime index (the file has a [Timestamp]
    column), and it holds a BUY and a SELL. *)
Definition trades_drawable (d : data_dir) : Prop :=
  forall f rest, trade_files d = f :: rest ->
    is_Some (trade_index (preprocess_trades f)) /\
    (0 < count_side "BUY" (trade_records f))%nat /\
    (0 < count_side "SELL" (trade_records f))%nat.

(** An environment in which no timestamp can be parsed. *)
Definition no_dates : Env.t := fun c =>
  match c with
  | Env.To_datetime _ => Some (Raised "DateParseError")
  | _ => None
  end.

(** ** Directories used for the examples *)

(** The PnL rows of Scenario A and the trades of Scenario B, with an order
    book. *)
Definition both_tables : data_dir :=
  {| pnl_files :=
       [read_pnl (Some ["t1"; "t2"; "t3"])
          [ {| TotalPnL := 100; DailyPnL := 100 |};
            {| TotalPnL := 150; DailyPnL := 50 |};
            {| TotalPnL := 90; DailyPnL := -60 |} ]];
     trade_files :=
       [read_trades (Some ["t1"; "t2"])
          [ {| Price := 10; Quantity := 5; Side := Str "BUY" |};
            {| Price := 10.5; Quantity := 3; Side := Str "SELL" |} ]];
     orderbook_files := [[["bid"; "ask"]]] |}.

(** The same tables with dates in the [Timestamp] columns. *)
Definition dated_tables : data_dir :=
  {| pnl_files :=
       [read_pnl (Some ["2024-01-02 09:30:00"; "2024-01-02 09:31:00"; "2024-01-02 09:32:00"])
          [ {| TotalPnL := 100; DailyPnL := 100 |};
            {| TotalPnL := 150; DailyPnL := 50 |};
            {| TotalPnL := 90; DailyPnL := -60 |} ]];
     trade_files :=
       [read_trades (Some ["2024-01-02 09:30:00"; "2024-01-02 09:31:00"])
          [ {| Price := 10; Quantity := 5; Side := Str "BUY" |};
            {| Price := 10.5; Quantity := 3; Side := Str "SELL" |} ]];
     orderbook_files := [[["bid"; "ask"]]] |}.

(** A directory holding one trade file with the given rows and no
    [Timestamp] column. *)
Definition trades_only (rows : list trade_record) : data_dir :=
  {| pnl_files := []; trade_files := [read_trades None rows]; orderbook_files := [] |}.

(** ** Proof automation *)

(** Rewrite the primitive operations into their specification on
    [spec_float]. *)
Ltac to_spec :=
  rewrite ?FloatAxioms.eqb_spec, ?FloatAxioms.ltb_spec, ?FloatAxioms.leb_spec,
    ?add_spec, ?sub_spec, ?mul_spec, ?div_spec, ?sqrt_spec, ?abs_spec, ?opp_spec in *.

(** Case analysis on the comparisons of exponents and mantissas inside
    [SFcompare]. *)
Ltac cmp_cases :=
  repeat match goal with
  | |- context [Z.compare ?x ?y] => destruct (Z.compare_spec x y)
  | |- context [Pos.compare_cont Eq ?x ?y] =>
      change (Pos.compare_cont Eq x y) with (Pos.compare x y);
      destruct (Pos.compare_spec x y)
  | H : context [Z.compare ?x ?y] |- _ => destruct (Z.compare_spec x y)
  | H : context [Pos.compare_cont Eq ?x ?y] |- _ =>
      change (Pos.compare_cont Eq x y) with (Pos.compare x y) in H;
      destruct (Pos.compare_spec x y)
  end.

(** Unfold the monad of the two metric computations. *)
Ltac run_monad :=
  unfold calculate_pnl_metrics, calculate_trade_metrics, iloc_last, column,
    mbind, py_bind, mret, py_ret, raise, set_metric, get_metric, get_self, with_metrics;
  simpl.

(** Two dictionaries built by the same insertions, in any order and any
    number of times, have the same entries. *)
Ltac same_entries :=
  apply map_eq; intros ?k; rewrite !lookup_insert;
  repeat case_decide; try reflexivity; congruence.

(** * Properties *)

#[local] Arguments F64.sqrt252 : simpl never.
#[local] Arguments Series.std : simpl never.
#[local] Arguments Series.mean : simpl never.
#[local] Arguments Series.sum : simpl never.
#[local] Arguments Series.min : simpl never.
#[local] Arguments Series.max : simpl never.
#[local] Arguments Series.mul : simpl never.
#[local] Arguments Series.pct_change : simpl never.
#[local] Arguments Series.dropna : simpl never.
#[local] Arguments Series.cumsum : simpl never.
#[local] Arguments drawdown : simpl never.
#[local] Arguments calculate_pnl_metrics : simpl never.
#[local] Arguments calculate_trade_metrics : simpl never.

(** ** binary64: order and special values, from the specification of the
    primitive operations *)

Module F64Facts.
Local Open Scope float_scope.

Lemma SFeqb_refl a : a <> S754_nan -> SFeqb a a = true.
Proof.
  destruct a as [[]|[]| |[] m e]; intros H; try congruence; try reflexivity;
    unfold SFeqb, SFcompare; rewrite Z.compare_refl, Pos.compare_cont_refl; reflexivity.
Qed.

Lemma is_nan_spec x : is_nan x = true <-> Prim2SF x = S754_nan.
Proof.
  unfold is_nan. rewrite FloatAxioms.eqb_spec. split.
  - intros H. destruct (Prim2SF x) eqn:E; try reflexivity;
      rewrite SFeqb_refl in H by congruence; discriminate.
  - intros ->. reflexivity.
Qed.

Lemma is_nan_false x : is_nan x = false <-> Prim2SF x <> S754_nan.
Proof.
  rewrite <- is_nan_spec. destruct (is_nan x); split; congruence.
Qed.

Lemma SFleb_trans a b c :
  SFleb a b = true -> SFleb b c = true -> SFleb a c = true.
Proof.
  unfold SFleb, SFcompare.
  destruct a as [sa|sa| |sa ma ea], b as [sb|sb| |sb mb eb], c as [sc|sc| |sc mc ec];
    try (destruct sa); try (destruct sb); try (destruct sc); simpl; try congruence;
    cmp_cases; simpl; try congruence; try lia.
Qed.

Lemma SFleb_total a b :
  a <> S754_nan -> b <> S754_nan -> SFltb b a = false -> SFleb a b = true.
Proof.
  unfold SFleb, SFltb, SFcompare.
  destruct a as [sa|sa| |sa ma ea], b as [sb|sb| |sb mb eb];
    try (destruct sa); try (destruct sb); simpl; try congruence;
    cmp_cases; simpl; try congruence; try lia.
Qed.

Lemma SFltb_leb a b : SFltb a b = true -> SFleb a b = true.
Proof.
  unfold SFleb, SFltb. destruct (SFcompare a b) as [[]|]; congruence.
Qed.

Lemma leb_trans x y z : (x <=? y) = true -> (y <=? z) = true -> (x <=? z) = true.
Proof. to_spec. apply SFleb_trans. Qed.

Lemma leb_refl x : is_nan x = false -> (x <=? x) = true.
Proof.
  intros H%is_nan_false. to_spec.
  assert (E := SFeqb_refl _ H). unfold SFeqb, SFleb in *.
  destruct (SFcompare (Prim2SF x) (Prim2SF x)) as [[]|]; congruence.
Qed.

Lemma leb_total x y :
  is_nan x = false -> is_nan y = false -> (y <? x) = false -> (x <=? y) = true.
Proof.
  intros Hx%is_nan_false Hy%is_nan_false. to_spec. now apply SFleb_total.
Qed.

Lemma ltb_leb x y : (x <? y) = true -> (x <=? y) = true.
Proof. to_spec. apply SFltb_leb. Qed.

Lemma leb_not_nan_l x y : (x <=? y) = true -> is_nan x = false.
Proof.
  intros H. apply is_nan_false. intros E. revert H. to_spec. rewrite E. discriminate.
Qed.

Lemma leb_not_nan_r x y : (x <=? y) = true -> is_nan y = false.
Proof.
  intros H. apply is_nan_false. intros E. revert H. to_spec. rewrite E.
  destruct (Prim2SF x) as [[]|[]| |[] ? ?]; discriminate.
Qed.

End F64Facts.

(** ** binary64: NaN and the infinities through the operations *)

Module F64Special.
Import F64Facts.
Local Open Scope float_scope.

Lemma Prim2SF_0 : Prim2SF 0 = S754_zero false.
Proof. reflexivity. Qed.

Lemma Prim2SF_neg_infinity : Prim2SF neg_infinity = S754_infinity true.
Proof. reflexivity. Qed.

Lemma Prim2SF_infinity : Prim2SF infinity = S754_infinity false.
Proof. reflexivity. Qed.

(** NaN is absorbing. *)
Lemma add_nan_l x y : is_nan x = true -> is_nan (x + y) = true.
Proof. rewrite !is_nan_spec, add_spec. intros ->. reflexivity. Qed.

Lemma add_nan_r x y : is_nan y = true -> is_nan (x + y) = true.
Proof.
  rewrite !is_nan_spec, add_spec. intros ->.
  destruct (Prim2SF x) as [[]|[]| |[] ? ?]; reflexivity.
Qed.

Lemma mul_nan_l x y : is_nan x = true -> is_nan (x * y) = true.
Proof. rewrite !is_nan_spec, mul_spec. intros ->. reflexivity. Qed.

Lemma div_nan_l x y : is_nan x = true -> is_nan (x / y) = true.
Proof. rewrite !is_nan_spec, div_spec. intros ->. reflexivity. Qed.

Lemma div_nan_r x y : is_nan y = true -> is_nan (x / y) = true.
Proof.
  rewrite !is_nan_spec, div_spec. intros ->.
  destruct (Prim2SF x) as [[]|[]| |[] ? ?]; reflexivity.
Qed.

Lemma sqrt_nan x : is_nan x = true -> is_nan (PrimFloat.sqrt x) = true.
Proof. rewrite !is_nan_spec, sqrt_spec. intros ->. reflexivity. Qed.

Lemma ltb_nan_r x y : is_nan y = true -> (x <? y) = false.
Proof.
  rewrite is_nan_spec, FloatAxioms.ltb_spec. intros ->.
  destruct (Prim2SF x) as [[]|[]| |[] ? ?]; reflexivity.
Qed.

(** The two infinities and NaN, on the specification side. *)
Lemma is_infinity_spec x :
  is_infinity x = true <-> exists s, Prim2SF x = S754_infinity s.
Proof.
  unfold is_infinity. rewrite FloatAxioms.eqb_spec, abs_spec, Prim2SF_infinity.
  destruct (Prim2SF x) as [[]|[]| |[] ? ?]; cbn; split;
    try discriminate; try (intros [s Hs]; discriminate); eauto.
Qed.

Lemma is_finite_spec x :
  PrimFloat.is_finite x = true <->
  match Prim2SF x with S754_zero _ | S754_finite _ _ _ => True | _ => False end.
Proof.
  unfold PrimFloat.is_finite. rewrite negb_true_iff, orb_false_iff.
  rewrite is_nan_false. split.
  - intros [Hn Hi]. destruct (Prim2SF x) as [s|s| |s m e] eqn:E; auto.
    assert (is_infinity x = true) by (apply is_infinity_spec; eauto). congruence.
  - intros H. split; [destruct (Prim2SF x); congruence|].
    destruct (is_infinity x) eqn:E; [|reflexivity].
    apply is_infinity_spec in E as [s Hs]. now rewrite Hs in H.
Qed.

Lemma neg_infinity_unique x : Prim2SF x = S754_infinity true -> x = neg_infinity.
Proof. intros H. apply Prim2SF_inj. now rewrite H. Qed.

(** A running sum that has met an infinity stays at that infinity or
    becomes NaN. *)
Lemma add_inf_or_nan s acc x : F64.inf_or_nan s acc -> F64.inf_or_nan s (acc + x).
Proof.
  unfold F64.inf_or_nan. rewrite add_spec. intros [-> | ->]; [|now right].
  destruct s, (Prim2SF x) as [[]|[]| |[] ? ?]; cbn; auto.
Qed.

Lemma add_infinity s acc x : Prim2SF x = S754_infinity s -> F64.inf_or_nan s (acc + x).
Proof.
  unfold F64.inf_or_nan. rewrite add_spec. intros ->.
  destruct s, (Prim2SF acc) as [[]|[]| |[] ? ?]; cbn; auto.
Qed.

Lemma binary_round_aux_sign s m e l : F64.has_sign s (binary_round_aux prec emax s m e l).
Proof.
  unfold binary_round_aux.
  destruct (shr_fexp prec emax m e l) as [mrs' e'].
  destruct (shr_fexp prec emax _ e' loc_Exact) as [mrs'' e''].
  destruct (shr_m mrs''); [reflexivity| |exact I].
  destruct (Z.leb _ _); reflexivity.
Qed.

(** A count is not negative. *)
Lemma of_nat_sign n : F64.has_sign false (Prim2SF (F64.of_nat n)).
Proof.
  unfold F64.of_nat. rewrite of_uint63_spec.
  pose proof (Uint63.to_Z_bounded (Uint63.of_Z (Z.of_nat n))) as [Hp _].
  destruct (Uint63.to_Z _) as [|p|p]; [reflexivity| |lia].
  unfold binary_normalize, binary_round.
  destruct (shl_align _ _ _) as [mz ez]. apply binary_round_aux_sign.
Qed.

(** An infinite or NaN sum, divided by a count, keeps its sign. *)
Lemma div_inf_or_nan s x c :
  F64.inf_or_nan s x -> F64.has_sign false (Prim2SF c) -> F64.inf_or_nan s (x / c).
Proof.
  unfold F64.inf_or_nan. rewrite div_spec. intros [-> | ->] Hc; [|now right].
  destruct (Prim2SF c) as [s'|s'| |s' m e]; cbn in *; subst; auto;
    destruct s; auto.
Qed.

(** The deviation of an infinity from an infinite or NaN mean is NaN. *)
Lemma sub_inf_or_nan s avg x :
  F64.inf_or_nan s avg -> Prim2SF x = S754_infinity s -> is_nan (avg - x) = true.
Proof.
  unfold F64.inf_or_nan. rewrite is_nan_spec, sub_spec. intros [-> | ->] ->;
    destruct s; reflexivity.
Qed.

(** The drawdown ratio at a zero running peak: NaN for a zero or missing
    numerator, an infinity otherwise. *)
Lemma ratio_at_zero_peak c m :
  (m =? 0) = true ->
  (is_nan ((c - m) / m) = true \/ is_infinity ((c - m) / m) = true) /\
  ((c =? 0) = true -> is_nan ((c - m) / m) = true) /\
  ((c <? 0) = true -> is_infinity ((c - m) / m) = true).
Proof.
  rewrite is_nan_spec, is_infinity_spec.
  rewrite !FloatAxioms.eqb_spec, FloatAxioms.ltb_spec, div_spec, sub_spec, Prim2SF_0.
  destruct (Prim2SF m) as [sm|[]| |[] ? ?]; try discriminate. intros _.
  destruct (Prim2SF c) as [[]|[]| |[] ? ?], sm; cbn;
    repeat split; try discriminate; eauto.
Qed.

(** The same ratio is minus infinity for a negative numerator over a
    positive zero. *)
Lemma ratio_neg_over_zero c m :
  Prim2SF m = S754_zero false -> (c <? 0) = true -> (c - m) / m = neg_infinity.
Proof.
  intros Hm. rewrite FloatAxioms.ltb_spec, Prim2SF_0. intros Hc.
  apply neg_infinity_unique. rewrite div_spec, sub_spec, Hm.
  destruct (Prim2SF c) as [[]|[]| |[] ? ?]; try discriminate; reflexivity.
Qed.

End F64Special.

(** ** binary64: signs of sums, differences and quotients *)

Module F64Round.
Import F64Facts F64Special.
Local Open Scope Z_scope.

(** *** More order facts *)

Lemma SFltb_not_leb a b : SFltb a b = true -> SFleb b a = false.
Proof.
  unfold SFleb, SFltb, SFcompare.
  destruct a as [sa|sa| |sa ma ea], b as [sb|sb| |sb mb eb];
    try (destruct sa); try (destruct sb); simpl; try congruence;
    cmp_cases; simpl; try congruence; try lia.
Qed.

Lemma SFleb_ltb_eqb a b : SFleb a b = true -> SFltb a b = false -> SFeqb a b = true.
Proof.
  unfold SFleb, SFltb, SFeqb. destruct (SFcompare a b) as [[]|]; congruence.
Qed.

(** *** The number of binary digits *)

Lemma digits2_bounds p :
  2 ^ (Zpos (digits2_pos p) - 1) <= Zpos p < 2 ^ Zpos (digits2_pos p).
Proof.
  induction p as [p IH|p IH|]; cbn [digits2_pos].
  - rewrite Pos2Z.inj_succ.
    replace (Z.succ (Zpos (digits2_pos p)) - 1) with (Z.succ (Zpos (digits2_pos p) - 1)) by lia.
    rewrite !Z.pow_succ_r by lia. lia.
  - rewrite Pos2Z.inj_succ.
    replace (Z.succ (Zpos (digits2_pos p)) - 1) with (Z.succ (Zpos (digits2_pos p) - 1)) by lia.
    rewrite !Z.pow_succ_r by lia. lia.
  - cbn. lia.
Qed.

(** A valid mantissa: at most 53 digits, exactly 53 above the smallest
    exponent. *)
Lemma bounded_spec m e :
  bounded prec emax m e = true ->
  -1074 <= e <= 971 /\ Zpos (digits2_pos m) <= 53 /\
  (-1074 < e -> Zpos (digits2_pos m) = 53).
Proof.
  unfold bounded, canonical_mantissa, fexp, SpecFloat.emin, FloatOps.prec, FloatOps.emax.
  intros [H1 H2]%andb_true_iff. apply Z.eqb_eq in H1. apply Z.leb_le in H2. lia.
Qed.

(** Of two valid positive numbers, the one with the smaller exponent is the
    smaller. *)
Lemma canonical_lt m1 e1 m2 e2 :
  bounded prec emax m1 e1 = true -> bounded prec emax m2 e2 = true ->
  e1 < e2 -> Zpos m1 < Zpos m2 * 2 ^ (e2 - e1).
Proof.
  intros (Hb1 & Hd1 & _)%bounded_spec (Hb2 & _ & Hd2)%bounded_spec Hlt.
  specialize (Hd2 ltac:(lia)).
  pose proof (digits2_bounds m1) as [_ Hu]. pose proof (digits2_bounds m2) as [Hl _].
  rewrite Hd2 in Hl.
  assert (Zpos m1 < 2 ^ 53).
  { eapply Z.lt_le_trans; [exact Hu|]. apply Z.pow_le_mono_r; lia. }
  assert (2 ^ 1 <= 2 ^ (e2 - e1)) by (apply Z.pow_le_mono_r; lia).
  change (2 ^ (53 - 1)) with 4503599627370496 in Hl.
  change (2 ^ 53) with 9007199254740992 in *. change (2 ^ 1) with 2 in *. nia.
Qed.

(** *** Alignment *)

Lemma shl_align_fst mx ex ez :
  ez <= ex -> Zpos (fst (shl_align mx ex ez)) = Zpos mx * 2 ^ (ex - ez).
Proof.
  intros H. unfold shl_align. destruct (ez - ex) as [|d|d] eqn:E; try lia.
  - replace (ex - ez) with 0 by lia. cbn [fst]. lia.
  - cbn [fst]. change (Pos.iter xO mx d) with (shift_pos d mx).
    rewrite shift_pos_correct. replace (ex - ez) with (Zpos d) by lia.
    rewrite Z.pow_pos_fold. lia.
Qed.

(** *** Signs *)

Lemma binary_normalize_sign m e :
  match m with
  | Z0 => binary_normalize prec emax m e false = S754_zero false
  | Zpos _ => F64.has_sign false (binary_normalize prec emax m e false)
  | Zneg _ => F64.has_sign true (binary_normalize prec emax m e false)
  end.
Proof.
  destruct m as [|p|p]; [reflexivity| |]; unfold binary_normalize, binary_round;
    destruct (shl_align _ _ _) as [mz ez]; apply binary_round_aux_sign.
Qed.

(** A number of negative sign is not above zero, one of positive sign not
    below. *)
Lemma has_sign_true_not_pos x : F64.has_sign true x -> SFltb (S754_zero false) x = false.
Proof. destruct x as [s|s| |s m e]; cbn; intros; subst; reflexivity. Qed.

Lemma has_sign_false_not_neg x : F64.has_sign false x -> SFltb x (S754_zero false) = false.
Proof. destruct x as [s|s| |s m e]; cbn; intros; subst; reflexivity. Qed.

(** *** The sign of a difference agrees with the order *)

(** The two aligned mantissas of a subtraction or addition, and what the
    exponents of valid operands say about them. *)
Lemma aligned_cases ma ea mb eb :
  bounded prec emax ma ea = true -> bounded prec emax mb eb = true ->
  let ez := Z.min ea eb in
  let A := Zpos (fst (shl_align ma ea ez)) in
  let B := Zpos (fst (shl_align mb eb ez)) in
  (ea = eb /\ A = Zpos ma /\ B = Zpos mb) \/
  (ea < eb /\ A = Zpos ma /\ A < B) \/
  (eb < ea /\ B = Zpos mb /\ B < A).
Proof.
  intros Ha Hb ez A B. subst A B.
  rewrite !shl_align_fst by (subst ez; lia).
  destruct (Z.lt_total ea eb) as [H|[H|H]]; [right; left|left|right; right].
  - replace ez with ea by (subst ez; lia). rewrite Z.sub_diag, Z.pow_0_r, Z.mul_1_r.
    repeat split; auto. now apply canonical_lt.
  - subst eb. replace ez with ea by (subst ez; lia).
    rewrite Z.sub_diag, Z.pow_0_r, !Z.mul_1_r. auto.
  - replace ez with eb by (subst ez; lia). rewrite Z.sub_diag, Z.pow_0_r, Z.mul_1_r.
    repeat split; auto. now apply canonical_lt.
Qed.

Lemma SFsub_pos_lt a b :
  valid_binary a = true -> valid_binary b = true ->
  SFltb (S754_zero false) (SF64sub a b) = true -> SFltb b a = true.
Proof.
  destruct a as [sa|sa| |sa ma ea], b as [sb|sb| |sb mb eb];
    try (destruct sa); try (destruct sb); cbn; try congruence; intros Ha Hb;
    unfold SF64sub, SFsub;
    destruct (aligned_cases ma ea mb eb Ha Hb) as [(He & HA & HB)|[(He & HA & HB)|(He & HA & HB)]];
    cbv zeta in *;
    match goal with |- context [binary_normalize _ _ ?D ?e _] =>
      pose proof (binary_normalize_sign D e) as Hs; destruct D as [|p|p] eqn:ED end;
    try (rewrite Hs; discriminate);
    try (rewrite (has_sign_true_not_pos _ Hs); discriminate);
    intros _; cbn [cond_Zopp] in ED; unfold SFltb, SFcompare;
    try reflexivity; try lia;
    cmp_cases; try reflexivity; try lia.
Qed.

Lemma SFsub_neg_lt a b :
  valid_binary a = true -> valid_binary b = true ->
  SFltb (SF64sub a b) (S754_zero false) = true -> SFltb a b = true.
Proof.
  destruct a as [sa|sa| |sa ma ea], b as [sb|sb| |sb mb eb];
    try (destruct sa); try (destruct sb); cbn; try congruence; intros Ha Hb;
    unfold SF64sub, SFsub;
    destruct (aligned_cases ma ea mb eb Ha Hb) as [(He & HA & HB)|[(He & HA & HB)|(He & HA & HB)]];
    cbv zeta in *;
    match goal with |- context [binary_normalize _ _ ?D ?e _] =>
      pose proof (binary_normalize_sign D e) as Hs; destruct D as [|p|p] eqn:ED end;
    try (rewrite Hs; discriminate);
    try (rewrite (has_sign_false_not_neg _ Hs); discriminate);
    intros _; cbn [cond_Zopp] in ED; unfold SFltb, SFcompare;
    try reflexivity; try lia;
    cmp_cases; try reflexivity; try lia.
Qed.

(** *** The sign of a sum and of a quotient *)

(** A quotient below zero has a numerator strictly below zero over a
    denominator of positive sign (a positive zero included), or a numerator
    strictly above zero over a denominator of negative sign. *)
Lemma SFdiv_neg a b :
  SFltb (SF64div a b) (S754_zero false) = true ->
  (SFltb a (S754_zero false) = true /\ F64.sign_bit b = Some false) \/
  (SFltb (S754_zero false) a = true /\ F64.sign_bit b = Some true).
Proof.
  destruct a as [sa|sa| |sa ma ea], b as [sb|sb| |sb mb eb];
    try (destruct sa); try (destruct sb);
    first
      [ match goal with
        | |- context [SF64div (S754_finite ?s1 ?m1 ?e1) (S754_finite ?s2 ?m2 ?e2)] =>
            unfold SF64div, SFdiv;
            destruct (SFdiv_core_binary prec emax (Zpos m1) e1 (Zpos m2) e2)
              as [[mz ez] lz];
            pose proof (binary_round_aux_sign (xorb s1 s2) mz ez lz) as Hs;
            cbn [xorb] in *;
            first [ rewrite (has_sign_false_not_neg _ Hs); discriminate
                  | intros _;
                    first [left; split; reflexivity | right; split; reflexivity] ]
        end
      | cbn; (congruence || auto) ].
Qed.

(** *** Rounding a positive mantissa *)

Lemma iter_pos_comm {A} (f : A -> A) p : forall x,
  SpecFloat.iter_pos f p (f x) = f (SpecFloat.iter_pos f p x).
Proof.
  induction p as [p IH|p IH|]; intros x; cbn [SpecFloat.iter_pos]; [|now rewrite !IH|reflexivity].
  now rewrite !IH.
Qed.

Lemma iter_pos_succ {A} (f : A -> A) p x :
  SpecFloat.iter_pos f (Pos.succ p) x = f (SpecFloat.iter_pos f p x).
Proof.
  revert x. induction p as [p IH|p IH|]; intros x.
  - change (Pos.succ p~1) with (Pos.succ p)~0%positive. cbn [SpecFloat.iter_pos].
    rewrite !IH. now rewrite !iter_pos_comm.
  - change (Pos.succ p~0) with p~1%positive. cbn [SpecFloat.iter_pos].
    now rewrite !iter_pos_comm.
  - reflexivity.
Qed.

Lemma shr_1_m mrs :
  0 <= shr_m mrs -> shr_m (shr_1 mrs) = shr_m mrs / 2.
Proof.
  destruct mrs as [m r s]. cbn [shr_m shr_1]. intros Hm.
  rewrite <- Z.div2_div. destruct m as [|[p|p|]|p]; try reflexivity; lia.
Qed.

Lemma shr_iter_m p : forall mrs,
  0 <= shr_m mrs -> shr_m (SpecFloat.iter_pos shr_1 p mrs) = shr_m mrs / 2 ^ Zpos p.
Proof.
  induction p as [|p IH] using Pos.peano_ind; intros mrs Hm.
  - cbn [SpecFloat.iter_pos]. now rewrite shr_1_m.
  - rewrite iter_pos_succ, shr_1_m.
    + rewrite IH by exact Hm. rewrite Pos2Z.inj_succ, Z.pow_succ_r by lia.
      rewrite Z.div_div by lia. f_equal. lia.
    + rewrite IH by exact Hm. apply Z.div_pos; [exact Hm|]. apply Z.pow_pos_nonneg; lia.
Qed.

Lemma shr_record_of_loc_m m l : shr_m (shr_record_of_loc m l) = m.
Proof. destruct l as [|[]]; reflexivity. Qed.

(** Shifting a positive mantissa to its format exponent keeps at least one
    digit. *)
Lemma shr_fexp_spec p e l :
  -1074 <= e ->
  exists n, 0 <= n /\
    snd (shr_fexp prec emax (Zpos p) e l) = e + n /\
    shr_m (fst (shr_fexp prec emax (Zpos p) e l)) = Zpos p / 2 ^ n /\
    1 <= shr_m (fst (shr_fexp prec emax (Zpos p) e l)).
Proof.
  intros He. unfold shr_fexp, shr, fexp, SpecFloat.emin, FloatOps.prec, FloatOps.emax.
  cbn [Zdigits2]. set (d := Zpos (digits2_pos p)).
  destruct (Z.max (d + e - 53) (3 - 1024 - 53) - e) as [|q|q] eqn:En; cbn [fst snd].
  - exists 0. rewrite shr_record_of_loc_m, Z.pow_0_r, Z.div_1_r. lia.
  - exists (Zpos q). rewrite shr_iter_m by (rewrite shr_record_of_loc_m; lia).
    rewrite shr_record_of_loc_m. repeat split; try lia.
    apply Z.div_le_lower_bound; [apply Z.pow_pos_nonneg; lia|].
    pose proof (digits2_bounds p) as [Hl _]. fold d in Hl.
    assert (Hq : Zpos q = d - 53) by lia.
    eapply Z.le_trans; [|exact Hl]. rewrite Z.mul_1_r, Hq.
    apply Z.pow_le_mono_r; lia.
  - exists 0. rewrite shr_record_of_loc_m, Z.pow_0_r, Z.div_1_r. lia.
Qed.

Lemma round_nearest_even_bounds m l : m <= round_nearest_even m l <= m + 1.
Proof. destruct l as [|[]]; cbn; try lia. destruct (Z.even m); lia. Qed.

(** The rounding of a positive mantissa is a finite number or an infinity
    of the given sign, whose exponent is not below the one given and whose
    mantissa is not below the truncated one. *)
Lemma binary_round_aux_lower s mz e1 l :
  -1074 <= e1 ->
  exists mf ef,
    binary_round_aux prec emax s (Zpos mz) e1 l
    = (if ef <=? emax - prec then S754_finite s mf ef else S754_infinity s) /\
    e1 <= ef /\ Zpos mz / 2 ^ (ef - e1) <= Zpos mf.
Proof.
  intros He. unfold binary_round_aux.
  destruct (shr_fexp_spec mz e1 l He) as (n1 & Hn1 & He1 & Hm1 & Hp1).
  destruct (shr_fexp prec emax (Zpos mz) e1 l) as [mrs' e'] eqn:E1. cbn [fst snd] in *.
  pose proof (round_nearest_even_bounds (shr_m mrs') (loc_of_shr_record mrs')) as Hr.
  destruct (round_nearest_even (shr_m mrs') (loc_of_shr_record mrs')) as [|p2|p2] eqn:E2;
    try lia.
  destruct (shr_fexp_spec p2 e' loc_Exact ltac:(lia)) as (n2 & Hn2 & He2 & Hm2 & Hp2).
  destruct (shr_fexp prec emax (Zpos p2) e' loc_Exact) as [mrs'' e''] eqn:E3.
  cbn [fst snd] in *.
  destruct (shr_m mrs'') as [|mf|mf] eqn:E4; try lia.
  exists mf, e''. split; [reflexivity|]. split; [lia|].
  rewrite Hm2. replace (e'' - e1) with (n1 + n2) by lia.
  rewrite Z.pow_add_r by lia.
  rewrite <- Z.div_div by (try apply Z.pow_nonzero; try apply Z.pow_pos_nonneg; lia).
  apply Z.div_le_mono; [apply Z.pow_pos_nonneg; lia|]. lia.
Qed.

Lemma binary_round_lower s z ez :
  -1074 <= ez ->
  exists mf ef e1,
    binary_round prec emax s z ez
    = (if ef <=? emax - prec then S754_finite s mf ef else S754_infinity s) /\
    e1 <= ez /\ e1 <= ef /\ (Zpos z * 2 ^ (ez - e1)) / 2 ^ (ef - e1) <= Zpos mf.
Proof.
  intros He. unfold binary_round.
  set (e' := fexp prec emax (Zpos (digits2_pos z) + ez)).
  assert (He' : -1074 <= e').
  { subst e'. unfold fexp, SpecFloat.emin, FloatOps.prec, FloatOps.emax. lia. }
  assert (Hal : exists mz e1, shl_align z ez e' = (mz, e1) /\ -1074 <= e1 /\ e1 <= ez /\
                              Zpos mz = Zpos z * 2 ^ (ez - e1)).
  { unfold shl_align. destruct (e' - ez) as [|d|d] eqn:E.
    - exists z, ez. rewrite Z.sub_diag, Z.pow_0_r. repeat split; lia.
    - exists z, ez. rewrite Z.sub_diag, Z.pow_0_r. repeat split; lia.
    - exists (Pos.iter xO z d), e'. repeat split; try lia.
      change (Pos.iter xO z d) with (shift_pos d z).
      rewrite shift_pos_correct, Z.pow_pos_fold. replace (ez - e') with (Zpos d) by lia. lia. }
  destruct Hal as (mz & e1 & -> & H1 & H2 & H3).
  destruct (binary_round_aux_lower s mz e1 loc_Exact H1) as (mf & ef & -> & H4 & H5).
  exists mf, ef, e1. rewrite <- H3. auto.
Qed.

(** *** Adding a non-negative number does not decrease a non-negative
    one *)

Lemma SFleb_refl a : a <> S754_nan -> SFleb a a = true.
Proof.
  intros H. pose proof (SFeqb_refl a H) as E. unfold SFeqb, SFleb in *.
  destruct (SFcompare a a) as [[]|]; congruence.
Qed.

Lemma SFadd_finite_ge ma ea mx ex :
  bounded prec emax ma ea = true -> bounded prec emax mx ex = true ->
  valid_binary (SF64add (S754_finite false ma ea) (S754_finite false mx ex)) = true ->
  SFleb (S754_finite false ma ea)
        (SF64add (S754_finite false ma ea) (S754_finite false mx ex)) = true.
Proof.
  intros Ha Hx. unfold SF64add, SFadd. cbv zeta. cbn [cond_Zopp].
  set (ez := Z.min ea ex).
  pose proof (bounded_spec _ _ Ha) as (Hea & _). pose proof (bounded_spec _ _ Hx) as (Hex & _).
  assert (Hez : -1074 <= ez <= ea) by (subst ez; lia).
  pose proof (shl_align_fst ma ea ez ltac:(lia)) as HA.
  destruct (shl_align ma ea ez) as [pa ea']. destruct (shl_align mx ex ez) as [px ex'].
  cbn [fst] in *.
  change (Zpos pa + Zpos px) with (Zpos (pa + px)). cbn [binary_normalize].
  destruct (binary_round_lower false (pa + px) ez ltac:(lia))
    as (mf & ef & e1 & -> & H1 & H2 & H3).
  destruct (ef <=? emax - prec) eqn:Eov; [|reflexivity].
  cbn [valid_binary]. intros Hv.
  assert (Hlow : ef <= ea -> Zpos ma * 2 ^ (ea - ef) <= Zpos mf).
  { intros Hle. eapply Z.le_trans; [|exact H3].
    apply Z.div_le_lower_bound; [apply Z.pow_pos_nonneg; lia|].
    rewrite Pos2Z.inj_add, HA.
    assert (E : 2 ^ (ef - e1) * (Zpos ma * 2 ^ (ea - ef))
                = Zpos ma * 2 ^ (ea - ez) * 2 ^ (ez - e1)).
    { rewrite <- !Z.mul_assoc. rewrite (Z.mul_comm (2 ^ (ef - e1))).
      rewrite <- !Z.mul_assoc. f_equal. rewrite <- !Z.pow_add_r by lia. f_equal. lia. }
    rewrite E. apply Z.mul_le_mono_nonneg_r; [apply Z.pow_nonneg; lia|]. lia. }
  unfold SFleb, SFcompare.
  destruct (Z.compare_spec ea ef) as [Heq|Hlt|Hgt]; [|reflexivity|].
  - subst ef. specialize (Hlow ltac:(lia)). rewrite Z.sub_diag, Z.pow_0_r in Hlow.
    change (Pos.compare_cont Eq ma mf) with (Pos.compare ma mf).
    destruct (Pos.compare_spec ma mf); try reflexivity. lia.
  - specialize (Hlow ltac:(lia)).
    pose proof (canonical_lt mf ef ma ea Hv Ha Hgt). lia.
Qed.

Lemma SFadd_ge a x :
  valid_binary a = true -> valid_binary x = true -> valid_binary (SF64add a x) = true ->
  SFleb (S754_zero false) a = true -> SFleb (S754_zero false) x = true ->
  SFleb a (SF64add a x) = true.
Proof.
  destruct a as [sa|sa| |sa ma ea], x as [sx|sx| |sx mx ex];
    try (destruct sa); try (destruct sx); try (cbn; congruence);
    try (intros; apply SFleb_refl; discriminate).
  intros Ha Hx Hv _ _. now apply SFadd_finite_ge.
Qed.

(** A sum of positive sign whose first term has negative sign has a second
    term that is not below zero. *)
Lemma SFadd_sign_flip a b :
  F64.sign_bit a = Some true -> F64.sign_bit (SF64add a b) = Some false ->
  SFleb (S754_zero false) b = true.
Proof.
  destruct a as [sa|sa| |sa ma ea], b as [sb|sb| |sb mb eb];
    try (destruct sa); try (destruct sb); try (cbn; congruence).
  intros _. unfold SF64add, SFadd. cbv zeta. cbn [cond_Zopp].
  match goal with |- context [binary_normalize _ _ ?D ?e _] =>
    pose proof (binary_normalize_sign D e) as Hs end.
  cbn in Hs. destruct (binary_normalize _ _ _ _ _) as [s|s| |s m e];
    cbn in *; congruence.
Qed.

Lemma SFltb_sign_true a b :
  SFltb a b = true -> F64.sign_bit b = Some true -> F64.sign_bit a = Some true.
Proof.
  destruct a as [sa|sa| |sa ma ea], b as [sb|sb| |sb mb eb];
    try (destruct sa); try (destruct sb); cbn; congruence.
Qed.

Lemma sign_false_nonneg a : F64.sign_bit a = Some false -> SFleb (S754_zero false) a = true.
Proof. destruct a as [[]|[]| |[] m e]; cbn; congruence. Qed.

End F64Round.

(** ** [Series.min] and [Series.max] *)

Section Extrema.
Import F64Facts F64Special.
Local Open Scope float_scope.

Lemma dropna_notna s : Forall (fun x => is_nan x = false) (Series.dropna s).
Proof.
  apply List.Forall_forall. intros x Hx. apply List.filter_In in Hx as [_ Hx].
  unfold Series.notna in Hx. now apply negb_true_iff in Hx.
Qed.

Lemma dropna_In s x : In x s -> is_nan x = false -> In x (Series.dropna s).
Proof.
  intros Hx Hn. apply List.filter_In. split; [exact Hx|].
  unfold Series.notna. now rewrite Hn.
Qed.

Lemma fmin_spec a b :
  is_nan a = false -> is_nan b = false ->
  is_nan (Series.fmin a b) = false /\
  (Series.fmin a b <=? a) = true /\ (Series.fmin a b <=? b) = true.
Proof.
  intros Ha Hb. unfold Series.fmin. destruct (b <? a) eqn:E.
  - auto using ltb_leb, leb_refl.
  - auto using leb_total, leb_refl.
Qed.

Lemma fmax_spec a b :
  is_nan a = false -> is_nan b = false ->
  is_nan (Series.fmax a b) = false /\
  (a <=? Series.fmax a b) = true /\ (b <=? Series.fmax a b) = true.
Proof.
  intros Ha Hb. unfold Series.fmax. destruct (a <? b) eqn:E.
  - auto using ltb_leb, leb_refl.
  - auto using leb_total, leb_refl.
Qed.

Lemma fold_fmin_le xs : forall acc,
  is_nan acc = false -> Forall (fun x => is_nan x = false) xs ->
  is_nan (fold_left Series.fmin xs acc) = false /\
  (fold_left Series.fmin xs acc <=? acc) = true /\
  forall x, In x xs -> (fold_left Series.fmin xs acc <=? x) = true.
Proof.
  induction xs as [|y xs IH]; intros acc Ha Hxs; cbn [fold_left].
  - repeat split; [exact Ha|now apply leb_refl|intros x []].
  - apply Forall_cons in Hxs as [Hy Hxs].
    destruct (fmin_spec acc y Ha Hy) as (Hn & Hla & Hly).
    destruct (IH _ Hn Hxs) as (Hn' & Hl & Hin).
    repeat split; [exact Hn'|eauto using leb_trans|].
    intros x [<-|Hx]; eauto using leb_trans.
Qed.

Lemma fold_fmax_ge xs : forall acc,
  is_nan acc = false -> Forall (fun x => is_nan x = false) xs ->
  is_nan (fold_left Series.fmax xs acc) = false /\
  (acc <=? fold_left Series.fmax xs acc) = true /\
  forall x, In x xs -> (x <=? fold_left Series.fmax xs acc) = true.
Proof.
  induction xs as [|y xs IH]; intros acc Ha Hxs; cbn [fold_left].
  - repeat split; [exact Ha|now apply leb_refl|intros x []].
  - apply Forall_cons in Hxs as [Hy Hxs].
    destruct (fmax_spec acc y Ha Hy) as (Hn & Hla & Hly).
    destruct (IH _ Hn Hxs) as (Hn' & Hl & Hin).
    repeat split; [exact Hn'|eauto using leb_trans|].
    intros x [<-|Hx]; eauto using leb_trans.
Qed.

(** The minimum is below every value that is not missing, the maximum
    above. *)
Lemma min_le s x : In x s -> is_nan x = false -> (Series.min s <=? x) = true.
Proof.
  intros Hx Hn. pose proof (dropna_In s x Hx Hn) as Hd.
  pose proof (dropna_notna s) as Hall.
  unfold Series.min, Series.reduce. destruct (Series.dropna s) as [|y ys]; [destruct Hd|].
  apply Forall_cons in Hall as [Hy Hys].
  destruct (fold_fmin_le ys y Hy Hys) as (_ & Hl & Hin).
  destruct Hd as [<-|Hd]; auto.
Qed.

Lemma max_ge s x : In x s -> is_nan x = false -> (x <=? Series.max s) = true.
Proof.
  intros Hx Hn. pose proof (dropna_In s x Hx Hn) as Hd.
  pose proof (dropna_notna s) as Hall.
  unfold Series.max, Series.reduce. destruct (Series.dropna s) as [|y ys]; [destruct Hd|].
  apply Forall_cons in Hall as [Hy Hys].
  destruct (fold_fmax_ge ys y Hy Hys) as (_ & Hl & Hin).
  destruct Hd as [<-|Hd]; auto.
Qed.

(** The minimum is one of the values that are not missing. *)
Lemma fold_fmin_In xs : forall acc,
  fold_left Series.fmin xs acc = acc \/ In (fold_left Series.fmin xs acc) xs.
Proof.
  induction xs as [|y xs IH]; intros acc; cbn [fold_left]; [now left|].
  destruct (IH (Series.fmin acc y)) as [H|H]; [|right; now right].
  rewrite H. unfold Series.fmin. destruct (y <? acc); [right; now left|now left].
Qed.

Lemma min_In s : Series.dropna s <> [] -> In (Series.min s) (Series.dropna s).
Proof.
  unfold Series.min, Series.reduce. destruct (Series.dropna s) as [|y ys]; [congruence|].
  intros _. destruct (fold_fmin_In ys y) as [->|H]; [now left|now right].
Qed.

(** A minus infinity among the values is the minimum. *)
Lemma min_neg_infinity s : In neg_infinity s -> Series.min s = neg_infinity.
Proof.
  intros Hin. pose proof (min_le s neg_infinity Hin eq_refl) as Hle.
  revert Hle. rewrite FloatAxioms.leb_spec, Prim2SF_neg_infinity. intros Hle.
  apply neg_infinity_unique.
  destruct (Prim2SF (Series.min s)) as [[]|[]| |[] ? ?]; try discriminate; reflexivity.
Qed.

End Extrema.

(** ** numpy's pairwise summation *)

Section PairwiseBasics.
Local Open Scope float_scope.

Lemma neg_zero_add x : -0 + x = x.
Proof.
  apply Prim2SF_inj. rewrite add_spec.
  change (Prim2SF (-0)) with (S754_zero true).
  destruct (Prim2SF x) as [[]|[]| |[] ? ?]; reflexivity.
Qed.

Lemma fold_add_neg_zero x xs :
  fold_left PrimFloat.add (x :: xs) (-0) = fold_left PrimFloat.add xs x.
Proof. cbn [fold_left]. now rewrite neg_zero_add. Qed.

Lemma add_rows_length rows : forall r a,
  length r = 8%nat -> (8 * rows <= length a)%nat ->
  length (Series.add_rows rows r a).1 = 8%nat /\
  length (Series.add_rows rows r a).2 = (length a - 8 * rows)%nat.
Proof.
  induction rows as [|rows IH]; intros r a Hr Ha; cbn [Series.add_rows fst snd].
  - split; [exact Hr|lia].
  - destruct (IH (zip_with PrimFloat.add r (take 8 a)) (drop 8 a)) as [H1 H2].
    + rewrite length_zip_with, length_take. lia.
    + rewrite length_drop. lia.
    + split; [exact H1|]. rewrite H2, length_drop. lia.
Qed.

(** The number of full rows after the first one. *)
Lemma full_rows n : (8 <= n)%nat -> (8 * (n / 8 - 1) <= n - 8)%nat.
Proof.
  intros H. pose proof (Nat.div_mod_eq n 8) as E.
  pose proof (Nat.mod_upper_bound n 8 ltac:(lia)). 
  assert (1 <= n / 8)%nat by (apply Nat.div_le_lower_bound; lia). lia.
Qed.

(** With fewer than eight values the sum runs from left to right. *)
Lemma pairwise_block_short a :
  (length a < 8)%nat -> Series.pairwise_block a = fold_left PrimFloat.add a (-0).
Proof.
  intros H. unfold Series.pairwise_block.
  replace (length a / 8)%nat with 0%nat by (symmetry; now apply Nat.div_small).
  cbn [Nat.sub Series.add_rows]. rewrite take_ge by lia.
  do 8 (destruct a as [|? a]; [reflexivity|]). cbn [length] in H. lia.
Qed.

(** The point at which a long array is split. *)
Lemma split_point n :
  (128 < n)%nat ->
  let n2 := (n / 2 - (n / 2) mod 8)%nat in (0 < n2 /\ n2 < n /\ n - n2 < n)%nat.
Proof.
  intros H n2. subst n2.
  pose proof (Nat.mod_upper_bound (n / 2) 8 ltac:(lia)).
  assert (64 <= n / 2)%nat by (apply Nat.div_le_lower_bound; lia).
  assert (n / 2 < n)%nat by (apply Nat.div_lt; lia). lia.
Qed.

(** The depth never runs out: any two depths that are at least the length
    of the array give the same sum. *)
Lemma pairwise_sum_depth d1 : forall d2 a,
  (length a <= d1)%nat -> (length a <= d2)%nat ->
  Series.pairwise_sum d1 a = Series.pairwise_sum d2 a.
Proof.
  induction d1 as [|d1 IH]; intros d2 a H1 H2.
  - destruct d2 as [|d2]; [reflexivity|]. cbn [Series.pairwise_sum].
    destruct (Nat.ltb_spec 128 (length a)); [lia|reflexivity].
  - destruct d2 as [|d2]; cbn [Series.pairwise_sum];
      destruct (Nat.ltb_spec 128 (length a)) as [Hn|Hn]; try reflexivity; try lia.
    destruct (split_point _ Hn) as (Hp & Hlt & Hd).
    rewrite (IH d2 (take _ a)), (IH d2 (drop _ a)); try reflexivity;
      rewrite ?length_take, ?length_drop; lia.
Qed.

End PairwiseBasics.

(** A set of values that is closed under addition holds every sum of its
    members. *)
Section PairwiseAll.
Local Open Scope float_scope.
Variable R : float -> Prop.
Hypothesis R_add : forall a b, R a -> R b -> R (a + b).

Lemma fold_add_all xs : forall acc,
  R acc -> Forall R xs -> R (fold_left PrimFloat.add xs acc).
Proof.
  induction xs as [|x xs IH]; intros acc Ha Hxs; cbn [fold_left]; [exact Ha|].
  apply Forall_cons in Hxs as [Hx Hxs]. auto.
Qed.

Lemma zip_add_all r : forall a,
  Forall R r -> Forall R a -> Forall R (zip_with PrimFloat.add r a).
Proof.
  induction r as [|x r IH]; intros [|y a] Hr Ha; cbn [zip_with]; try constructor.
  - apply Forall_cons in Hr as [? ?], Ha as [? ?]. auto.
  - apply Forall_cons in Hr as [? ?], Ha as [? ?]. auto.
Qed.

Lemma add_rows_all rows : forall r a,
  Forall R r -> Forall R a ->
  Forall R (Series.add_rows rows r a).1 /\ Forall R (Series.add_rows rows r a).2.
Proof.
  induction rows as [|rows IH]; intros r a Hr Ha; cbn [Series.add_rows fst snd]; [auto|].
  apply IH; [apply zip_add_all; [exact Hr|now apply Forall_take] | now apply Forall_drop].
Qed.

Lemma fold_left_all a : a <> [] -> Forall R a -> R (fold_left PrimFloat.add a (-0)).
Proof.
  destruct a as [|x a]; [congruence|]. intros _ [Hx Ha]%Forall_cons.
  rewrite fold_add_neg_zero. now apply fold_add_all.
Qed.

Lemma pairwise_block_all a : a <> [] -> Forall R a -> R (Series.pairwise_block a).
Proof.
  intros Hne Ha. unfold Series.pairwise_block.
  destruct (add_rows_all (length a / 8 - 1) (take 8 a) (drop 8 a)) as [Hr Hrest];
    [now apply Forall_take | now apply Forall_drop |].
  destruct (Series.add_rows _ _ _) as [r rest]. cbn [fst snd] in *.
  do 8 (destruct r as [|? r]; [now apply fold_left_all|]).
  destruct r; [|now apply fold_left_all].
  repeat match goal with H : Forall R (_ :: _) |- _ => apply Forall_cons in H as [? H] end.
  apply fold_add_all; auto 10.
Qed.

Lemma pairwise_sum_all depth : forall a,
  a <> [] -> Forall R a -> R (Series.pairwise_sum depth a).
Proof.
  induction depth as [|depth IH]; intros a Hne Ha; cbn [Series.pairwise_sum].
  - now apply pairwise_block_all.
  - destruct (Nat.ltb_spec 128 (length a)) as [Hn|Hn]; [|now apply pairwise_block_all].
    destruct (split_point _ Hn) as (Hp & Hlt & Hd).
    apply R_add; apply IH.
    + intros E. apply (f_equal length) in E. rewrite length_take in E.
      cbn [length] in E. lia.
    + now apply Forall_take.
    + intros E. apply (f_equal length) in E. rewrite length_drop in E.
      cbn [length] in E. lia.
    + now apply Forall_drop.
Qed.

Lemma np_sum_all a : R 0 -> a <> [] -> Forall R a -> R (Series.np_sum a).
Proof. intros H0 Hne Ha. apply R_add; [exact H0|]. now apply pairwise_sum_all. Qed.

End PairwiseAll.

(** A property that one member of a sum passes on to the sum of it and of
    any value of [R]. *)
Section PairwiseSome.
Local Open Scope float_scope.
Variables R Q : float -> Prop.
Hypothesis R_add : forall a b, R a -> R b -> R (a + b).
Hypothesis Q_add_l : forall a b, Q a -> R b -> Q (a + b).
Hypothesis Q_add_r : forall a b, R a -> Q b -> Q (a + b).

Lemma fold_add_some xs : forall acc,
  Forall R xs -> Q acc \/ (R acc /\ Exists Q xs) -> Q (fold_left PrimFloat.add xs acc).
Proof.
  induction xs as [|x xs IH]; intros acc Hxs H; cbn [fold_left].
  - destruct H as [H|[_ H]]; [exact H|inversion H].
  - apply Forall_cons in Hxs as [Hx Hxs]. apply IH; [exact Hxs|].
    destruct H as [H|[Ha H]]; [left; auto|].
    apply Exists_cons in H as [H|H]; [left; auto|right; auto].
Qed.

Lemma zip_add_some r : forall a,
  length r = length a -> Forall R r -> Forall R a ->
  Exists Q r \/ Exists Q a -> Exists Q (zip_with PrimFloat.add r a).
Proof.
  induction r as [|x r IH]; intros [|y a] Hl Hr Ha H; cbn [length] in Hl; try lia.
  - destruct H as [H|H]; inversion H.
  - cbn [zip_with]. apply Forall_cons in Hr as [Hx Hr], Ha as [Hy Ha].
    destruct H as [H|H]; apply Exists_cons in H as [H|H];
      try (apply Exists_cons_hd; auto; fail);
      apply Exists_cons_tl; apply IH; auto.
Qed.

Lemma add_rows_some rows : forall r a,
  length r = 8%nat -> (8 * rows <= length a)%nat ->
  Forall R r -> Forall R a -> Exists Q r \/ Exists Q a ->
  Exists Q (Series.add_rows rows r a).1 \/ Exists Q (Series.add_rows rows r a).2.
Proof.
  induction rows as [|rows IH]; intros r a Hl Hn Hr Ha H; cbn [Series.add_rows fst snd];
    [exact H|].
  assert (Ht : length (take 8 a) = 8%nat) by (rewrite length_take; lia).
  apply IH.
  - rewrite length_zip_with, Ht. lia.
  - rewrite length_drop. lia.
  - apply zip_add_all; [exact R_add|exact Hr|now apply Forall_take].
  - now apply Forall_drop.
  - destruct H as [H|H].
    + left. apply zip_add_some; auto; [lia|now apply Forall_take].
    + rewrite <- (take_drop 8 a) in H. apply Exists_app in H as [H|H]; [|now right].
      left. apply zip_add_some; auto; [lia|now apply Forall_take].
Qed.

Lemma fold_left_some a : Forall R a -> Exists Q a -> Q (fold_left PrimFloat.add a (-0)).
Proof.
  destruct a as [|x a]; [intros _ H; inversion H|]. intros [Hx Ha]%Forall_cons H.
  rewrite fold_add_neg_zero. apply fold_add_some; [exact Ha|].
  apply Exists_cons in H as [H|H]; auto.
Qed.

Lemma tree_some r0 r1 r2 r3 r4 r5 r6 r7 :
  Forall R [r0; r1; r2; r3; r4; r5; r6; r7] ->
  Exists Q [r0; r1; r2; r3; r4; r5; r6; r7] ->
  Q (((r0 + r1) + (r2 + r3)) + ((r4 + r5) + (r6 + r7))).
Proof.
  intros Hr H.
  repeat match goal with H : Forall R (_ :: _) |- _ => apply Forall_cons in H as [? H] end.
  repeat (apply Exists_cons in H as [H|H]; [auto 10|]). inversion H.
Qed.

Lemma pairwise_block_some a : Forall R a -> Exists Q a -> Q (Series.pairwise_block a).
Proof.
  intros Ha H.
  destruct (Nat.lt_ge_cases (length a) 8) as [Hn|Hn].
  { rewrite pairwise_block_short by exact Hn. now apply fold_left_some. }
  unfold Series.pairwise_block.
  assert (Ht : length (take 8 a) = 8%nat) by (rewrite length_take; lia).
  assert (Hd : (8 * (length a / 8 - 1) <= length (drop 8 a))%nat).
  { rewrite length_drop. now apply full_rows. }
  destruct (add_rows_length _ _ _ Ht Hd) as [Hlen _].
  destruct (add_rows_all R R_add (length a / 8 - 1) (take 8 a) (drop 8 a))
    as [Hr Hrest]; [now apply Forall_take | now apply Forall_drop |].
  pose proof (add_rows_some (length a / 8 - 1) (take 8 a) (drop 8 a) Ht Hd
                (Forall_take _ _ _ Ha) (Forall_drop _ _ _ Ha)) as Hs.
  destruct (Series.add_rows _ _ _) as [r rest]. cbn [fst snd] in *.
  do 8 (destruct r as [|? r]; [discriminate|]). destruct r; [|discriminate].
  apply fold_add_some; [exact Hrest|].
  destruct Hs as [Hs|Hs].
  - rewrite <- (take_drop 8 a) in H. apply Exists_app in H as [H|H]; auto.
  - left. now apply tree_some.
  - right. split; [|exact Hs].
    repeat match goal with H : Forall R (_ :: _) |- _ => apply Forall_cons in H as [? H] end.
    auto 10.
Qed.

Lemma pairwise_sum_some depth : forall a,
  Forall R a -> Exists Q a -> Q (Series.pairwise_sum depth a).
Proof.
  induction depth as [|depth IH]; intros a Ha H; cbn [Series.pairwise_sum].
  - now apply pairwise_block_some.
  - destruct (Nat.ltb_spec 128 (length a)) as [Hn|Hn]; [|now apply pairwise_block_some].
    destruct (split_point _ Hn) as (Hp & Hlt & Hd).
    set (n2 := (length a / 2 - (length a / 2) mod 8)%nat) in *.
    assert (Hne1 : take n2 a <> []).
    { intros E. apply (f_equal length) in E. rewrite length_take in E.
      cbn [length] in E. lia. }
    assert (Hne2 : drop n2 a <> []).
    { intros E. apply (f_equal length) in E. rewrite length_drop in E.
      cbn [length] in E. lia. }
    rewrite <- (take_drop n2 a) in H. apply Exists_app in H as [H|H].
    + apply Q_add_l; [apply IH; [now apply Forall_take|exact H]|].
      apply pairwise_sum_all; [exact R_add|exact Hne2|now apply Forall_drop].
    + apply Q_add_r; [|apply IH; [now apply Forall_drop|exact H]].
      apply pairwise_sum_all; [exact R_add|exact Hne1|now apply Forall_take].
Qed.

Lemma np_sum_some a : R 0 -> Forall R a -> Exists Q a -> Q (Series.np_sum a).
Proof. intros H0 Ha H. apply Q_add_r; [exact H0|]. now apply pairwise_sum_some. Qed.

End PairwiseSome.

(** ** Sums, variance and the percentage changes *)

Section Moments.
Import F64Facts F64Special.
Local Open Scope float_scope.

(** A sum over a NaN is NaN. *)
Lemma np_sum_nan l x : In x l -> is_nan x = true -> is_nan (Series.np_sum l) = true.
Proof.
  intros Hin Hx.
  apply (np_sum_some (fun _ => True) (fun y => is_nan y = true)); auto.
  - intros. now apply add_nan_l.
  - intros. now apply add_nan_r.
  - now apply Forall_forall.
  - apply Exists_exists. exists x. split; [now apply list_elem_of_In|exact Hx].
Qed.

Lemma add_inf_or_nan_r s x acc : F64.inf_or_nan s x -> F64.inf_or_nan s (acc + x).
Proof.
  intros [H|H]; [now apply add_infinity|].
  right. apply is_nan_spec, add_nan_r. now apply is_nan_spec.
Qed.

(** A sum over an infinity is that infinity or NaN. *)
Lemma np_sum_inf s l x :
  In x l -> Prim2SF x = S754_infinity s -> F64.inf_or_nan s (Series.np_sum l).
Proof.
  intros Hin Hx.
  apply (np_sum_some (fun _ => True) (F64.inf_or_nan s)); auto.
  - intros. now apply add_inf_or_nan.
  - intros. now apply add_inf_or_nan_r.
  - now apply Forall_forall.
  - apply Exists_exists. exists x. split; [now apply list_elem_of_In|now left].
Qed.

Lemma not_nan_of_infinity s x : Prim2SF x = S754_infinity s -> is_nan x = false.
Proof. intros H. apply is_nan_false. rewrite H. discriminate. Qed.

(** With fewer than two values the variance is NaN. *)
Lemma var_few s : (Series.count s <= 1)%nat -> is_nan (Series.var s) = true.
Proof.
  intros Hc. unfold Series.var.
  destruct (Nat.leb_spec (Series.count s) 1) as [_|]; [|lia].
  now apply div_nan_r.
Qed.

(** The variance of values among which there is an infinity is NaN. *)
Lemma var_inf s sg x :
  In x s -> Prim2SF x = S754_infinity sg -> is_nan (Series.var s) = true.
Proof.
  intros Hin Hx. pose proof (not_nan_of_infinity sg x Hx) as Hn.
  unfold Series.var.
  destruct (Series.count s <=? 1)%nat; [now apply div_nan_r|].
  apply div_nan_l.
  set (avg := Series.np_sum (Series.fillna 0 s) / F64.of_nat (Series.count s)).
  assert (Havg : F64.inf_or_nan sg avg).
  { apply div_inf_or_nan; [|apply of_nat_sign].
    apply np_sum_inf with (x := x); [|exact Hx].
    unfold Series.fillna. apply List.in_map_iff. exists x.
    unfold Series.isna. rewrite Hn. auto. }
  apply np_sum_nan with (x := F64.sqr (avg - x)).
  - apply List.in_map_iff. exists x. unfold Series.isna. rewrite Hn. auto.
  - unfold F64.sqr. apply mul_nan_l. now apply sub_inf_or_nan with (s := sg).
Qed.

Lemma dropna_idempotent s : Series.dropna (Series.dropna s) = Series.dropna s.
Proof.
  unfold Series.dropna. induction s as [|x s IH]; [reflexivity|].
  cbn [List.filter]. destruct (Series.notna x) eqn:E; [|exact IH].
  cbn [List.filter]. now rewrite E, IH.
Qed.

Lemma sub_nan_l x y : is_nan x = true -> is_nan (x - y) = true.
Proof. rewrite !is_nan_spec, sub_spec. intros ->. reflexivity. Qed.

Lemma dropna_all s : Forall (fun x => is_nan x = false) s -> Series.dropna s = s.
Proof.
  unfold Series.dropna. induction 1 as [|x s Hx _ IH]; [reflexivity|].
  cbn. unfold Series.notna at 1. now rewrite Hx, IH.
Qed.

Lemma nan_unique x : is_nan x = true -> x = nan.
Proof. intros H. apply Prim2SF_inj. now apply is_nan_spec. Qed.

(** [pct_change] computes the period-over-period percentage changes: what
    [ffill], [shift] and the division give is the change of each row over
    the last value before it. *)
Lemma pct_change_from s : forall p,
  zip_with (fun d q => d / q - 1) (Series.ffill_from p s)
    (match s with [] => [] | _ :: _ => p :: removelast (Series.ffill_from p s) end)
  = period_changes (if is_nan p then None else Some p) s.
Proof.
  induction s as [|x s IH]; intros p; [reflexivity|].
  cbn [Series.ffill_from period_changes]. cbv zeta. cbn [zip_with].
  set (v := if Series.isna x then p else x).
  assert (Hcur : (if is_nan x then (if is_nan p then None else Some p) else Some x)
                 = (if is_nan v then None else Some v)).
  { subst v. unfold Series.isna. destruct (is_nan x) eqn:Ex; [reflexivity|]. now rewrite Ex. }
  rewrite Hcur. f_equal.
  - destruct (is_nan p) eqn:Ep.
    + apply nan_unique, sub_nan_l, div_nan_r, Ep.
    + assert (Hv : is_nan v = false).
      { subst v. unfold Series.isna. now destruct (is_nan x) eqn:Ex. }
      now rewrite Hv.
  - rewrite <- IH. destruct s as [|y s]; [reflexivity|].
    cbn [Series.ffill_from removelast]. reflexivity.
Qed.

Lemma pct_change_spec s : Series.pct_change s = period_changes None s.
Proof.
  unfold Series.pct_change, Series.ffill, Series.shift.
  change (period_changes None s)
    with (period_changes (if is_nan nan then None else Some nan) s).
  rewrite <- (pct_change_from s nan). f_equal.
  destruct s; reflexivity.
Qed.

(** On numbers, [Series.mean] and [Series.std] are the mean and the sample
    standard deviation. *)
Lemma fillna_all v s : Forall (fun x => is_nan x = false) s -> Series.fillna v s = s.
Proof.
  unfold Series.fillna, Series.isna. induction 1 as [|x s Hx _ IH]; [reflexivity|].
  cbn [map]. now rewrite Hx, IH.
Qed.

Lemma mean_spec xs : Forall (fun x => is_nan x = false) xs -> Series.mean xs = mean_of xs.
Proof.
  intros H. unfold Series.mean, Series.sum, Series.count, mean_of.
  rewrite (dropna_all _ H), (fillna_all _ _ H).
  destruct xs; reflexivity.
Qed.

Lemma std_spec xs :
  Forall (fun x => is_nan x = false) xs -> (2 <= length xs)%nat ->
  Series.std xs = sample_std xs.
Proof.
  intros H Hn. unfold Series.std, Series.var, Series.count, sample_std, mean_of.
  rewrite (dropna_all _ H), (fillna_all _ _ H).
  destruct (Nat.leb_spec (length xs) 1) as [|_]; [lia|].
  do 3 f_equal. apply map_ext_in. intros x Hx.
  rewrite Forall_forall in H. unfold Series.isna.
  now rewrite (H x) by now apply list_elem_of_In.
Qed.

Lemma defined_changes_notna total_pnl :
  Forall (fun x => is_nan x = false) (defined_changes total_pnl).
Proof.
  unfold defined_changes. apply Forall_forall. intros x Hx%list_elem_of_In.
  apply List.filter_In in Hx as [_ Hx]. unfold PrimFloat.is_finite in Hx.
  now destruct (is_nan x).
Qed.

(** Without an infinite change, the changes [dropna] keeps are the defined
    ones. *)
Lemma returns_defined total_pnl :
  infinite_change total_pnl = false ->
  Series.dropna (Series.pct_change total_pnl) = defined_changes total_pnl.
Proof.
  rewrite pct_change_spec.
  unfold infinite_change, defined_changes, Series.dropna.
  generalize (period_changes None total_pnl) as l.
  induction l as [|x l IH]; [reflexivity|].
  cbn [existsb List.filter]. intros [Hx Hl]%orb_false_iff.
  unfold Series.notna at 1. unfold PrimFloat.is_finite at 1.
  rewrite Hx, orb_false_r, (IH Hl). reflexivity.
Qed.

(** What the code stores under Volatility. *)
Lemma volatility_nan total_pnl :
  infinite_change total_pnl = true \/ (length (defined_changes total_pnl) < 2)%nat ->
  is_nan (Series.std (Series.dropna (Series.pct_change total_pnl)) * F64.sqrt252) = true.
Proof.
  intros H. apply mul_nan_l. unfold Series.std. apply sqrt_nan.
  destruct (infinite_change total_pnl) eqn:E.
  - unfold infinite_change in E. apply List.existsb_exists in E as (x & Hin & Hx).
    apply is_infinity_spec in Hx as [sg Hx].
    apply var_inf with (sg := sg) (x := x); [|exact Hx].
    apply dropna_In; [now rewrite pct_change_spec|].
    now apply not_nan_of_infinity with (s := sg).
  - destruct H as [H|H]; [discriminate|].
    apply var_few. unfold Series.count. rewrite dropna_idempotent.
    rewrite (returns_defined _ E). lia.
Qed.

(** A column without missing cells: the percentage changes are NaN for the
    first row and value / prior value - 1 for the others. *)
Lemma ffill_notna s : forall prev,
  Forall (fun x => is_nan x = false) s -> Series.ffill_from prev s = s.
Proof.
  induction s as [|x s IH]; intros prev Hs; [reflexivity|].
  apply Forall_cons in Hs as [Hx Hs]. cbn [Series.ffill_from].
  unfold Series.isna. rewrite Hx. cbv zeta. now rewrite IH.
Qed.

Lemma pct_change_adjacent x s :
  Forall (fun y => is_nan y = false) (x :: s) ->
  Series.pct_change (x :: s) = (x / nan - 1) :: changes_from x s.
Proof.
  intros Hs. unfold Series.pct_change, Series.ffill. rewrite (ffill_notna _ _ Hs).
  unfold Series.shift. cbn [zip_with]. f_equal.
  clear Hs. revert x. induction s as [|y s IH]; intros x; [reflexivity|].
  cbn [removelast zip_with changes_from]. f_equal. apply IH.
Qed.

End Moments.

(** ** The pipeline, step by step *)

Section Pipeline.

Lemma bind_run {A B} (m : py A) (f : A -> py B) self :
  (m ≫= f) self =
  match m self with
  | (inl e, self') => (inl e, self')
  | (inr x, self') => f x self'
  end.
Proof. reflexivity. Qed.

(** Normalisation keeps the [TotalPnL] column. *)
Lemma preprocess_pnl_total df :
  TotalPnL <$> pnl_records (preprocess_pnl df) = TotalPnL <$> pnl_records df.
Proof.
  unfold preprocess_pnl. destruct (pnl_Timestamp df); simpl;
    unfold Series.fillna; generalize (pnl_records df) as rows;
    induction rows as [|r rows IH]; simpl; f_equal; auto.
Qed.

Lemma preprocess_pnl_cumulative df :
  pnl_CumulativePnL (preprocess_pnl df) = Some (Series.cumsum (TotalPnL <$> pnl_records df)).
Proof. unfold preprocess_pnl. destruct (pnl_Timestamp df); reflexivity. Qed.

Lemma calculate_pnl_metrics_run df self last_pnl cum :
  last (TotalPnL <$> pnl_records df) = Some last_pnl ->
  pnl_CumulativePnL df = Some cum ->
  let total_pnl := TotalPnL <$> pnl_records df in
  let returns := Series.dropna (Series.pct_change total_pnl) in
  let v := (Series.std returns * F64.sqrt252)%float in
  calculate_pnl_metrics df self =
  (inr tt,
   with_metrics
     (<["SharpeRatio" := sharpe_value returns v]>
      (<["Volatility" := PyFloat v]>
       (<["MaxDrawdown" := PyFloat (Series.min (drawdown cum))]>
        (<["MinPnL" := PyFloat (Series.min total_pnl)]>
         (<["MaxPnL" := PyFloat (Series.max total_pnl)]>
          (<["TotalPnL" := PyFloat last_pnl]> (performance_metrics self)))))))
     self).
Proof.
  intros Hl Hc. cbv zeta. unfold calculate_pnl_metrics, iloc_last, column.
  rewrite Hl, Hc.
  unfold mbind, py_bind, mret, py_ret, set_metric, get_metric, with_metrics; simpl.
  rewrite lookup_insert_eq. unfold py_gt0, sharpe_value.
  destruct (0 <? _)%float; reflexivity.
Qed.

Lemma calculate_trade_metrics_run df self :
  let rows := trade_records df in
  calculate_trade_metrics df self =
  (inr tt,
   with_metrics
     (<["PriceRange" :=
          PyFloat (Series.max (Price <$> rows) - Series.min (Price <$> rows))%float]>
      (<["AvgTradePrice" := PyFloat (Series.mean (Price <$> rows))]>
       (<["AvgTradeSize" := PyFloat (Series.mean (Quantity <$> rows))]>
        (<["TotalVolume" := PyFloat (Series.sum (Quantity <$> rows))]>
         (<["SellTrades" :=
              PyInt (Z.of_nat (length (List.filter (side_eq (-1)) rows)))]>
          (<["BuyTrades" :=
               PyInt (Z.of_nat (length (List.filter (side_eq 1) rows)))]>
           (<["TotalTrades" := PyInt (Z.of_nat (length rows))]>
              (performance_metrics self))))))))
     self).
Proof. reflexivity. Qed.

(** [load_data] on a fresh analyzer. *)
Lemma load_data_init d :
  load_data d init =
  (inr (bool_decide (pnl_files d <> []) || bool_decide (trade_files d <> [])
        || bool_decide (orderbook_files d <> [])),
   {| pnl_data := head (pnl_files d); trade_data := head (trade_files d);
      orderbook_data := head (orderbook_files d); performance_metrics := ∅ |}).
Proof.
  unfold load_data, init, mbind, py_bind, get_self, put_self, mret, py_ret; simpl.
  destruct (pnl_files d), (trade_files d), (orderbook_files d); reflexivity.
Qed.

(** The state [calculate_performance_metrics] starts from in [run_analysis]:
    the loaded tables, normalised. *)
Lemma run_analysis_init d :
  run_analysis d init =
  if bool_decide (pnl_files d <> []) || bool_decide (trade_files d <> [])
     || bool_decide (orderbook_files d <> [])
  then
    match calculate_performance_metrics
            {| pnl_data := preprocess_pnl <$> head (pnl_files d);
               trade_data := preprocess_trades <$> head (trade_files d);
               orderbook_data := head (orderbook_files d);
               performance_metrics := ∅ |} with
    | (inl e, a) => (inl e, a)
    | (inr _, a) => (inr true, a)
    end
  else (inr false, init).
Proof.
  unfold run_analysis. rewrite bind_run, load_data_init.
  destruct (pnl_files d), (trade_files d), (orderbook_files d); simpl;
    try reflexivity;
    unfold preprocess_data; rewrite !bind_run; simpl; rewrite bind_run;
    destruct (calculate_performance_metrics _) as [[e|[]] a]; reflexivity.
Qed.

Lemma calculate_performance_metrics_run self :
  calculate_performance_metrics self =
  match pnl_data self with
  | Some df =>
      match calculate_pnl_metrics df self with
      | (inl e, a) => (inl e, a)
      | (inr _, a) =>
          match trade_data a with
          | Some tf => calculate_trade_metrics tf a
          | None => (inr tt, a)
          end
      end
  | None =>
      match trade_data self with
      | Some tf => calculate_trade_metrics tf self
      | None => (inr tt, self)
      end
  end.
Proof.
  unfold calculate_performance_metrics, mbind, py_bind, get_self, mret, py_ret.
  destruct (pnl_data self) as [df|].
  - destruct (calculate_pnl_metrics df self) as [[e|[]] a]; [reflexivity|].
    destruct (trade_data a); reflexivity.
  - destruct (trade_data self); reflexivity.
Qed.

End Pipeline.

(** ** What a run leaves in the analyzer *)

Section Runs.

(** A PnL frame with at least one row: [iloc[-1]] succeeds. *)
Lemma last_total_pnl (f : pnl_frame) :
  pnl_records f <> [] -> is_Some (last (TotalPnL <$> pnl_records f)).
Proof.
  intros Hne. destruct (last (TotalPnL <$> pnl_records f)) eqn:E; [eauto|].
  apply last_None, fmap_nil_inv in E. contradiction.
Qed.

(** The run on a directory whose first PnL file has a row: the six PnL
    metrics, as [calculate_performance_metrics] computes them. *)
Lemma run_with_pnl d f rest :
  pnl_files d = f :: rest -> pnl_records f <> [] ->
  let total_pnl := TotalPnL <$> pnl_records f in
  let returns := Series.dropna (Series.pct_change total_pnl) in
  let v := (Series.std returns * F64.sqrt252)%float in
  exists a,
    run_analysis d init = (inr true, a) /\
    pnl_data a = Some (preprocess_pnl f) /\
    trade_data a = preprocess_trades <$> head (trade_files d) /\
    metric "TotalPnL" a = PyFloat <$> last total_pnl /\
    metric "MaxPnL" a = Some (PyFloat (Series.max total_pnl)) /\
    metric "MinPnL" a = Some (PyFloat (Series.min total_pnl)) /\
    metric "MaxDrawdown" a =
      Some (PyFloat (Series.min (drawdown (Series.cumsum total_pnl)))) /\
    metric "Volatility" a = Some (PyFloat v) /\
    metric "SharpeRatio" a = Some (sharpe_value returns v).
Proof.
  intros Hd Hne. cbv zeta.
  destruct (last_total_pnl f Hne) as [lp Hl].
  rewrite run_analysis_init, Hd. simpl.
  rewrite calculate_performance_metrics_run. simpl.
  erewrite calculate_pnl_metrics_run;
    [| rewrite preprocess_pnl_total; exact Hl | apply preprocess_pnl_cumulative].
  rewrite preprocess_pnl_total. simpl.
  destruct (head (trade_files d)) as [tf|]; simpl.
  - eexists. split; [reflexivity|].
    unfold metric; simpl. rewrite Hl.
    repeat split; try reflexivity.
  - eexists. split; [reflexivity|]. unfold metric; simpl. rewrite Hl.
    repeat split; try reflexivity.
Qed.

End Runs.

(** ** Presence and absence of the tables *)

Section Absence.

(** [calculate_pnl_metrics] leaves the tables alone and writes PnL keys
    only, also when it raises. *)
Lemma calculate_pnl_metrics_frame df self :
  let a := (calculate_pnl_metrics df self).2 in
  pnl_data a = pnl_data self /\ trade_data a = trade_data self /\
  orderbook_data a = orderbook_data self /\
  forall k, k ∉ pnl_keys -> metric k a = metric k self.
Proof.
  cbv zeta. run_monad.
  destruct (last (TotalPnL <$> pnl_records df)) as [lp|]; simpl; [|auto].
  destruct (pnl_CumulativePnL df) as [cum|]; simpl.
  - rewrite lookup_insert_eq. simpl.
    destruct (0 <? _)%float; simpl; repeat split; intros k Hk; unfold metric; simpl;
      unfold pnl_keys in Hk; rewrite !lookup_insert_ne; set_solver.
  - repeat split. intros k Hk. unfold metric; simpl.
    unfold pnl_keys in Hk; rewrite !lookup_insert_ne; set_solver.
Qed.

Lemma calculate_trade_metrics_frame df self :
  let a := (calculate_trade_metrics df self).2 in
  pnl_data a = pnl_data self /\ trade_data a = trade_data self /\
  orderbook_data a = orderbook_data self /\
  forall k, k ∉ trade_keys -> metric k a = metric k self.
Proof.
  cbv zeta. run_monad. repeat split. intros k Hk. unfold metric; simpl.
  unfold trade_keys in Hk; rewrite !lookup_insert_ne; set_solver.
Qed.

End Absence.

Section AbsenceClaims.

Lemma analyze_unfold d :
  analyze d =
  if bool_decide (pnl_files d <> []) || bool_decide (trade_files d <> [])
     || bool_decide (orderbook_files d <> [])
  then
    (calculate_performance_metrics
       {| pnl_data := preprocess_pnl <$> head (pnl_files d);
          trade_data := preprocess_trades <$> head (trade_files d);
          orderbook_data := head (orderbook_files d);
          performance_metrics := ∅ |}).2
  else init.
Proof.
  unfold analyze. rewrite run_analysis_init.
  destruct (_ || _ || _); [|reflexivity].
  destruct (calculate_performance_metrics _) as [[e|[]] a]; reflexivity.
Qed.

Lemma trade_key_not_pnl k : k ∈ trade_keys -> k ∉ pnl_keys.
Proof.
  revert k. apply Forall_forall.
  apply (bool_decide_unpack _). vm_compute. exact I.
Qed.

Lemma pnl_key_not_trade k : k ∈ pnl_keys -> k ∉ trade_keys.
Proof.
  revert k. apply Forall_forall.
  apply (bool_decide_unpack _). vm_compute. exact I.
Qed.

End AbsenceClaims.

(** ** Trade counts *)

Section TradeCounts.

Lemma side_eq_buy r : side_eq 1 (map_side_row r) = is_side "BUY" (Side r).
Proof.
  unfold side_eq, map_side_row, is_side; simpl. destruct (Side r) as [s|x]; simpl; [|reflexivity].
  destruct (String.eqb s "BUY"); [reflexivity|].
  destruct (String.eqb s "SELL"); reflexivity.
Qed.

Lemma side_eq_sell r : side_eq (-1) (map_side_row r) = is_side "SELL" (Side r).
Proof.
  unfold side_eq, map_side_row, is_side; simpl. destruct (Side r) as [s|x]; simpl; [|reflexivity].
  destruct (String.eqb_spec s "BUY") as [->|]; [reflexivity|].
  destruct (String.eqb s "SELL"); reflexivity.
Qed.

Lemma count_sides (rows : list trade_record) :
  length rows =
  length (List.filter (side_eq 1) (map_side_row <$> rows))
  + length (List.filter (side_eq (-1)) (map_side_row <$> rows))
  + length (List.filter (fun r => negb (recognised_side (Side r))) rows).
Proof.
  induction rows as [|r rows IH]; [reflexivity|].
  cbn [fmap list_fmap List.filter length].
  rewrite side_eq_buy, side_eq_sell. unfold is_side.
  destruct (Side r) as [s|x]; cbn [recognised_side negb length]; [|lia].
  destruct (String.eqb_spec s "BUY") as [->|]; cbn [orb negb length];
    [change ("BUY" =? "SELL")%string with false; cbn [length]; lia|].
  destruct (String.eqb s "SELL"); cbn [negb length]; lia.
Qed.

Lemma trade_metrics_of_run d f rest a :
  trade_files d = f :: rest -> run_analysis d init = (inr true, a) ->
  let rows := map_side_row <$> trade_records f in
  metric "TotalTrades" a = Some (PyInt (Z.of_nat (length rows))) /\
  metric "BuyTrades" a =
    Some (PyInt (Z.of_nat (length (List.filter (side_eq 1) rows)))) /\
  metric "SellTrades" a =
    Some (PyInt (Z.of_nat (length (List.filter (side_eq (-1)) rows)))).
Proof.
  intros Hd Hr. cbv zeta. rewrite run_analysis_init, Hd in Hr.
  rewrite orb_true_r in Hr. cbn [orb head fmap option_fmap option_map] in Hr.
  rewrite calculate_performance_metrics_run in Hr.
  cbn -[calculate_pnl_metrics calculate_trade_metrics] in Hr.
  assert (Hfin : forall self, trade_data self = Some (preprocess_trades f) ->
            forall r, calculate_trade_metrics (preprocess_trades f) self = (inr r, a) ->
            metric "TotalTrades" a = Some (PyInt (Z.of_nat (length (map_side_row <$> trade_records f)))) /\
            metric "BuyTrades" a =
              Some (PyInt (Z.of_nat (length (List.filter (side_eq 1) (map_side_row <$> trade_records f))))) /\
            metric "SellTrades" a =
              Some (PyInt (Z.of_nat (length (List.filter (side_eq (-1)) (map_side_row <$> trade_records f)))))).
  { intros self _ r E. rewrite calculate_trade_metrics_run in E.
    injection E as _ <-. unfold metric, with_metrics; cbn [performance_metrics].
    replace (trade_records (preprocess_trades f)) with (map_side_row <$> trade_records f)
      by (unfold preprocess_trades; destruct (trade_Timestamp f); reflexivity).
    repeat split; rewrite ?lookup_insert_ne by done; apply lookup_insert_eq. }
  destruct (head (pnl_files d)) as [df|];
    cbn -[calculate_pnl_metrics calculate_trade_metrics] in Hr.
  - match type of Hr with context [calculate_pnl_metrics ?g ?s] =>
      destruct (calculate_pnl_metrics_frame g s) as (_ & Ht & _);
      destruct (calculate_pnl_metrics g s) as [[e|[]] a1] end;
      cbn -[calculate_trade_metrics] in *; [discriminate|].
    rewrite Ht in Hr.
    destruct (calculate_trade_metrics (preprocess_trades f) a1) as [[e|r] a2] eqn:E;
      [discriminate|].
    injection Hr as <-. eapply Hfin; eauto.
  - match type of Hr with context [calculate_trade_metrics ?g ?s] =>
      destruct (calculate_trade_metrics g s) as [[e|r] a2] eqn:E end; [discriminate|].
    injection Hr as <-. eapply Hfin; eauto. reflexivity.
Qed.

End TradeCounts.

(** ** Normalisation is a function of the loaded tables *)

Section Determinism.

(** Re-normalising a normalised PnL frame changes nothing: the index is
    kept, the missing DailyPnL cells are already 0 and the running sum is
    taken again from the same TotalPnL column. *)
Lemma preprocess_pnl_idempotent df :
  preprocess_pnl (preprocess_pnl df) = preprocess_pnl df.
Proof.
  assert (Hfill : forall l, Series.fillna 0 (Series.fillna 0 l) = Series.fillna 0 l).
  { unfold Series.fillna. induction l as [|x l IH]; [reflexivity|].
    cbn [map]. rewrite IH. f_equal.
    unfold Series.isna. destruct (is_nan x) eqn:E; [reflexivity|now rewrite E]. }
  assert (Hd : forall rows,
    DailyPnL <$> zip_with (fun r daily => {| TotalPnL := TotalPnL r; DailyPnL := daily |})
                   rows (Series.fillna 0 (DailyPnL <$> rows))
    = Series.fillna 0 (DailyPnL <$> rows)).
  { unfold Series.fillna. induction rows as [|r rows IH]; [reflexivity|].
    cbn [fmap list_fmap map zip_with DailyPnL]. f_equal. exact IH. }
  assert (Hz : forall rows,
    zip_with (fun r daily => {| TotalPnL := TotalPnL r; DailyPnL := daily |})
      (zip_with (fun r daily => {| TotalPnL := TotalPnL r; DailyPnL := daily |})
         rows (Series.fillna 0 (DailyPnL <$> rows)))
      (Series.fillna 0 (Series.fillna 0 (DailyPnL <$> rows)))
    = zip_with (fun r daily => {| TotalPnL := TotalPnL r; DailyPnL := daily |})
        rows (Series.fillna 0 (DailyPnL <$> rows))).
  { intros rows. rewrite Hfill. unfold Series.fillna.
    induction rows as [|r rows IH]; [reflexivity|].
    cbn [fmap list_fmap map zip_with TotalPnL]. f_equal. exact IH. }
  pose proof (preprocess_pnl_total df) as Ht.
  unfold preprocess_pnl in *.
  destruct (pnl_Timestamp df); cbn [pnl_Timestamp pnl_index pnl_records] in *;
    rewrite Ht, Hd, Hz; reflexivity.
Qed.

End Determinism.

(** ** Normalising a second time *)

Section SecondNormalisation.
Local Open Scope float_scope.

Lemma map_side_twice c : map_side (map_side c) = Num nan.
Proof.
  destruct c as [s|x]; cbn; [|reflexivity].
  destruct (String.eqb s "BUY"); [reflexivity|].
  destruct (String.eqb s "SELL"); reflexivity.
Qed.

Lemma side_eq_nan v r : Side r = Num nan -> side_eq v r = false.
Proof.
  intros H. unfold side_eq. rewrite H. rewrite FloatAxioms.eqb_spec. reflexivity.
Qed.

Lemma filter_none {A} (p : A -> bool) l :
  Forall (fun x => p x = false) l -> List.filter p l = [].
Proof.
  induction 1 as [|x l Hx _ IH]; [reflexivity|]. cbn. now rewrite Hx.
Qed.

Lemma preprocess_trades_records f :
  trade_records (preprocess_trades f) = map_side_row <$> trade_records f.
Proof. unfold preprocess_trades. destruct (trade_Timestamp f); reflexivity. Qed.

Lemma map_side_nan c : map_side c = Num nan <-> recognised_side c = false.
Proof.
  destruct c as [s|x]; cbn; [|tauto].
  destruct (String.eqb s "BUY"); cbn.
  - split; [|discriminate]. intros E.
    apply (f_equal cell_isna) in E. discriminate.
  - destruct (String.eqb s "SELL"); [|tauto].
    split; [|discriminate]. intros E.
    apply (f_equal cell_isna) in E. discriminate.
Qed.

Lemma map_side_row_twice rows :
  map_side_row <$> (map_side_row <$> rows) = map_side_row <$> rows <->
  Forall (fun r => recognised_side (Side r) = false) rows.
Proof.
  induction rows as [|r rows IH]; [split; [constructor|reflexivity]|].
  cbn [fmap list_fmap]. split.
  - intros E. injection E as Er Erows. constructor; [|now apply IH].
    rewrite map_side_twice in Er.
    now apply map_side_nan.
  - intros [Hr Hrows]%Forall_cons. f_equal; [|now apply IH].
    unfold map_side_row. cbn [Price Quantity Side]. f_equal.
    rewrite map_side_twice. symmetry. now apply map_side_nan.
Qed.

Lemma map_side_row_price (rows : list trade_record) : Price <$> (map_side_row <$> rows) = Price <$> rows.
Proof. rewrite <- list_fmap_compose. reflexivity. Qed.

Lemma map_side_row_quantity (rows : list trade_record) :
  Quantity <$> (map_side_row <$> rows) = Quantity <$> rows.
Proof. rewrite <- list_fmap_compose. reflexivity. Qed.

(** The trade table normalised twice against the table normalised once. *)
Lemma preprocess_trades_twice tf :
  let t1 := preprocess_trades tf in
  let t2 := preprocess_trades t1 in
  trade_TradeValue t2 = trade_TradeValue t1 /\
  trade_index t2 = trade_index t1 /\
  Price <$> trade_records t2 = Price <$> trade_records t1 /\
  Quantity <$> trade_records t2 = Quantity <$> trade_records t1 /\
  Side <$> trade_records t2 = (fun _ => Num nan) <$> trade_records tf /\
  (t2 = t1 <-> Forall (fun r => recognised_side (Side r) = false) (trade_records tf)).
Proof.
  cbv zeta.
  assert (E : preprocess_trades (preprocess_trades tf) =
              {| trade_Timestamp := None; trade_index := trade_index (preprocess_trades tf);
                 trade_records := map_side_row <$> (map_side_row <$> trade_records tf);
                 trade_TradeValue := trade_TradeValue (preprocess_trades tf) |}).
  { unfold preprocess_trades.
    destruct (trade_Timestamp tf); cbn [trade_Timestamp trade_index trade_records];
      rewrite map_side_row_price, map_side_row_quantity; reflexivity. }
  rewrite E. cbn [trade_TradeValue trade_index trade_records].
  rewrite preprocess_trades_records.
  rewrite !map_side_row_price, !map_side_row_quantity.
  repeat split.
  - rewrite <- !list_fmap_compose. apply list_fmap_ext. intros i r _. cbn.
    apply map_side_twice.
  - intros H. apply map_side_row_twice. apply (f_equal trade_records) in H.
    cbn [trade_records] in H. now rewrite preprocess_trades_records in H.
  - intros H%map_side_row_twice. rewrite H.
    unfold preprocess_trades. destruct (trade_Timestamp tf); reflexivity.
Qed.

Lemma preprocess_trades_thrice tf :
  preprocess_trades (preprocess_trades (preprocess_trades tf))
  = preprocess_trades (preprocess_trades tf).
Proof.
  destruct (preprocess_trades_twice (preprocess_trades tf)) as (_ & _ & _ & _ & _ & H).
  apply H. rewrite preprocess_trades_records. apply Forall_fmap, Forall_true.
  intros r. cbn. destruct (Side r) as [s|x]; cbn; [|reflexivity].
  destruct (String.eqb s "BUY"); [reflexivity|].
  destruct (String.eqb s "SELL"); reflexivity.
Qed.

Lemma preprocess_data_run self :
  preprocess_data self =
  (inr tt, {| pnl_data := preprocess_pnl <$> pnl_data self;
              trade_data := preprocess_trades <$> trade_data self;
              orderbook_data := orderbook_data self;
              performance_metrics := performance_metrics self |}).
Proof. reflexivity. Qed.

(** After a second normalisation no trade is counted on a side. *)
Lemma counts_after_second_normalisation self tf a :
  trade_data self = Some tf ->
  calculate_performance_metrics (preprocess_data (preprocess_data self).2).2 = (inr tt, a) ->
  metric "TotalTrades" a = Some (PyInt (Z.of_nat (length (trade_records tf)))) /\
  metric "BuyTrades" a = Some (PyInt 0) /\
  metric "SellTrades" a = Some (PyInt 0).
Proof.
  intros Ht Ha. rewrite !preprocess_data_run in Ha.
  cbn [fst snd pnl_data trade_data orderbook_data performance_metrics] in Ha.
  rewrite Ht in Ha. cbn [fmap option_fmap option_map] in Ha.
  set (tf2 := preprocess_trades (preprocess_trades tf)) in *.
  assert (Hrec : trade_records tf2 = map_side_row <$> (map_side_row <$> trade_records tf)).
  { subst tf2. now rewrite !preprocess_trades_records. }
  assert (Hside : Forall (fun r => Side r = Num nan) (trade_records tf2)).
  { rewrite Hrec. apply Forall_fmap, Forall_fmap, Forall_true. intros r. cbn.
    apply map_side_twice. }
  rewrite calculate_performance_metrics_run in Ha.
  cbn -[calculate_pnl_metrics calculate_trade_metrics] in Ha.
  assert (Hfin : forall s, calculate_trade_metrics tf2 s = (inr tt, a) ->
    metric "TotalTrades" a = Some (PyInt (Z.of_nat (length (trade_records tf)))) /\
    metric "BuyTrades" a = Some (PyInt 0) /\ metric "SellTrades" a = Some (PyInt 0)).
  { intros s E. rewrite calculate_trade_metrics_run in E. injection E as <-.
    unfold metric, with_metrics; cbn [performance_metrics].
    rewrite !(filter_none (side_eq _)) by
      (eapply Forall_impl; [exact Hside|]; intros r Hr; now apply side_eq_nan).
    rewrite Hrec, !length_fmap.
    repeat split; rewrite ?lookup_insert_ne by done; apply lookup_insert_eq. }
  destruct (pnl_data self) as [pf|];
    cbn -[calculate_pnl_metrics calculate_trade_metrics] in Ha.
  + match type of Ha with context [calculate_pnl_metrics ?g ?s] =>
      pose proof (calculate_pnl_metrics_frame g s) as (_ & Hf & _);
      destruct (calculate_pnl_metrics g s) as [[e|[]] a1] end; [discriminate|].
    cbn [snd trade_data] in Hf. rewrite Hf in Ha. eauto.
  + eauto.
Qed.

End SecondNormalisation.

(** ** The drawdown at a zero running peak *)

Section ZeroPeak.
Import F64Facts F64Special.
Local Open Scope float_scope.

Lemma drawdown_lookup cumulative i c m :
  cumulative !! i = Some c ->
  Series.expanding_max cumulative !! i = Some m ->
  drawdown cumulative !! i = Some ((c - m) / m).
Proof.
  intros Hc Hm. unfold drawdown, Series.div, Series.sub.
  rewrite !lookup_zip_with, Hc, Hm. reflexivity.
Qed.

End ZeroPeak.

(** ** The sign of the maximum drawdown *)

Section DrawdownSign.
Import F64Facts F64Special.
Local Open Scope float_scope.

Lemma finite_nonzero_spec x :
  F64.is_finite_nonzero x = true <-> exists s m e, Prim2SF x = S754_finite s m e.
Proof.
  unfold F64.is_finite_nonzero. rewrite andb_true_iff, negb_true_iff, is_finite_spec.
  unfold is_zero. change zero with 0. rewrite FloatAxioms.eqb_spec, Prim2SF_0.
  destruct (Prim2SF x) as [[]|[]| |[] m e]; cbn; split;
    try (intros [? ?]; try contradiction; discriminate);
    try (intros (? & ? & ? & ?); discriminate); eauto.
Qed.

(** At the first row the cumulative value is its own running maximum, and
    the ratio 0 / x is a zero. *)
Lemma ratio_self x :
  F64.is_finite_nonzero x = true -> exists s, Prim2SF ((x - x) / x) = S754_zero s.
Proof.
  intros (s & m & e & Hx)%finite_nonzero_spec.
  rewrite div_spec, sub_spec, Hx.
  unfold SF64sub, SFsub. rewrite Z.sub_diag. cbn. eauto.
Qed.

Lemma leb_zero x s : Prim2SF x = S754_zero s -> (x <=? 0) = true.
Proof. intros H. rewrite FloatAxioms.leb_spec, H, Prim2SF_0. reflexivity. Qed.

Lemma cumsum_head x s :
  is_nan x = false -> exists cs, Series.cumsum (x :: s) = x :: cs.
Proof.
  intros Hx. unfold Series.cumsum, Series.fillna, Series.np_cumsum, Series.isna.
  cbn [map zip_with]. rewrite Hx. eauto.
Qed.

Lemma drawdown_head x cs :
  is_nan x = false -> exists ds, drawdown (x :: cs) = ((x - x) / x) :: ds.
Proof.
  intros Hx. unfold drawdown, Series.expanding_max, Series.div, Series.sub.
  cbn [Series.expanding_max_from]. unfold Series.isna. rewrite Hx.
  cbn [default zip_with]. eauto.
Qed.

(** The maximum drawdown of a table whose first value is a non-zero finite
    number is at most the ratio at the first row, which is 0. *)
Lemma max_drawdown_nonpositive x s :
  F64.is_finite_nonzero x = true ->
  (Series.min (drawdown (Series.cumsum (x :: s))) <=? 0) = true.
Proof.
  intros Hx.
  assert (Hn : is_nan x = false).
  { apply finite_nonzero_spec in Hx as (sg & m & e & Hx). apply is_nan_false.
    rewrite Hx. discriminate. }
  destruct (cumsum_head x s Hn) as [cs ->].
  destruct (drawdown_head x cs Hn) as [ds ->].
  destruct (ratio_self x Hx) as [sg Hz].
  apply leb_trans with (y := (x - x) / x); [|now apply leb_zero with (s := sg)].
  apply min_le; [now left|]. apply is_nan_false. rewrite Hz. discriminate.
Qed.

End DrawdownSign.

(** ** A column that never decreases has no drawdown *)

Section Monotone.
Import F64Facts F64Special F64Round.
Local Open Scope float_scope.

Lemma ltb_nan_l x y : is_nan x = true -> (x <? y) = false.
Proof. rewrite is_nan_spec, FloatAxioms.ltb_spec. intros ->. reflexivity. Qed.

Lemma ltb_not_leb x y : (x <? y) = true -> (y <=? x) = false.
Proof. rewrite FloatAxioms.ltb_spec, FloatAxioms.leb_spec. apply SFltb_not_leb. Qed.

Lemma leb_false_ltb x y :
  is_nan x = false -> is_nan y = false -> (x <=? y) = false -> (y <? x) = true.
Proof.
  intros Hx Hy H. destruct (y <? x) eqn:E; [reflexivity|].
  rewrite (leb_total x y Hx Hy E) in H. discriminate.
Qed.

Lemma sub_pos_lt c m : (0 <? c - m) = true -> (m <? c) = true.
Proof.
  rewrite !FloatAxioms.ltb_spec, sub_spec, Prim2SF_0.
  apply SFsub_pos_lt; apply Prim2SF_valid.
Qed.

Lemma sub_neg_lt c m : (c - m <? 0) = true -> (c <? m) = true.
Proof.
  rewrite !FloatAxioms.ltb_spec, sub_spec, Prim2SF_0.
  apply SFsub_neg_lt; apply Prim2SF_valid.
Qed.

Lemma add_ge c x : (0 <=? c) = true -> (0 <=? x) = true -> (c <=? c + x) = true.
Proof.
  rewrite !FloatAxioms.leb_spec, Prim2SF_0. intros Hc Hx.
  pose proof (Prim2SF_valid (c + x)) as Hv. rewrite add_spec in *.
  apply SFadd_ge; auto using Prim2SF_valid.
Qed.

Lemma sign_bit_cases x :
  is_nan x = false ->
  F64.sign_bit (Prim2SF x) = Some false \/ F64.sign_bit (Prim2SF x) = Some true.
Proof.
  intros H%is_nan_false. destruct (Prim2SF x) as [[]|[]| |[] ? ?]; cbn; auto; congruence.
Qed.

(** The drawdown ratio of a state of the scan is not below zero. *)
Lemma peak_invariant_ratio c m x :
  peak_invariant c m x -> ((c - m) / m <? 0) = false.
Proof.
  intros (Hm & H2 & H3). destruct ((c - m) / m <? 0) eqn:E; [exfalso|reflexivity].
  pose proof E as E'. rewrite FloatAxioms.ltb_spec, div_spec, Prim2SF_0 in E'.
  apply SFdiv_neg in E' as [[Hneg Hs]|[Hpos Hs]].
  - rewrite <- Prim2SF_0, <- FloatAxioms.ltb_spec in Hneg. apply sub_neg_lt in Hneg.
    destruct (H3 Hs) as [_ [Hc|Hc]].
    + rewrite (ltb_nan_l _ _ Hc) in Hneg. discriminate.
    + rewrite (ltb_not_leb _ _ Hneg) in Hc. discriminate.
  - rewrite <- Prim2SF_0, <- FloatAxioms.ltb_spec in Hpos. apply sub_pos_lt in Hpos.
    destruct H2 as [Hc|[->|Hc]].
    + rewrite ltb_nan_r in Hpos by exact Hc. discriminate.
    + pose proof (ltb_not_leb _ _ Hpos) as Hn.
      rewrite leb_refl in Hn; [discriminate|].
      apply is_nan_false. intros Hc. rewrite Hc in Hs. discriminate.
    + pose proof (ltb_not_leb _ _ Hpos) as Hn. rewrite (ltb_leb _ _ Hc) in Hn. discriminate.
Qed.

(** One row further: the invariant is kept when the next value is not
    below the current one. *)
Lemma peak_invariant_step c m x x' :
  peak_invariant c m x -> (x <=? x') = true ->
  let c' := c + x' in
  let m' := if is_nan c' then m else if m <=? c' then c' else m in
  peak_invariant c' m' x'.
Proof.
  intros (Hm & H2 & H3) Hx c' m'.
  pose proof (leb_not_nan_r _ _ Hx) as Hx'.
  assert (H0x : F64.sign_bit (Prim2SF m) = Some false -> (0 <=? x') = true).
  { intros Hs. destruct (H3 Hs) as [H _]. eauto using leb_trans. }
  subst m'. destruct (is_nan c') eqn:Ec'.
  - repeat split; auto.
  - assert (Hc : is_nan c = false).
    { destruct (is_nan c) eqn:Ec; [|reflexivity].
      subst c'. rewrite add_nan_l in Ec' by exact Ec. discriminate. }
    destruct (m <=? c') eqn:Emc.
    + repeat split; auto.
      * destruct (sign_bit_cases m Hm) as [Hs|Hs]; [auto|].
        assert (Hsc : F64.sign_bit (Prim2SF c) = Some true).
        { destruct H2 as [Hn|[<-|Hlt]]; [congruence|exact Hs|].
          rewrite FloatAxioms.ltb_spec in Hlt. eapply SFltb_sign_true; eauto. }
        rewrite FloatAxioms.leb_spec, Prim2SF_0.
        apply SFadd_sign_flip with (a := Prim2SF c); [exact Hsc|].
        rewrite <- add_spec. exact H.
      * right. now apply leb_refl.
    + repeat split; auto.
      * right. right. now apply leb_false_ltb.
      * exfalso. destruct (H3 H) as [H0 [Hn|Hmc]]; [congruence|].
        assert (H0m : (0 <=? m) = true).
        { rewrite FloatAxioms.leb_spec, Prim2SF_0. now apply sign_false_nonneg. }
        assert (Hcc : (c <=? c') = true).
        { apply add_ge; eauto using leb_trans. }
        rewrite (leb_trans _ _ _ Hmc Hcc) in Emc. discriminate.
Qed.

Lemma drawdown_tail_nonneg xs : forall c m x,
  peak_invariant c m x -> nondecreasing (x :: xs) = true ->
  let cs := Series.np_accumulate PrimFloat.add c xs in
  let ms := Series.expanding_max_from (Some m) cs in
  Forall (fun r => (r <? 0) = false) (Series.div (Series.sub cs ms) ms).
Proof.
  induction xs as [|x' xs IH]; intros c m x Hinv Hnd; cbv zeta; [constructor|].
  cbn [nondecreasing] in Hnd. apply andb_true_iff in Hnd as [Hx Hnd].
  pose proof (peak_invariant_step c m x x' Hinv Hx) as Hstep. cbv zeta in Hstep.
  cbn [Series.np_accumulate Series.expanding_max_from]. unfold Series.isna.
  set (c' := c + x') in *.
  set (best' := if is_nan c' then Some m else Some (if m <=? c' then c' else m)).
  assert (Hb : best' = Some (if is_nan c' then m else if m <=? c' then c' else m)).
  { subst best'. destruct (is_nan c'); reflexivity. }
  rewrite Hb. cbn [default]. unfold Series.div, Series.sub. cbn [zip_with].
  constructor.
  - eapply peak_invariant_ratio; eauto.
  - apply (IH _ _ _ Hstep Hnd).
Qed.

Lemma nondecreasing_notna xs : forall x,
  is_nan x = false -> nondecreasing (x :: xs) = true ->
  Forall (fun y => is_nan y = false) (x :: xs).
Proof.
  induction xs as [|y xs IH]; intros x Hx Hnd; constructor; auto.
  cbn [nondecreasing] in Hnd. apply andb_true_iff in Hnd as [Hxy Hnd].
  apply IH; [|exact Hnd]. eapply leb_not_nan_r; eauto.
Qed.

Lemma cumsum_notna s :
  Forall (fun y => is_nan y = false) s -> Series.cumsum s = Series.np_cumsum s.
Proof.
  intros Hs. unfold Series.cumsum.
  assert (Hf : Series.fillna 0 s = s).
  { unfold Series.fillna. induction Hs as [|y s Hy Hs IH]; [reflexivity|].
    cbn [map]. unfold Series.isna at 1. now rewrite Hy, IH. }
  rewrite Hf. clear Hf.
  assert (Hz : forall l, length l = length s ->
            zip_with (fun v r : float => if Series.isna v then nan else r) s l = l).
  { induction Hs as [|y s Hy Hs IH]; intros [|r l] Hl; try discriminate; [reflexivity|].
    cbn [zip_with]. unfold Series.isna at 1. rewrite Hy, IH; [reflexivity|].
    cbn in Hl. lia. }
  apply Hz. destruct s as [|x s]; [reflexivity|]. cbn [Series.np_cumsum length]. f_equal.
  clear. revert x. induction s as [|y s IH]; intros x; [reflexivity|].
  cbn [Series.np_accumulate length]. now rewrite IH.
Qed.

(** No ratio of the drawdown series of a column that never decreases and
    starts at a number is below zero. *)
Lemma drawdown_nonneg x xs :
  is_nan x = false -> nondecreasing (x :: xs) = true ->
  Forall (fun r => (r <? 0) = false) (drawdown (Series.cumsum (x :: xs))).
Proof.
  intros Hn Hnd.
  rewrite cumsum_notna by now apply nondecreasing_notna.
  assert (Hinv : peak_invariant x x x).
  { repeat split; auto.
    - rewrite FloatAxioms.leb_spec, Prim2SF_0. now apply sign_false_nonneg.
    - right. now apply leb_refl. }
  unfold drawdown, Series.expanding_max. cbn [Series.np_cumsum Series.expanding_max_from].
  unfold Series.isna. rewrite Hn. cbn [default]. unfold Series.div, Series.sub.
  cbn [zip_with]. constructor.
  - eapply peak_invariant_ratio; eauto.
  - apply (drawdown_tail_nonneg xs x x x Hinv Hnd).
Qed.

Lemma max_drawdown_zero x xs :
  F64.is_finite_nonzero x = true -> nondecreasing (x :: xs) = true ->
  (Series.min (drawdown (Series.cumsum (x :: xs))) =? 0) = true.
Proof.
  intros Hx Hnd.
  pose proof (max_drawdown_nonpositive x xs Hx) as Hle.
  assert (Hn : is_nan x = false).
  { apply finite_nonzero_spec in Hx as (sg & m & e & Hx). apply is_nan_false.
    rewrite Hx. discriminate. }
  pose proof (drawdown_nonneg x xs Hn Hnd) as Hall.
  assert (Hin : In (Series.min (drawdown (Series.cumsum (x :: xs))))
                   (drawdown (Series.cumsum (x :: xs)))).
  { assert (Hd : Series.dropna (drawdown (Series.cumsum (x :: xs))) <> []).
    { intros E. pose proof (leb_not_nan_l _ _ Hle) as Hnn.
      unfold Series.min, Series.reduce in Hnn. rewrite E in Hnn. discriminate. }
    apply min_In in Hd. unfold Series.dropna in Hd. now apply List.filter_In in Hd. }
  rewrite List.Forall_forall in Hall. specialize (Hall _ Hin).
  revert Hle Hall. rewrite FloatAxioms.leb_spec, FloatAxioms.ltb_spec, FloatAxioms.eqb_spec.
  apply SFleb_ltb_eqb.
Qed.

End Monotone.

(** ** Running peaks and the sign of the maximum drawdown *)

Section Peaks.
Import F64Facts F64Special F64Round.
Local Open Scope float_scope.

(** A running maximum that is a number is the value of a row at which the
    column is its own running maximum. *)
Lemma expanding_max_from_attained s : forall best j m,
  Series.expanding_max_from best s !! j = Some m -> is_nan m = false ->
  best = Some m \/
  exists k, s !! k = Some m /\ Series.expanding_max_from best s !! k = Some m.
Proof.
  induction s as [|x s IH]; intros best j m Hj Hm; [discriminate|].
  cbn [Series.expanding_max_from] in *.
  set (best' := if Series.isna x then best
                else match best with
                     | None => Some x
                     | Some b => Some (if b <=? x then x else b)
                     end) in *.
  assert (Hhead : best' = Some m ->
                  best = Some m \/
                  exists k, (x :: s) !! k = Some m /\
                            (default nan best' :: Series.expanding_max_from best' s) !! k
                            = Some m).
  { intros E. subst best'. destruct (Series.isna x); [now left|].
    destruct best as [b|].
    - destruct (b <=? x); [|now left].
      right. exists 0%nat. injection E as <-. split; reflexivity.
    - right. exists 0%nat. injection E as <-. split; reflexivity. }
  destruct j as [|j].
  - cbn in Hj. apply Hhead. destruct best' as [b|]; cbn in Hj.
    + congruence.
    + injection Hj as <-. discriminate.
  - cbn in Hj. destruct (IH best' j m Hj Hm) as [E|(k & Hk & Hmk)]; [now apply Hhead|].
    right. exists (S k). split; assumption.
Qed.

Lemma expanding_max_attained s j m :
  Series.expanding_max s !! j = Some m -> is_nan m = false ->
  exists k, s !! k = Some m /\ Series.expanding_max s !! k = Some m.
Proof.
  intros Hj Hm.
  destruct (expanding_max_from_attained s None j m Hj Hm) as [E|H]; [discriminate|exact H].
Qed.

Lemma drawdown_lookup_inv cumulative j r :
  drawdown cumulative !! j = Some r ->
  exists c m, cumulative !! j = Some c /\ Series.expanding_max cumulative !! j = Some m /\
              r = (c - m) / m.
Proof.
  unfold drawdown, Series.div, Series.sub. intros H.
  apply lookup_zip_with_Some in H as (d & m & -> & Hd & Hm).
  apply lookup_zip_with_Some in Hd as (c & m' & -> & Hc & Hm').
  rewrite Hm in Hm'. injection Hm' as <-. eauto.
Qed.

(** A ratio that is a number above zero other than plus infinity, or a zero,
    is a ratio over a running maximum that is a non-zero finite number. *)
Lemma ratio_above_zero_peak c m :
  is_nan ((c - m) / m) = false -> (c - m) / m <> infinity ->
  ((c - m) / m <=? 0) = false -> F64.is_finite_nonzero m = true.
Proof.
  intros Hn Hi Hp. apply finite_nonzero_spec.
  assert (Hi' : Prim2SF ((c - m) / m) <> S754_infinity false).
  { intros E. apply Hi. apply Prim2SF_inj. now rewrite E. }
  apply is_nan_false in Hn. revert Hn Hi' Hp.
  rewrite FloatAxioms.leb_spec, div_spec, sub_spec, Prim2SF_0.
  destruct (Prim2SF m) as [sm|sm| |sm mm em]; [| | |eauto];
    destruct (Prim2SF c) as [[]|[]| |[] ? ?]; try destruct sm; cbn; congruence.
Qed.

Lemma ratio_zero_peak c m :
  ((c - m) / m =? 0) = true -> F64.is_finite_nonzero m = true.
Proof.
  intros Hz. apply finite_nonzero_spec. revert Hz.
  rewrite FloatAxioms.eqb_spec, div_spec, sub_spec, Prim2SF_0.
  destruct (Prim2SF m) as [sm|sm| |sm mm em]; [| | |eauto];
    destruct (Prim2SF c) as [[]|[]| |[] ? ?]; try destruct sm; cbn; congruence.
Qed.

(** The ratio at a finite non-zero running peak is a zero. *)
Lemma ratio_at_finite_peak c :
  F64.is_finite_nonzero c = true ->
  is_nan ((c - c) / c) = false /\ ((c - c) / c <=? 0) = true /\ ((c - c) / c =? 0) = true.
Proof.
  intros Hc. destruct (ratio_self c Hc) as [s Hs].
  split; [|split].
  - apply is_nan_false. rewrite Hs. discriminate.
  - now apply leb_zero with (s := s).
  - rewrite FloatAxioms.eqb_spec, Hs, Prim2SF_0. now destruct s.
Qed.

(** The minimum is at most a member that is not above zero, and it is zero
    when no member is below zero and one is zero. *)
Lemma min_nonpositive rs r :
  In r rs -> is_nan r = false -> (r <=? 0) = true -> (Series.min rs <=? 0) = true.
Proof. intros Hin Hn Hle. exact (leb_trans _ _ _ (min_le rs r Hin Hn) Hle). Qed.

Lemma min_member rs :
  is_nan (Series.min rs) = false -> In (Series.min rs) rs.
Proof.
  intros Hn.
  assert (Hd : Series.dropna rs <> []).
  { intros E. unfold Series.min, Series.reduce in Hn. rewrite E in Hn. discriminate. }
  apply min_In in Hd. unfold Series.dropna in Hd. now apply List.filter_In in Hd.
Qed.

Lemma min_zero rs r :
  Forall (fun r' => (r' <? 0) = false) rs ->
  In r rs -> is_nan r = false -> (r <=? 0) = true -> (Series.min rs =? 0) = true.
Proof.
  intros Hall Hin Hn Hle.
  pose proof (min_nonpositive rs r Hin Hn Hle) as Hmin.
  pose proof (min_member rs (leb_not_nan_l _ _ Hmin)) as Hmem.
  rewrite List.Forall_forall in Hall. specialize (Hall _ Hmem).
  revert Hmin Hall.
  rewrite FloatAxioms.leb_spec, FloatAxioms.ltb_spec, FloatAxioms.eqb_spec.
  apply SFleb_ltb_eqb.
Qed.

Lemma reaches_peak_ratio cumulative :
  reaches_peak cumulative ->
  exists r, In r (drawdown cumulative) /\ is_nan r = false /\
            (r <=? 0) = true /\ (r =? 0) = true.
Proof.
  intros (i & c & Hc & Hm & Hfin).
  pose proof (drawdown_lookup cumulative i c c Hc Hm) as Hr.
  destruct (ratio_at_finite_peak c Hfin) as (H1 & H2 & H3).
  exists ((c - c) / c). repeat split; auto.
  apply list_elem_of_In. eapply list_elem_of_lookup_2. exact Hr.
Qed.

Lemma finite_nonzero_notnan m : F64.is_finite_nonzero m = true -> is_nan m = false.
Proof.
  intros (s & mm & e & H)%finite_nonzero_spec. apply is_nan_false. rewrite H. discriminate.
Qed.

(** A ratio over a finite non-zero running maximum: the column reaches a
    finite non-zero peak. *)
Lemma peak_of_ratio cumulative j c m :
  cumulative !! j = Some c -> Series.expanding_max cumulative !! j = Some m ->
  F64.is_finite_nonzero m = true -> reaches_peak cumulative.
Proof.
  intros Hc Hm Hfin.
  destruct (expanding_max_attained cumulative j m Hm (finite_nonzero_notnan m Hfin))
    as (k & Hk & Hmk).
  exists k, m. auto.
Qed.

(** The maximum drawdown is at most zero exactly when some ratio is a number
    other than plus infinity. *)
Lemma max_drawdown_nonpositive_iff cumulative :
  (Series.min (drawdown cumulative) <=? 0) = true <->
  Exists (fun r => is_nan r = false /\ r <> infinity) (drawdown cumulative).
Proof.
  split.
  - intros Hle. pose proof (leb_not_nan_l _ _ Hle) as Hn.
    apply Exists_exists. exists (Series.min (drawdown cumulative)).
    split; [apply list_elem_of_In; now apply min_member|]. split; [exact Hn|].
    intros E. rewrite E in Hle. discriminate.
  - intros (r & Hin & Hn & Hi)%Exists_exists. apply list_elem_of_In in Hin.
    destruct (r <=? 0) eqn:Hle; [now apply min_nonpositive with (r := r)|].
    pose proof Hin as Hin'. apply list_elem_of_In, list_elem_of_lookup_1 in Hin' as [j Hj].
    destruct (drawdown_lookup_inv _ _ _ Hj) as (c & m & Hc & Hm & ->).
    pose proof (ratio_above_zero_peak c m Hn Hi Hle) as Hfin.
    destruct (reaches_peak_ratio cumulative (peak_of_ratio _ _ _ _ Hc Hm Hfin))
      as (r & Hr & Hrn & Hrle & _).
    now apply min_nonpositive with (r := r).
Qed.

Lemma max_drawdown_zero_peak cumulative :
  (Series.min (drawdown cumulative) =? 0) = true -> reaches_peak cumulative.
Proof.
  intros Hz.
  assert (Hn : is_nan (Series.min (drawdown cumulative)) = false).
  { apply is_nan_false. intros E. revert Hz. rewrite FloatAxioms.eqb_spec, E. discriminate. }
  pose proof (min_member _ Hn) as Hin.
  apply list_elem_of_In, list_elem_of_lookup_1 in Hin as [j Hj].
  destruct (drawdown_lookup_inv _ _ _ Hj) as (c & m & Hc & Hm & E).
  rewrite E in Hz. exact (peak_of_ratio _ _ _ _ Hc Hm (ratio_zero_peak c m Hz)).
Qed.

(** A first value that is a non-zero finite number is a peak. *)
Lemma first_row_peak x xs :
  F64.is_finite_nonzero x = true -> reaches_peak (Series.cumsum (x :: xs)).
Proof.
  intros Hx. pose proof (finite_nonzero_notnan x Hx) as Hn.
  destruct (cumsum_head x xs Hn) as [cs ->].
  exists 0%nat, x. repeat split; auto.
  unfold Series.expanding_max. cbn [Series.expanding_max_from].
  unfold Series.isna. now rewrite Hn.
Qed.

(** A column that never decreases and reaches a finite non-zero peak has
    the maximum drawdown zero. *)
Lemma nondecreasing_peak_zero total_pnl :
  nondecreasing total_pnl = true -> reaches_peak (Series.cumsum total_pnl) ->
  (Series.min (drawdown (Series.cumsum total_pnl)) =? 0) = true.
Proof.
  intros Hnd Hpeak.
  destruct (reaches_peak_ratio _ Hpeak) as (r & Hin & Hn & Hle & _).
  apply min_zero with (r := r); auto.
  destruct total_pnl as [|x xs].
  { destruct Hpeak as (i & c & Hc & _). destruct i; discriminate. }
  destruct (is_nan x) eqn:Ex; [|now apply drawdown_nonneg].
  destruct xs as [|y xs].
  - apply nan_unique in Ex. subst x. vm_compute in Hin.
    destruct Hin as [<-|[]]. discriminate.
  - cbn [nondecreasing] in Hnd. apply andb_true_iff in Hnd as [Hxy _].
    apply leb_not_nan_l in Hxy. congruence.
Qed.

End Peaks.

(** ** The counts of the two sides *)

Section SideCounts.
Local Open Scope nat_scope.

Lemma count_value_buy buys sells counts :
  side_table buys sells counts ->
  side_table (S buys) sells (count_value (Num 1) counts).
Proof.
  unfold side_table. destruct buys, sells; intros H; try destruct H as [H|H]; subst;
    cbn; auto.
Qed.

Lemma count_value_sell buys sells counts :
  side_table buys sells counts ->
  side_table buys (S sells) (count_value (Num (-1)) counts).
Proof.
  unfold side_table. destruct buys, sells; intros H; try destruct H as [H|H]; subst;
    cbn; auto.
Qed.

(** Counting the values of a normalised [Side] column, row after row. *)
Lemma side_counts_table rows : forall buys sells counts,
  side_table buys sells counts ->
  side_table (buys + count_side "BUY" rows) (sells + count_side "SELL" rows)
    (fold_left (fun counts c => if cell_isna c then counts else count_value c counts)
       (Side <$> (map_side_row <$> rows)) counts).
Proof.
  unfold count_side.
  induction rows as [|r rows IH]; intros buys sells counts H.
  - cbn. now rewrite !Nat.add_0_r.
  - cbn [fmap list_fmap fold_left List.filter map_side_row Side].
    destruct (Side r) as [s|x]; cbn [is_side map_side].
    + destruct (String.eqb_spec s "BUY") as [->|Hb].
      * change ("BUY" =? "SELL")%string with false. cbn [cell_isna].
        change (is_nan 1) with false. cbv iota. cbn [length].
        rewrite Nat.add_succ_r, <- Nat.add_succ_l.
        apply IH. now apply count_value_buy.
      * destruct (String.eqb s "SELL").
        -- cbn [cell_isna]. change (is_nan (-1)) with false. cbv iota. cbn [length].
           rewrite Nat.add_succ_r, <- Nat.add_succ_l.
           apply IH. now apply count_value_sell.
        -- cbn [cell_isna]. change (is_nan nan) with true. cbv iota. now apply IH.
    + cbn [cell_isna]. change (is_nan nan) with true. cbv iota. now apply IH.
Qed.

Lemma side_counts_normalised f :
  side_table (count_side "BUY" (trade_records f)) (count_side "SELL" (trade_records f))
    (fold_left (fun counts c => if cell_isna c then counts else count_value c counts)
       (Side <$> trade_records (preprocess_trades f)) []).
Proof.
  rewrite preprocess_trades_records.
  apply (side_counts_table (trade_records f) 0 0 []). reflexivity.
Qed.

(** The sorted counts of a normalised [Side] column: one count per side
    that occurs, the larger first. *)
Lemma side_counts_values f :
  let buys := count_side "BUY" (trade_records f) in
  let sells := count_side "SELL" (trade_records f) in
  snd <$> side_counts (preprocess_trades f) =
    match buys, sells with
    | 0, 0 => []
    | S _, 0 => [buys]
    | 0, S _ => [sells]
    | S _, S _ => [Nat.max buys sells; Nat.min buys sells]
    end.
Proof.
  intros buys sells. pose proof (side_counts_normalised f) as H. fold buys sells in H.
  unfold side_counts, value_counts.
  destruct (fold_left _ _ _) as [|x counts].
  - unfold side_table in H. destruct buys, sells; try discriminate;
      try (destruct H; discriminate). reflexivity.
  - unfold side_table in H. destruct buys as [|b], sells as [|s]; try discriminate;
      try (injection H as -> ->; reflexivity).
    destruct H as [H|H]; injection H as -> ->; cbn [foldr insert_by_count snd].
    + destruct (Nat.leb_spec (S s) (S b)); cbn [fmap list_fmap snd]; f_equal; [lia|f_equal; lia|lia|f_equal; lia].
    + destruct (Nat.leb_spec (S b) (S s)); cbn [fmap list_fmap snd]; f_equal; [lia|f_equal; lia|lia|f_equal; lia].
Qed.

End SideCounts.

(** ** The whole of [run_analysis] *)

Section WholeRun.

(** The tables are read and never written. *)
Lemma calculate_performance_metrics_tables self :
  let a := (calculate_performance_metrics self).2 in
  pnl_data a = pnl_data self /\ trade_data a = trade_data self /\
  orderbook_data a = orderbook_data self.
Proof.
  cbv zeta. rewrite calculate_performance_metrics_run.
  destruct (pnl_data self) as [df|] eqn:Hp.
  - pose proof (calculate_pnl_metrics_frame df self) as (H1 & H2 & H3 & _).
    destruct (calculate_pnl_metrics df self) as [[e|[]] a]; cbn [snd] in *;
      [rewrite Hp in H1; auto|].
    destruct (trade_data a) as [tf|] eqn:Ht.
    + pose proof (calculate_trade_metrics_frame tf a) as (G1 & G2 & G3 & _).
      cbv zeta in *. repeat split; congruence.
    + cbn [snd]. repeat split; congruence.
  - destruct (trade_data self) as [tf|] eqn:Ht.
    + pose proof (calculate_trade_metrics_frame tf self) as (G1 & G2 & G3 & _).
      cbv zeta in *. repeat split; congruence.
    + cbn [snd]. auto.
Qed.

(** An empty PnL table: [iloc[-1]] raises before anything is stored. *)
Lemma calculate_pnl_metrics_empty df self :
  pnl_records df = [] -> calculate_pnl_metrics df self = (inl IndexError, self).
Proof. intros E. unfold calculate_pnl_metrics. rewrite E. reflexivity. Qed.

Lemma preprocess_pnl_records_nil f :
  pnl_records f = [] -> pnl_records (preprocess_pnl f) = [].
Proof.
  intros E. unfold preprocess_pnl. rewrite E. destruct (pnl_Timestamp f); reflexivity.
Qed.

Lemma external_run env c self :
  Env.external env c self =
  match env c with Some e => (inl e, self) | None => (inr tt, self) end.
Proof. reflexivity. Qed.

(** The figures and the report change nothing in the analyzer. *)
Lemma external_state env c self : (Env.external env c self).2 = self.
Proof. unfold Env.external. now destruct (env c). Qed.

Lemma resample_run env df self :
  Env.resample env df self =
  match trade_index df with
  | Some index =>
      match env (Env.Resample index) with Some e => (inl e, self) | None => (inr tt, self) end
  | None => (inl TypeError, self)
  end.
Proof. unfold Env.resample. now destruct (trade_index df). Qed.

(** When the timestamps are parsed, the tables are normalised as
    [preprocess_data] does; when one of them is not, the call raises. *)
Lemma preprocess_data_run_env env self :
  Env.preprocess_data env self = preprocess_data self \/
  exists e a, Env.preprocess_data env self = (inl e, a).
Proof.
  destruct self as [p t b m].
  unfold Env.preprocess_data, Env.parse_timestamps, Env.external, preprocess_data,
    mbind, py_bind, mret, py_ret, get_self, put_self.
  cbn [pnl_data trade_data orderbook_data performance_metrics].
  destruct p as [pf|]; [destruct (pnl_Timestamp pf) as [ts|]; [destruct (env _); [eauto|]|]|];
    cbn [pnl_data trade_data orderbook_data performance_metrics];
    (destruct t as [tf|];
     [destruct (trade_Timestamp tf) as [ts'|]; [destruct (env _); [eauto|]|]|]);
    left; reflexivity.
Qed.

Lemma preprocess_data_fair env self :
  (forall cells, env (Env.To_datetime cells) = None) ->
  Env.preprocess_data env self = preprocess_data self.
Proof.
  intros Hfair. destruct self as [p t b m].
  unfold Env.preprocess_data, Env.parse_timestamps, Env.external, preprocess_data,
    mbind, py_bind, mret, py_ret, get_self, put_self.
  cbn [pnl_data trade_data orderbook_data performance_metrics].
  destruct p as [pf|]; [destruct (pnl_Timestamp pf) as [ts|]; [rewrite Hfair|]|];
    cbn [pnl_data trade_data orderbook_data performance_metrics];
    (destruct t as [tf|];
     [destruct (trade_Timestamp tf) as [ts'|]; [rewrite Hfair|]|]);
    reflexivity.
Qed.

(** [plot_pnl_curve] returns at once without a PnL table. *)
Lemma plot_pnl_curve_state env self : (Env.plot_pnl_curve env self).2 = self.
Proof.
  unfold Env.plot_pnl_curve, Env.external, column, raise, mbind, py_bind, mret, py_ret, get_self.
  destruct (pnl_data self) as [df|]; [|reflexivity].
  destruct (env _); [reflexivity|]. destruct (env _); [reflexivity|].
  destruct (pnl_CumulativePnL df); [|reflexivity].
  destruct (env _); [reflexivity|]. destruct (env _); reflexivity.
Qed.

Lemma plot_pnl_curve_fair env self :
  (forall c, env c = None) ->
  (forall df, pnl_data self = Some df -> is_Some (pnl_CumulativePnL df)) ->
  Env.plot_pnl_curve env self = (inr tt, self).
Proof.
  intros Hfair Hc.
  unfold Env.plot_pnl_curve, Env.external, column, raise, mbind, py_bind, mret, py_ret, get_self.
  destruct (pnl_data self) as [df|]; [|reflexivity].
  destruct (Hc df eq_refl) as [cum ->]. now rewrite !Hfair.
Qed.

Lemma plot_trade_analysis_state env self : (Env.plot_trade_analysis env self).2 = self.
Proof.
  unfold Env.plot_trade_analysis, Env.resample, Env.external, raise,
    mbind, py_bind, mret, py_ret, get_self.
  destruct (trade_data self) as [df|]; [|reflexivity].
  destruct (env _); [reflexivity|].
  destruct (trade_index df); [|reflexivity].
  destruct (env _); [reflexivity|]. destruct (env _); [reflexivity|].
  destruct (env _); [reflexivity|]. destruct (env _); [reflexivity|].
  destruct (side_wedges df); [|reflexivity].
  destruct (env _); [reflexivity|]. destruct (env _); reflexivity.
Qed.

(** What [plot_trade_analysis] needs of the trade table to return. *)
Lemma plot_trade_analysis_returns env self df :
  trade_data self = Some df ->
  (Env.plot_trade_analysis env self).1 = inr tt ->
  is_Some (trade_index df) /\ is_Some (side_wedges df).
Proof.
  intros Ht.
  unfold Env.plot_trade_analysis, Env.resample, Env.external, raise,
    mbind, py_bind, mret, py_ret, get_self.
  rewrite Ht.
  destruct (env _); [discriminate|].
  destruct (trade_index df); [|discriminate].
  destruct (env _); [discriminate|]. destruct (env _); [discriminate|].
  destruct (env _); [discriminate|]. destruct (env _); [discriminate|].
  destruct (side_wedges df); [|discriminate]. eauto.
Qed.

Lemma plot_trade_analysis_fair env self :
  (forall c, env c = None) ->
  (forall df, trade_data self = Some df ->
              is_Some (trade_index df) /\ is_Some (side_wedges df)) ->
  Env.plot_trade_analysis env self = (inr tt, self).
Proof.
  intros Hfair Hc.
  unfold Env.plot_trade_analysis, Env.resample, Env.external, raise,
    mbind, py_bind, mret, py_ret, get_self.
  destruct (trade_data self) as [df|]; [|reflexivity].
  destruct (Hc df eq_refl) as [[idx ->] [w ->]]. now rewrite !Hfair.
Qed.

Lemma plot_performance_dashboard_state env self :
  (Env.plot_performance_dashboard env self).2 = self.
Proof.
  unfold Env.plot_performance_dashboard, Env.resample, Env.external, raise,
    mbind, py_bind, mret, py_ret, get_self.
  destruct (size _ =? 0)%nat; [reflexivity|].
  destruct (env _); [reflexivity|]. destruct (env _); [reflexivity|].
  destruct (pnl_data self) as [pf|]; [destruct (env _); [reflexivity|]|];
    (destruct (trade_data self) as [tf|];
     [destruct (trade_index tf); [|reflexivity];
      destruct (env _); [reflexivity|]; destruct (env _); [reflexivity|]|]);
    (destruct (env _); [reflexivity|]); destruct (env _); reflexivity.
Qed.

Lemma plot_performance_dashboard_fair env self :
  (forall c, env c = None) ->
  (forall df, trade_data self = Some df -> is_Some (trade_index df)) ->
  Env.plot_performance_dashboard env self = (inr tt, self).
Proof.
  intros Hfair Hc.
  unfold Env.plot_performance_dashboard, Env.resample, Env.external, raise,
    mbind, py_bind, mret, py_ret, get_self.
  destruct (size _ =? 0)%nat; [reflexivity|].
  rewrite !Hfair.
  destruct (pnl_data self) as [pf|]; rewrite ?Hfair;
    (destruct (trade_data self) as [tf|]; [destruct (Hc tf eq_refl) as [idx ->]|]);
    now rewrite ?Hfair.
Qed.

Lemma generate_report_state env self : (Env.generate_report env self).2 = self.
Proof.
  unfold Env.generate_report, Env.external, mbind, py_bind, mret, py_ret, get_self.
  destruct (size _ =? 0)%nat; [reflexivity|]. destruct (env _); reflexivity.
Qed.

Lemma generate_report_fair env self :
  (forall c, env c = None) -> Env.generate_report env self = (inr tt, self).
Proof.
  intros Hfair.
  unfold Env.generate_report, Env.external, mbind, py_bind, mret, py_ret, get_self.
  destruct (size _ =? 0)%nat; [reflexivity|]. now rewrite Hfair.
Qed.

(** A computation of which only the outcome matters. *)
Lemma outcome_state {A} (r : (exn + A) * HFTAnalyzer) self :
  r.2 = self -> r = (r.1, self).
Proof. destruct r. cbn. now intros ->. Qed.

Lemma charts_state env self : (charts env self).2 = self.
Proof.
  unfold charts. rewrite bind_run.
  rewrite (outcome_state _ self (plot_pnl_curve_state env self)).
  destruct (Env.plot_pnl_curve env self).1 as [e|[]]; [reflexivity|].
  rewrite bind_run, (outcome_state _ self (plot_trade_analysis_state env self)).
  destruct (Env.plot_trade_analysis env self).1 as [e|[]]; [reflexivity|].
  rewrite bind_run, (outcome_state _ self (plot_performance_dashboard_state env self)).
  destruct (Env.plot_performance_dashboard env self).1 as [e|[]]; [reflexivity|].
  rewrite bind_run, (outcome_state _ self (generate_report_state env self)).
  destruct (Env.generate_report env self).1 as [e|[]]; reflexivity.
Qed.

Lemma charts_returns env self df :
  trade_data self = Some df -> (charts env self).1 = inr true ->
  is_Some (trade_index df) /\ is_Some (side_wedges df).
Proof.
  intros Ht. unfold charts. rewrite bind_run.
  rewrite (outcome_state _ self (plot_pnl_curve_state env self)).
  destruct (Env.plot_pnl_curve env self).1 as [e|[]]; [discriminate|].
  rewrite bind_run, (outcome_state _ self (plot_trade_analysis_state env self)).
  destruct (Env.plot_trade_analysis env self).1 as [e|[]] eqn:E; [discriminate|].
  intros _. now apply (plot_trade_analysis_returns env self df).
Qed.

Lemma charts_fair env self :
  (forall c, env c = None) ->
  (forall df, pnl_data self = Some df -> is_Some (pnl_CumulativePnL df)) ->
  (forall df, trade_data self = Some df ->
              is_Some (trade_index df) /\ is_Some (side_wedges df)) ->
  charts env self = (inr true, self).
Proof.
  intros Hfair Hp Ht. unfold charts.
  rewrite bind_run, (plot_pnl_curve_fair env self Hfair Hp).
  rewrite bind_run, (plot_trade_analysis_fair env self Hfair Ht).
  rewrite bind_run, plot_performance_dashboard_fair; auto.
  - rewrite bind_run, generate_report_fair; auto.
  - intros df Hdf. now apply Ht.
Qed.

(** The whole run: the loader, the normaliser in its environment, the
    metrics, and the figures and report. *)
Lemma run_analysis_env env d :
  Env.run_analysis env d init =
  if bool_decide (pnl_files d <> []) || bool_decide (trade_files d <> [])
     || bool_decide (orderbook_files d <> [])
  then
    match Env.preprocess_data env (load_data d init).2 with
    | (inl e, a) => (inl e, a)
    | (inr _, a) =>
        match calculate_performance_metrics a with
        | (inl e, a') => (inl e, a')
        | (inr _, a') => charts env a'
        end
    end
  else (inr false, init).
Proof.
  unfold Env.run_analysis. rewrite bind_run, load_data_init. cbn [snd].
  destruct (pnl_files d), (trade_files d), (orderbook_files d); cbn [head];
    try reflexivity;
    rewrite ?orb_true_r; cbn [orb negb];
    (rewrite bind_run; destruct (Env.preprocess_data env _) as [[e|[]] a]; [reflexivity|]);
    rewrite bind_run; destruct (calculate_performance_metrics a) as [[e|[]] a']; reflexivity.
Qed.

Lemma charts_outcome env self :
  (charts env self).1 = inr true \/ exists e, (charts env self).1 = inl e.
Proof.
  unfold charts. rewrite bind_run.
  destruct (Env.plot_pnl_curve env self) as [[e|[]] a1]; [eauto|].
  rewrite bind_run. destruct (Env.plot_trade_analysis env a1) as [[e|[]] a2]; [eauto|].
  rewrite bind_run. destruct (Env.plot_performance_dashboard env a2) as [[e|[]] a3]; [eauto|].
  rewrite bind_run. destruct (Env.generate_report env a3) as [[e|[]] a4]; [eauto|].
  now left.
Qed.

(** The pie has its two wedges exactly when both sides occur. *)
Lemma side_wedges_some f :
  is_Some (side_wedges (preprocess_trades f)) <->
  (0 < count_side "BUY" (trade_records f))%nat /\
  (0 < count_side "SELL" (trade_records f))%nat.
Proof.
  pose proof (side_counts_values f) as Hs. cbv zeta in Hs.
  unfold side_wedges, pie. rewrite Hs.
  destruct (count_side "BUY" (trade_records f)), (count_side "SELL" (trade_records f));
    cbn; split; try (intros [w Hw]; discriminate); try (intros [? ?]; lia);
    try (intros _; split; lia); eauto.
Qed.

(** The state in which the metrics are computed. *)
Lemma normalised_state d :
  (preprocess_data (load_data d init).2).2 =
  {| pnl_data := preprocess_pnl <$> head (pnl_files d);
     trade_data := preprocess_trades <$> head (trade_files d);
     orderbook_data := head (orderbook_files d);
     performance_metrics := ∅ |}.
Proof. rewrite load_data_init. reflexivity. Qed.

Lemma analyze_state d :
  ~ (pnl_files d = [] /\ trade_files d = [] /\ orderbook_files d = []) ->
  analyze d = (calculate_performance_metrics (preprocess_data (load_data d init).2).2).2.
Proof.
  intros Hn. unfold analyze. rewrite run_analysis_init, normalised_state.
  destruct (pnl_files d), (trade_files d), (orderbook_files d);
    try (exfalso; apply Hn; auto; fail);
    cbn -[calculate_performance_metrics];
    destruct (calculate_performance_metrics _) as [[e|[]] a]; reflexivity.
Qed.

(** A trade file as read has a datetime index after normalisation exactly
    when it has a [Timestamp] column. *)
Lemma read_trades_index timestamps rows :
  trade_index (preprocess_trades (read_trades timestamps rows)) = timestamps.
Proof. now destruct timestamps. Qed.

(** The three stages that change the analyzer: they return early exactly
    when no table kind has a source, and complete when the PnL table, if
    there is one, has a row. *)
Lemma run_stages (d : data_dir) :
  ((run_analysis d init).1 = inr false <->
   pnl_files d = [] /\ trade_files d = [] /\ orderbook_files d = []) /\
  (pnl_files d = [] /\ trade_files d = [] /\ orderbook_files d = [] ->
   run_analysis d init = (inr false, init)) /\
  (~ (pnl_files d = [] /\ trade_files d = [] /\ orderbook_files d = []) ->
   (forall f rest, pnl_files d = f :: rest -> pnl_records f <> []) ->
   exists a,
     run_analysis d init = (inr true, a) /\
     pnl_data a = preprocess_pnl <$> head (pnl_files d) /\
     trade_data a = preprocess_trades <$> head (trade_files d)).
Proof.
  assert (Hnone : pnl_files d = [] /\ trade_files d = [] /\ orderbook_files d = [] ->
                  run_analysis d init = (inr false, init)).
  { intros (Hp & Ht & Hb). rewrite run_analysis_init, Hp, Ht, Hb. reflexivity. }
  assert (Hsome : ~ (pnl_files d = [] /\ trade_files d = [] /\ orderbook_files d = []) ->
                  (run_analysis d init).1 <> inr false).
  { intros Hn. rewrite run_analysis_init.
    destruct (pnl_files d), (trade_files d), (orderbook_files d);
      try (exfalso; apply Hn; auto; fail);
      cbn -[calculate_performance_metrics];
      destruct (calculate_performance_metrics _) as [[e|[]] a]; discriminate. }
  split; [|split].
  - split.
    + intros Hr.
      destruct (pnl_files d), (trade_files d), (orderbook_files d); auto;
        exfalso; (apply Hsome; [intros (? & ? & ?); discriminate | exact Hr]).
    + intros H. now rewrite (Hnone H).
  - exact Hnone.
  - intros Hn Hrows.
    destruct (pnl_files d) as [|f rest] eqn:Hp.
    + rewrite run_analysis_init, Hp, calculate_performance_metrics_run.
      cbn -[calculate_trade_metrics].
      replace (bool_decide (trade_files d <> []) || bool_decide (orderbook_files d <> []))
        with true.
      2:{ destruct (trade_files d), (orderbook_files d); try reflexivity.
          exfalso; apply Hn; auto. }
      destruct (head (trade_files d)) as [tf|] eqn:Ht; cbn -[calculate_trade_metrics].
      * destruct (calculate_trade_metrics_frame (preprocess_trades tf)
                    {| pnl_data := None; trade_data := Some (preprocess_trades tf);
                       orderbook_data := head (orderbook_files d);
                       performance_metrics := ∅ |}) as (H1 & H2 & _).
        rewrite calculate_trade_metrics_run in *. cbn -[with_metrics] in *. eauto.
      * eauto.
    + destruct (run_with_pnl d f rest Hp (Hrows f rest eq_refl))
        as (a & Hr & Ha & Hta & _).
      exists a. rewrite Hr, Ha. auto.
Qed.

End WholeRun.

(** * The claims of the specification *)

(** C1, as the code has it: the percentage change of a row is its TotalPnL
    over the TotalPnL of the row before it, minus one (a missing value
    counting as the last value before it), and only the NaN changes (the
    first row, 0/0) are dropped.  When no change is infinite and at least
    two are defined, Volatility is the sample standard deviation (ddof = 1)
    of the defined changes times sqrt(252).  An infinite change (a non-zero
    value over a zero prior value) is kept and makes Volatility NaN, and
    with fewer than two defined changes Volatility is NaN, not 0. *)
Theorem volatility_of_defined_changes (d : data_dir) (f : pnl_frame)
    (rest : list pnl_frame) :
  pnl_files d = f :: rest ->
  pnl_records f <> [] ->
  let total_pnl := TotalPnL <$> pnl_records f in
  exists v : float,
    metric "Volatility" (analyze d) = Some (PyFloat v) /\
    (infinite_change total_pnl = false ->
     (2 <= length (defined_changes total_pnl))%nat ->
     v = (sample_std (defined_changes total_pnl) * F64.sqrt252)%float) /\
    (infinite_change total_pnl = true -> is_nan v = true) /\
    ((length (defined_changes total_pnl) < 2)%nat -> is_nan v = true).
Proof.
  intros Hd Hne total_pnl.
  destruct (run_with_pnl d f rest Hd Hne) as (a & Hr & _ & _ & _ & _ & _ & _ & Hv & _).
  unfold analyze. rewrite Hr. cbn [snd]. eexists. split; [exact Hv|].
  fold total_pnl. repeat split.
  - intros Hinf Hlen. rewrite (returns_defined _ Hinf).
    now rewrite (std_spec _ (defined_changes_notna total_pnl) Hlen).
  - intros Hinf. apply volatility_nan. now left.
  - intros Hfew. apply volatility_nan. now right.
Qed.

(** Scenario A: the changes are NaN, 150/100 - 1 = 0.5 and 90/150 - 1, about
    -0.4, and Volatility is about 10.1025. *)
Lemma volatility_of_defined_changes_scenario_A :
  period_changes None [100; 150; 90]%float = [nan; 0.5; -0x1999999999999ap-54]%float /\
  metric "Volatility" (analyze (pnl_only [100; 150; 90]%float))
  = Some (PyFloat 0x143477988cc451p-49) /\
  exists v : float,
    metric "Volatility" (analyze (pnl_only [100; 150; 90]%float)) = Some (PyFloat v) /\
    (infinite_change [100; 150; 90]%float = false ->
     (2 <= length (defined_changes [100; 150; 90]%float))%nat ->
     v = (sample_std (defined_changes [100; 150; 90]) * F64.sqrt252)%float) /\
    (infinite_change [100; 150; 90]%float = true -> is_nan v = true) /\
    ((length (defined_changes [100; 150; 90]%float) < 2)%nat -> is_nan v = true).
Proof.
  split; [vm_compute; reflexivity|]. split; [vm_compute; reflexivity|].
  refine (volatility_of_defined_changes (pnl_only [100; 150; 90]%float) _ [] eq_refl _).
  discriminate.
Defined.

(** A table of one row has no percentage change, and its Volatility is
    NaN, which is not 0.  On the rows 1, 0, 1, 2 the changes are NaN, -1,
    +infinity and 1: the infinite one, whose prior value is zero, is not
    excluded, and Volatility is NaN although two changes are defined, whose
    standard deviation is a number. *)
Lemma volatility_not_zero_nor_excluding :
  defined_changes [100]%float = [] /\
  metric "Volatility" (analyze (pnl_only [100]%float)) = Some (PyFloat nan) /\
  (nan =? 0)%float = false /\
  period_changes None [1; 0; 1; 2]%float = [nan; -1; infinity; 1]%float /\
  defined_changes [1; 0; 1; 2]%float = [-1; 1]%float /\
  metric "Volatility" (analyze (pnl_only [1; 0; 1; 2]%float)) = Some (PyFloat nan) /\
  is_nan (sample_std [-1; 1] * F64.sqrt252)%float = false.
Proof. vm_compute. repeat split. Qed.

(** C2, as the code has it: at an index where the running maximum of the
    cumulative PnL is 0 no policy is applied; the drawdown ratio is the
    IEEE-754 quotient (cumulative - 0) / 0, which is NaN when the cumulative
    value is 0 and an infinity when it is negative, never a finite number.
    Nothing is raised: the run completes and stores a MaxDrawdown, the
    minimum skipping the NaN ratios, and a ratio of minus infinity (a
    negative cumulative value over a peak of +0) is that minimum. *)
Theorem drawdown_at_zero_peak (d : data_dir) (f : pnl_frame) (rest : list pnl_frame)
    (i : nat) (c m : float) :
  pnl_files d = f :: rest ->
  pnl_records f <> [] ->
  let cumulative := Series.cumsum (TotalPnL <$> pnl_records f) in
  cumulative !! i = Some c ->
  Series.expanding_max cumulative !! i = Some m ->
  (m =? 0)%float = true ->
  exists r v : float,
    drawdown cumulative !! i = Some r /\
    PrimFloat.is_finite r = false /\
    ((c =? 0)%float = true -> is_nan r = true) /\
    ((c <? 0)%float = true -> is_infinity r = true) /\
    (run_analysis d init).1 = inr true /\
    metric "MaxDrawdown" (analyze d) = Some (PyFloat v) /\
    (r = neg_infinity -> v = neg_infinity) /\
    (m = 0%float -> (c <? 0)%float = true -> r = neg_infinity).
Proof.
  intros Hd Hne cumulative Hc Hm Hz.
  destruct (run_with_pnl d f rest Hd Hne) as (a & Hr & _ & _ & _ & _ & _ & Hdd & _).
  pose proof (drawdown_lookup cumulative i c m Hc Hm) as Hi.
  destruct (F64Special.ratio_at_zero_peak c m Hz) as (Hnf & Hzero & Hneg).
  exists ((c - m) / m)%float, (Series.min (drawdown cumulative)).
  unfold analyze. rewrite Hr. cbn [fst snd].
  repeat split; auto.
  - unfold PrimFloat.is_finite. destruct Hnf as [-> | ->]; [reflexivity|].
    now rewrite orb_true_r.
  - intros Hinf. apply min_neg_infinity. rewrite <- Hinf.
    apply list_elem_of_In. eapply list_elem_of_lookup_2. exact Hi.
  - intros -> Hlt. now apply F64Special.ratio_neg_over_zero.
Qed.

(** The rows 0, -1: the running maximum stays 0, and the second ratio is
    -1 / 0. *)
Lemma drawdown_at_zero_peak_rows_0_m1 :
  exists r v : float,
    drawdown (Series.cumsum [0; -1]%float) !! 1%nat = Some r /\
    PrimFloat.is_finite r = false /\
    ((-1 =? 0)%float = true -> is_nan r = true) /\
    ((-1 <? 0)%float = true -> is_infinity r = true) /\
    (run_analysis (pnl_only [0; -1]%float) init).1 = inr true /\
    metric "MaxDrawdown" (analyze (pnl_only [0; -1]%float)) = Some (PyFloat v) /\
    (r = neg_infinity -> v = neg_infinity) /\
    (0%float = 0%float -> (-1 <? 0)%float = true -> r = neg_infinity).
Proof.
  refine (drawdown_at_zero_peak (pnl_only [0; -1]%float) _ [] 1 (-1)%float 0%float
            eq_refl _ eq_refl eq_refl eq_refl).
  discriminate.
Defined.

(** On the rows 0, -1 the running maximum is 0 at both indices and the
    metric is minus infinity, which is not a finite value. *)
Lemma max_drawdown_not_finite :
  let total_pnl := [0; -1]%float in
  Series.expanding_max (Series.cumsum total_pnl) = [0; 0]%float /\
  drawdown (Series.cumsum total_pnl) = [nan; neg_infinity] /\
  metric "MaxDrawdown" (analyze (pnl_only total_pnl)) = Some (PyFloat neg_infinity) /\
  PrimFloat.is_finite neg_infinity = false.
Proof. vm_compute. repeat split. Qed.

(** C3, as the code has it, for a float64 TotalPnL column: MaxDrawdown is at
    most 0 exactly when the drawdown ratio is a number other than plus
    infinity at some row; this is so whenever the cumulative PnL reaches a
    finite non-zero running peak, as in every table whose first TotalPnL is
    a finite number other than zero.  When TotalPnL never decreases from
    one row to the next, MaxDrawdown equals 0 exactly when the cumulative
    PnL reaches a finite non-zero running peak. *)
Theorem max_drawdown_sign (d : data_dir) (f : pnl_frame) (rest : list pnl_frame) :
  pnl_files d = f :: rest ->
  pnl_records f <> [] ->
  let total_pnl := TotalPnL <$> pnl_records f in
  let cumulative := Series.cumsum total_pnl in
  exists v : float,
    metric "MaxDrawdown" (analyze d) = Some (PyFloat v) /\
    ((v <=? 0)%float = true <->
     Exists (fun r => is_nan r = false /\ r <> infinity) (drawdown cumulative)) /\
    (reaches_peak cumulative -> (v <=? 0)%float = true) /\
    (forall x xs, total_pnl = x :: xs -> F64.is_finite_nonzero x = true ->
                  reaches_peak cumulative) /\
    (nondecreasing total_pnl = true ->
     ((v =? 0)%float = true <-> reaches_peak cumulative)).
Proof.
  intros Hd Hne total_pnl cumulative.
  destruct (run_with_pnl d f rest Hd Hne) as (a & Hr & _ & _ & _ & _ & _ & Hdd & _).
  unfold analyze. rewrite Hr. cbn [snd].
  eexists. split; [exact Hdd|]. fold total_pnl cumulative.
  split; [apply max_drawdown_nonpositive_iff|]. split; [|split].
  - intros Hpeak. destruct (reaches_peak_ratio _ Hpeak) as (r & Hin & Hn & Hle & _).
    now apply min_nonpositive with (r := r).
  - intros x xs E Hx. subst cumulative. rewrite E. now apply first_row_peak.
  - intros Hnd. split; [apply max_drawdown_zero_peak|].
    now apply nondecreasing_peak_zero.
Qed.

(** The rows 0, 1, 2 never decrease: the cumulative series 0, 1, 3 is its
    own running maximum, the first ratio is 0/0 and the others are 0. *)
Lemma max_drawdown_sign_rows_0_1_2 :
  let total_pnl := [0; 1; 2]%float in
  let cumulative := Series.cumsum total_pnl in
  drawdown cumulative = [nan; 0; 0]%float /\
  exists v : float,
    metric "MaxDrawdown" (analyze (pnl_only total_pnl)) = Some (PyFloat v) /\
    ((v <=? 0)%float = true <->
     Exists (fun r => is_nan r = false /\ r <> infinity) (drawdown cumulative)) /\
    (reaches_peak cumulative -> (v <=? 0)%float = true) /\
    (forall x xs, total_pnl = x :: xs -> F64.is_finite_nonzero x = true ->
                  reaches_peak cumulative) /\
    (nondecreasing total_pnl = true ->
     ((v =? 0)%float = true <-> reaches_peak cumulative)).
Proof.
  split; [vm_compute; reflexivity|].
  refine (max_drawdown_sign (pnl_only [0; 1; 2]%float) _ [] eq_refl _).
  discriminate.
Defined.

(** A table with the single row 0 never decreases, and its only drawdown
    ratio is 0/0: MaxDrawdown is NaN, which is neither <= 0 nor equal to
    0.  And when every cell of the column is an integer the column is
    int64, whose running sum wraps at 2^63: the rows 2^62, 2^62 never
    decrease, CumulativePnL is 2^62, -2^63 and MaxDrawdown is -3, not 0. *)
Lemma max_drawdown_of_zero_row :
  nondecreasing [0]%float = true /\
  drawdown (Series.cumsum [0]%float) = [nan] /\
  metric "MaxDrawdown" (analyze (pnl_only [0]%float)) = Some (PyFloat nan) /\
  (nan <=? 0)%float = false /\ (nan =? 0)%float = false /\
  Int64.CumulativePnL [2 ^ 62; 2 ^ 62]%Z = [2 ^ 62; - 2 ^ 63]%Z /\
  Int64.MaxDrawdown [2 ^ 62; 2 ^ 62]%Z = (-3)%float.
Proof. vm_compute. repeat split. Qed.

(** With a first value that is a negative zero the running peak is -0 and
    a later loss divided by it is plus infinity. *)
Lemma max_drawdown_negative_zero_peak :
  metric "MaxDrawdown" (analyze (pnl_only [-0; -1]%float)) = Some (PyFloat infinity).
Proof. vm_compute. reflexivity. Qed.

(** C4, as the code has it: in the metrics of a completed run TotalTrades
    is the row count of the trade table and equals BuyTrades + SellTrades
    + the number of rows whose Side is neither BUY nor SELL (such a cell is
    mapped to NaN and counted on neither side); so TotalTrades = BuyTrades
    + SellTrades for every trade table whose Side values are all BUY or
    SELL. *)
Theorem total_trades_partition (d : data_dir) (f : trade_frame)
    (rest : list trade_frame) (a : HFTAnalyzer) :
  trade_files d = f :: rest ->
  run_analysis d init = (inr true, a) ->
  let other :=
    length (List.filter (fun r => negb (recognised_side (Side r))) (trade_records f)) in
  exists total buy sell : Z,
    metric "TotalTrades" a = Some (PyInt total) /\
    metric "BuyTrades" a = Some (PyInt buy) /\
    metric "SellTrades" a = Some (PyInt sell) /\
    total = Z.of_nat (length (trade_records f)) /\
    total = (buy + sell + Z.of_nat other)%Z /\
    (other = 0 -> total = (buy + sell)%Z).
Proof.
  intros Hd Hr other.
  destruct (trade_metrics_of_run d f rest a Hd Hr) as (Ht & Hb & Hs).
  do 3 eexists. split; [exact Ht|]. split; [exact Hb|]. split; [exact Hs|].
  pose proof (count_sides (trade_records f)) as Hc. fold other in Hc.
  rewrite length_fmap. repeat split; lia.
Qed.

(** Scenario B of the specification: one BUY and one SELL. *)
Lemma total_trades_partition_scenario_B :
  let f := read_trades (Some ["t1"; "t2"])
             [ {| Price := 10; Quantity := 5; Side := Str "BUY" |};
               {| Price := 10.5; Quantity := 3; Side := Str "SELL" |} ] in
  let d := {| pnl_files := []; trade_files := [f]; orderbook_files := [] |} in
  exists total buy sell : Z,
    metric "TotalTrades" (analyze d) = Some (PyInt total) /\
    metric "BuyTrades" (analyze d) = Some (PyInt buy) /\
    metric "SellTrades" (analyze d) = Some (PyInt sell) /\
    total = 2%Z /\ total = (buy + sell + 0)%Z /\ (0 = 0 -> total = (buy + sell)%Z).
Proof.
  intros f d.
  exact (total_trades_partition d f [] (analyze d) eq_refl eq_refl).
Defined.

(** A row whose Side is HOLD is counted in TotalTrades and on neither side:
    TotalTrades = 1 while BuyTrades + SellTrades = 0. *)
Lemma total_trades_unrecognised_side :
  let d := {| pnl_files := [];
              trade_files :=
                [read_trades (Some ["t1"])
                   [ {| Price := 10; Quantity := 5; Side := Str "HOLD" |} ]];
              orderbook_files := [] |} in
  (run_analysis d init).1 = inr true /\
  metric "TotalTrades" (analyze d) = Some (PyInt 1) /\
  metric "BuyTrades" (analyze d) = Some (PyInt 0) /\
  metric "SellTrades" (analyze d) = Some (PyInt 0) /\
  (1 <> 0 + 0)%Z.
Proof. vm_compute. repeat split. discriminate. Qed.

(** C5: when the trade table is absent the Metrics Map of the run holds none
    of the seven trade keys, and when the PnL table is absent it holds none
    of the six PnL keys; nothing is written in their place. *)
Theorem absence_propagation (d : data_dir) :
  (trade_files d = [] -> forall k, k ∈ trade_keys -> metric k (analyze d) = None) /\
  (pnl_files d = [] -> forall k, k ∈ pnl_keys -> metric k (analyze d) = None).
Proof.
  rewrite analyze_unfold. split; intros Hd k Hk.
  - destruct (_ || _ || _); [|apply lookup_empty].
    rewrite calculate_performance_metrics_run, Hd.
    destruct (head (pnl_files d)) as [df|];
      cbn -[calculate_pnl_metrics calculate_trade_metrics]; [|apply lookup_empty].
    match goal with |- context [calculate_pnl_metrics ?f ?s] =>
      destruct (calculate_pnl_metrics_frame f s) as (_ & Ht & _ & Hm);
      destruct (calculate_pnl_metrics f s) as [[e|[]] a] end; simpl in *.
    + rewrite Hm by now apply trade_key_not_pnl. apply lookup_empty.
    + rewrite Ht. rewrite Hm by now apply trade_key_not_pnl. apply lookup_empty.
  - destruct (_ || _ || _); [|apply lookup_empty].
    rewrite calculate_performance_metrics_run, Hd.
    destruct (head (trade_files d)) as [tf|];
      cbn -[calculate_pnl_metrics calculate_trade_metrics]; [|apply lookup_empty].
    match goal with |- context [calculate_trade_metrics ?f ?s] =>
      destruct (calculate_trade_metrics_frame f s) as (_ & _ & _ & Hm) end.
    rewrite Hm by now apply pnl_key_not_trade. apply lookup_empty.
Qed.

(** Scenario C of the specification: no PnL file, one trade file. *)
Lemma absence_propagation_scenario_C :
  let d := {| pnl_files := [];
              trade_files :=
                [read_trades (Some ["t1"; "t2"])
                   [ {| Price := 10; Quantity := 5; Side := Str "BUY" |};
                     {| Price := 10.5; Quantity := 3; Side := Str "SELL" |} ]];
              orderbook_files := [] |} in
  pnl_files d = [] /\ forall k, k ∈ pnl_keys -> metric k (analyze d) = None.
Proof.
  intros d. split; [reflexivity|].
  exact (proj2 (absence_propagation d) eq_refl).
Defined.

(** C6, as the code has it: the run returns early, before any normalisation
    or metric, exactly when no table kind has a source.  With a source it
    goes on, and absent tables never make it raise: with an order book
    only it always returns at the end.  But it does not always terminate
    successfully.  When it does, the PnL table, if there is one, has a row,
    and the trade table, if there is one, has a Timestamp column and trades
    on both sides; and when every library call outside the tables returns
    (the timestamps are parsed, the figures drawn and saved, the report
    written) these conditions are enough.  The analyzer is then left as
    the loader, the normaliser and the metrics engine made it. *)
Theorem run_aborts_iff_no_source (env : Env.t) (d : data_dir) :
  let no_source := pnl_files d = [] /\ trade_files d = [] /\ orderbook_files d = [] in
  ((Env.run_analysis env d init).1 = inr false <-> no_source) /\
  (no_source -> Env.run_analysis env d init = (inr false, init)) /\
  (pnl_files d = [] -> trade_files d = [] -> orderbook_files d <> [] ->
   Env.run_analysis env d init = (inr true, analyze d) /\
   performance_metrics (analyze d) = ∅) /\
  ((Env.run_analysis env d init).1 = inr true ->
   pnl_has_rows d /\ trades_drawable d /\
   Env.run_analysis env d init = (inr true, analyze d)) /\
  ((forall c, env c = None) -> ~ no_source -> pnl_has_rows d -> trades_drawable d ->
   Env.run_analysis env d init = (inr true, analyze d)).
Proof.
  cbv zeta.
  assert (Hflag : ~ (pnl_files d = [] /\ trade_files d = [] /\ orderbook_files d = []) ->
                  bool_decide (pnl_files d <> []) || bool_decide (trade_files d <> [])
                  || bool_decide (orderbook_files d <> []) = true).
  { intros Hn. destruct (pnl_files d), (trade_files d), (orderbook_files d);
      try reflexivity. exfalso. apply Hn; auto. }
  assert (Hnone : pnl_files d = [] /\ trade_files d = [] /\ orderbook_files d = [] ->
                  Env.run_analysis env d init = (inr false, init)).
  { intros (Hp & Ht & Hb). rewrite run_analysis_env, Hp, Ht, Hb. reflexivity. }
  (* what a run that returns at its end has gone through *)
  assert (Hend : (Env.run_analysis env d init).1 = inr true ->
                 ~ (pnl_files d = [] /\ trade_files d = [] /\ orderbook_files d = []) /\
                 exists a, calculate_performance_metrics
                             (preprocess_data (load_data d init).2).2 = (inr tt, a) /\
                           (charts env a).1 = inr true /\
                           Env.run_analysis env d init = (inr true, a)).
  { intros Hr.
    assert (Hn : ~ (pnl_files d = [] /\ trade_files d = [] /\ orderbook_files d = [])).
    { intros H. rewrite (Hnone H) in Hr. discriminate. }
    split; [exact Hn|]. rewrite run_analysis_env, (Hflag Hn) in Hr |- *.
    destruct (preprocess_data_run_env env (load_data d init).2) as [E|(e & a & E)];
      rewrite E in Hr |- *; [|discriminate].
    rewrite preprocess_data_run in Hr |- *. cbn [snd].
    destruct (calculate_performance_metrics _) as [[e|[]] a] eqn:Em; [discriminate|].
    exists a. split; [reflexivity|]. split; [exact Hr|].
    rewrite (outcome_state _ a (charts_state env a)). now rewrite Hr. }
  split; [|split; [exact Hnone|split; [|split]]].
  - split; [|intros H; now rewrite (Hnone H)].
    intros Hr.
    assert (Hdec : (pnl_files d = [] /\ trade_files d = [] /\ orderbook_files d = []) \/
                   ~ (pnl_files d = [] /\ trade_files d = [] /\ orderbook_files d = [])).
    { destruct (pnl_files d), (trade_files d), (orderbook_files d); auto;
        right; intros (? & ? & ?); discriminate. }
    destruct Hdec as [H|Hn]; [exact H|exfalso].
    rewrite run_analysis_env, (Hflag Hn) in Hr.
    destruct (Env.preprocess_data env _) as [[e|[]] a]; [discriminate|].
    destruct (calculate_performance_metrics a) as [[e|[]] a']; [discriminate|].
    destruct (charts_outcome env a') as [E|[e E]]; rewrite E in Hr; discriminate.
  - intros Hp Ht Hb.
    assert (Hn : ~ (pnl_files d = [] /\ trade_files d = [] /\ orderbook_files d = [])).
    { intros (_ & _ & H). contradiction. }
    rewrite (analyze_state d Hn), run_analysis_env, (Hflag Hn), load_data_init, Hp, Ht.
    cbn [snd head]. split; reflexivity.
  - intros Hr. destruct (Hend Hr) as (Hn & a & Hm & Hc & Hrun).
    assert (Ha : analyze d = a) by (rewrite (analyze_state d Hn), Hm; reflexivity).
    rewrite Ha. split; [|split; [|exact Hrun]].
    + intros f rest Hf Hrows. rewrite normalised_state, Hf in Hm.
      rewrite calculate_performance_metrics_run in Hm. cbn [pnl_data head fmap option_fmap option_map] in Hm.
      rewrite calculate_pnl_metrics_empty in Hm by now apply preprocess_pnl_records_nil.
      discriminate.
    + intros f rest Hf.
      pose proof (calculate_performance_metrics_tables
                    (preprocess_data (load_data d init).2).2) as (_ & Ht & _).
      rewrite Hm in Ht. cbn [snd] in Ht. rewrite normalised_state in Ht.
      cbn [trade_data] in Ht. rewrite Hf in Ht. cbn in Ht.
      destruct (charts_returns env a _ Ht Hc) as [Hi Hw].
      split; [exact Hi|]. now apply side_wedges_some.
  - intros Hfair Hn Hrows Hdraw.
    destruct (run_stages d) as (_ & _ & Hs).
    destruct (Hs Hn Hrows) as (a & Hr & Hpa & Hta).
    assert (Ha : analyze d = a) by (unfold analyze; now rewrite Hr).
    rewrite Ha.
    assert (Hm : calculate_performance_metrics (preprocess_data (load_data d init).2).2
                 = (inr tt, a)).
    { rewrite run_analysis_init, (Hflag Hn) in Hr. rewrite normalised_state.
      destruct (calculate_performance_metrics _) as [[e|[]] a0]; [discriminate|].
      now injection Hr as <-. }
    rewrite run_analysis_env, (Hflag Hn), preprocess_data_fair by (intros; apply Hfair).
    rewrite preprocess_data_run at 1. cbn [snd] in Hm. rewrite preprocess_data_run in Hm.
    cbn [snd] in Hm. rewrite Hm.
    apply charts_fair; [exact Hfair| |].
    + intros df Hdf. rewrite Hpa in Hdf.
      destruct (head (pnl_files d)) as [f|]; [|discriminate]. injection Hdf as <-.
      rewrite preprocess_pnl_cumulative. eauto.
    + intros df Hdf. rewrite Hta in Hdf.
      destruct (trade_files d) as [|f rest] eqn:Hf; [discriminate|]. injection Hdf as <-.
      destruct (Hdraw f rest Hf) as (Hi & Hb & Hs').
      split; [exact Hi|]. apply side_wedges_some. auto.
Qed.

(** The two tables of [dated_tables], with dates and a trade on each
    side, in the environment in which every call returns. *)
Lemma run_completes_dated_tables :
  Env.run_analysis Env.fair dated_tables init = (inr true, analyze dated_tables).
Proof.
  refine (proj2 (proj2 (proj2 (proj2 (run_aborts_iff_no_source Env.fair dated_tables))))
            (fun _ => eq_refl) _ _ _).
  - intros (H & _). discriminate.
  - intros f rest E. injection E as <- <-. discriminate.
  - intros f rest E. injection E as <- <-. vm_compute. repeat split; eauto.
Defined.

(** A source does not make the run terminate successfully, also when every
    library call returns: a PnL file with a header and no row raises
    IndexError at [iloc[-1]]; a trade file without a Timestamp column
    raises TypeError at [resample]; a trade file with two buys and no sell
    raises ValueError at [pie].  And when a timestamp cannot be parsed the
    run stops in [preprocess_data], before any table is normalised. *)
Lemma run_with_source_raises :
  let empty_pnl := {| pnl_files := [read_pnl (Some []) []]; trade_files := [];
                      orderbook_files := [] |} in
  let no_timestamp :=
    trades_only [ {| Price := 10; Quantity := 5; Side := Str "BUY" |};
                  {| Price := 10.5; Quantity := 3; Side := Str "SELL" |} ] in
  let one_side :=
    {| pnl_files := [];
       trade_files :=
         [read_trades (Some ["2024-01-01 09:30:00"; "2024-01-01 09:31:00"])
            [ {| Price := 10; Quantity := 5; Side := Str "BUY" |};
              {| Price := 10.5; Quantity := 3; Side := Str "BUY" |} ]];
       orderbook_files := [] |} in
  (Env.run_analysis Env.fair empty_pnl init).1 = inl IndexError /\
  (Env.run_analysis Env.fair no_timestamp init).1 = inl TypeError /\
  (run_analysis no_timestamp init).1 = inr true /\
  (Env.run_analysis Env.fair one_side init).1 = inl ValueError /\
  (run_analysis one_side init).1 = inr true /\
  Env.run_analysis no_dates both_tables init
  = (inl (Raised "DateParseError"), (load_data both_tables init).2).
Proof. vm_compute. repeat split. Qed.

(** C7: the PnL rows (t1,100,100), (t2,150,50), (t3,90,-60) give
    TotalPnL = 90, MaxPnL = 150, MinPnL = 90 and the cumulative series
    [100, 250, 340], the running sum of the TotalPnL column, on which the
    drawdown is computed. *)
Theorem scenario_A_metrics :
  let d := {| pnl_files :=
                [read_pnl (Some ["t1"; "t2"; "t3"])
                   [ {| TotalPnL := 100; DailyPnL := 100 |};
                     {| TotalPnL := 150; DailyPnL := 50 |};
                     {| TotalPnL := 90; DailyPnL := -60 |} ]];
              trade_files := []; orderbook_files := [] |} in
  (run_analysis d init).1 = inr true /\
  metric "TotalPnL" (analyze d) = Some (PyFloat 90) /\
  metric "MaxPnL" (analyze d) = Some (PyFloat 150) /\
  metric "MinPnL" (analyze d) = Some (PyFloat 90) /\
  pnl_CumulativePnL <$> pnl_data (analyze d) = Some (Some [100; 250; 340]%float) /\
  metric "MaxDrawdown" (analyze d) =
    Some (PyFloat (Series.min (drawdown [100; 250; 340]%float))) /\
  drawdown [100; 250; 340]%float = [0; 0; 0]%float.
Proof. vm_compute. repeat split. Qed.

(** C8: SharpeRatio is (mean of the defined percentage changes of TotalPnL
    x 252) / Volatility when the Volatility metric is greater than 0, and
    the integer 0 otherwise.  The mean is the sum of the defined changes
    over their count, and Volatility is then their sample standard
    deviation times sqrt(252). *)
Theorem sharpe_ratio_formula (d : data_dir) (f : pnl_frame) (rest : list pnl_frame) :
  pnl_files d = f :: rest ->
  pnl_records f <> [] ->
  let total_pnl := TotalPnL <$> pnl_records f in
  exists v : float,
    metric "Volatility" (analyze d) = Some (PyFloat v) /\
    metric "SharpeRatio" (analyze d) =
      Some (if (0 <? v)%float
            then PyFloat (mean_of (defined_changes total_pnl) * 252 / v)%float
            else PyInt 0) /\
    ((0 <? v)%float = true ->
     v = (sample_std (defined_changes total_pnl) * F64.sqrt252)%float).
Proof.
  intros Hd Hne total_pnl.
  destruct (run_with_pnl d f rest Hd Hne)
    as (a & Hr & _ & _ & _ & _ & _ & _ & Hv & Hs).
  unfold analyze. rewrite Hr. cbn [snd]. eexists. split; [exact Hv|].
  rewrite Hs. unfold sharpe_value. fold total_pnl.
  assert (Hpos : (0 <? Series.std (Series.dropna (Series.pct_change total_pnl))
                       * F64.sqrt252)%float = true ->
                 infinite_change total_pnl = false /\
                 (2 <= length (defined_changes total_pnl))%nat).
  { intros Epos. split.
    - destruct (infinite_change total_pnl) eqn:Einf; [|reflexivity].
      rewrite F64Special.ltb_nan_r in Epos; [discriminate|].
      apply volatility_nan. now left.
    - destruct (Nat.le_gt_cases 2 (length (defined_changes total_pnl))) as [H|H];
        [exact H|].
      rewrite F64Special.ltb_nan_r in Epos; [discriminate|].
      apply volatility_nan. now right. }
  split.
  - destruct (0 <? _)%float eqn:Epos; [|reflexivity].
    destruct (Hpos eq_refl) as [Einf _].
    now rewrite (returns_defined _ Einf), (mean_spec _ (defined_changes_notna total_pnl)).
  - intros Epos. destruct (Hpos Epos) as [Einf Hlen].
    rewrite (returns_defined _ Einf).
    now rewrite (std_spec _ (defined_changes_notna total_pnl) Hlen).
Qed.

(** Scenario A: the mean of the changes 0.5 and about -0.4 is about 0.05,
    Volatility is about 10.1025 and the Sharpe ratio about 1.2472. *)
Lemma sharpe_ratio_formula_scenario_A :
  mean_of (defined_changes [100; 150; 90]%float) = 0x19999999999998p-57%float /\
  metric "SharpeRatio" (analyze (pnl_only [100; 150; 90]%float))
  = Some (PyFloat 0x13f49c0b9ad4dbp-52) /\
  exists v : float,
    metric "Volatility" (analyze (pnl_only [100; 150; 90]%float)) = Some (PyFloat v) /\
    metric "SharpeRatio" (analyze (pnl_only [100; 150; 90]%float)) =
      Some (if (0 <? v)%float
            then PyFloat (mean_of (defined_changes [100; 150; 90]) * 252 / v)%float
            else PyInt 0) /\
    ((0 <? v)%float = true ->
     v = (sample_std (defined_changes [100; 150; 90]) * F64.sqrt252)%float).
Proof.
  split; [vm_compute; reflexivity|]. split; [vm_compute; reflexivity|].
  refine (sharpe_ratio_formula (pnl_only [100; 150; 90]%float) _ [] eq_refl _).
  discriminate.
Defined.

(** C9, as the code has it: normalisation reads and writes the two tables
    only, and it is not idempotent.  Applied to its own output it leaves
    the PnL table, CumulativePnL included, and the index and the
    TradeValue, Price and Quantity columns of the trade table as they are,
    and maps every Side to a missing value: the normalised trade table is
    unchanged exactly when no Side of the file is BUY or SELL, and metrics
    computed afterwards count no buy and no sell.  From the second
    application on, nothing changes any more. *)
Theorem normalisation_not_idempotent (self : HFTAnalyzer) :
  let once := (preprocess_data self).2 in
  let twice := (preprocess_data once).2 in
  (orderbook_data once = orderbook_data self /\
   performance_metrics once = performance_metrics self) /\
  pnl_data twice = pnl_data once /\
  (forall tf, trade_data self = Some tf ->
     exists t1 t2,
       trade_data once = Some t1 /\ trade_data twice = Some t2 /\
       trade_TradeValue t2 = trade_TradeValue t1 /\
       trade_index t2 = trade_index t1 /\
       Price <$> trade_records t2 = Price <$> trade_records t1 /\
       Quantity <$> trade_records t2 = Quantity <$> trade_records t1 /\
       Side <$> trade_records t2 = (fun _ => Num nan) <$> trade_records tf /\
       (t2 = t1 <->
        Forall (fun r => recognised_side (Side r) = false) (trade_records tf))) /\
  (forall tf a, trade_data self = Some tf ->
     calculate_performance_metrics twice = (inr tt, a) ->
     metric "BuyTrades" a = Some (PyInt 0) /\ metric "SellTrades" a = Some (PyInt 0)) /\
  (preprocess_data twice).2 = twice.
Proof.
  cbv zeta. split; [split; reflexivity|]. split; [|split; [|split]].
  - rewrite !preprocess_data_run. cbn [snd pnl_data].
    destruct (pnl_data self) as [pf|]; cbn [fmap option_fmap option_map]; [|reflexivity].
    now rewrite preprocess_pnl_idempotent.
  - intros tf Ht. rewrite !preprocess_data_run. cbn [snd trade_data]. rewrite Ht.
    cbn [fmap option_fmap option_map].
    exists (preprocess_trades tf), (preprocess_trades (preprocess_trades tf)).
    split; [reflexivity|]. split; [reflexivity|]. apply preprocess_trades_twice.
  - intros tf a Ht Ha.
    destruct (counts_after_second_normalisation self tf a Ht Ha) as (_ & Hb & Hs). auto.
  - rewrite !preprocess_data_run.
    cbn [snd pnl_data trade_data orderbook_data performance_metrics]. f_equal.
    + destruct (pnl_data self) as [pf|]; cbn [fmap option_fmap option_map]; [|reflexivity].
      now rewrite !preprocess_pnl_idempotent.
    + destruct (trade_data self) as [tf|]; cbn [fmap option_fmap option_map]; [|reflexivity].
      now rewrite preprocess_trades_thrice.
Qed.

(** The tables of [both_tables], one BUY and one SELL: the first
    normalisation gives the sides 1 and -1, the second makes both missing;
    the normalised trade table has changed, and BuyTrades and SellTrades
    go from 1 and 1 to 0 and 0. *)
Lemma normalisation_twice_both_tables :
  let self := (load_data both_tables init).2 in
  let once := (preprocess_data self).2 in
  let twice := (preprocess_data once).2 in
  (fun t => Side <$> trade_records t) <$> trade_data once = Some [Num 1; Num (-1)]%float /\
  (fun t => Side <$> trade_records t) <$> trade_data twice = Some [Num nan; Num nan] /\
  trade_data twice <> trade_data once /\
  metric "BuyTrades" (calculate_performance_metrics once).2 = Some (PyInt 1) /\
  metric "SellTrades" (calculate_performance_metrics once).2 = Some (PyInt 1) /\
  metric "BuyTrades" (calculate_performance_metrics twice).2 = Some (PyInt 0) /\
  metric "SellTrades" (calculate_performance_metrics twice).2 = Some (PyInt 0).
Proof.
  cbv zeta. split; [reflexivity|]. split; [reflexivity|]. split; [|vm_compute; auto].
  intros E. apply (f_equal (fmap (fun t => cell_isna <$> (Side <$> trade_records t)))) in E.
  vm_compute in E. discriminate.
Qed.

(** C10, as the code has it: for every non-empty PnL table whose last
    TotalPnL cell is not missing (NaN), MinPnL <= TotalPnL <= MaxPnL.
    TotalPnL is the last cell as it is, while MinPnL and MaxPnL are the
    minimum and maximum of the cells that are not missing. *)
Theorem pnl_bounds (d : data_dir) (f : pnl_frame) (rest : list pnl_frame)
    (last_pnl : float) :
  pnl_files d = f :: rest ->
  last (TotalPnL <$> pnl_records f) = Some last_pnl ->
  is_nan last_pnl = false ->
  exists lo hi : float,
    metric "MinPnL" (analyze d) = Some (PyFloat lo) /\
    metric "TotalPnL" (analyze d) = Some (PyFloat last_pnl) /\
    metric "MaxPnL" (analyze d) = Some (PyFloat hi) /\
    (lo <=? last_pnl)%float = true /\ (last_pnl <=? hi)%float = true.
Proof.
  intros Hd Hl Hn.
  assert (Hne : pnl_records f <> []).
  { intros E. rewrite E in Hl. discriminate. }
  destruct (run_with_pnl d f rest Hd Hne) as (a & Hr & _ & _ & Ht & Hmax & Hmin & _).
  unfold analyze. rewrite Hr. cbn [snd]. rewrite Hl in Ht.
  exists (Series.min (TotalPnL <$> pnl_records f)),
         (Series.max (TotalPnL <$> pnl_records f)).
  assert (Hin : In last_pnl (TotalPnL <$> pnl_records f)).
  { apply list_elem_of_In. apply last_Some in Hl as [l' ->]. set_solver. }
  repeat split; auto using min_le, max_ge.
Qed.

(** The three rows of Scenario A. *)
Lemma pnl_bounds_scenario_A :
  exists lo hi : float,
    metric "MinPnL" (analyze (pnl_only [100; 150; 90]%float)) = Some (PyFloat lo) /\
    metric "TotalPnL" (analyze (pnl_only [100; 150; 90]%float)) = Some (PyFloat 90) /\
    metric "MaxPnL" (analyze (pnl_only [100; 150; 90]%float)) = Some (PyFloat hi) /\
    (lo <=? 90)%float = true /\ (90 <=? hi)%float = true.
Proof.
  exact (pnl_bounds (pnl_only [100; 150; 90]%float) _ [] 90%float
           eq_refl eq_refl eq_refl).
Defined.

(** A missing last cell: TotalPnL is NaN while MinPnL = MaxPnL = 1, and
    NaN compares with nothing. *)
Lemma pnl_bounds_missing_last :
  let a := analyze (pnl_only [1; nan]%float) in
  metric "MinPnL" a = Some (PyFloat 1) /\
  metric "TotalPnL" a = Some (PyFloat nan) /\
  metric "MaxPnL" a = Some (PyFloat 1) /\
  (1 <=? nan)%float = false /\ (nan <=? 1)%float = false.
Proof. vm_compute. repeat split. Qed.

(** * Further properties of the code *)

(** ** The loader on an analyzer that was used before *)

Section Loader.

(** [load_data] on any analyzer. *)
Lemma load_data_run d self :
  let pnl := match pnl_files d with f :: _ => Some f | [] => pnl_data self end in
  let trade := match trade_files d with f :: _ => Some f | [] => trade_data self end in
  let book :=
    match orderbook_files d with f :: _ => Some f | [] => orderbook_data self end in
  load_data d self =
  (inr (bool_decide (is_Some pnl) || bool_decide (is_Some trade)
        || bool_decide (is_Some book)),
   {| pnl_data := pnl; trade_data := trade; orderbook_data := book;
      performance_metrics := performance_metrics self |}).
Proof. reflexivity. Qed.

(** X1: [load_data] returns [False] exactly when the directory has no
    matching file of any kind and the analyzer holds no table from an
    earlier call.  A kind without a file keeps the table the analyzer held,
    a kind with files takes the first of them, and the metrics are not
    touched. *)
Theorem load_data_keeps_loaded_tables (d : data_dir) (self : HFTAnalyzer) :
  let r := load_data d self in
  (r.1 = inr false <->
   (pnl_files d = [] /\ trade_files d = [] /\ orderbook_files d = []) /\
   (pnl_data self = None /\ trade_data self = None /\ orderbook_data self = None)) /\
  pnl_data r.2 = (if pnl_files d is f :: _ then Some f else pnl_data self) /\
  trade_data r.2 = (if trade_files d is f :: _ then Some f else trade_data self) /\
  orderbook_data r.2
  = (if orderbook_files d is f :: _ then Some f else orderbook_data self) /\
  performance_metrics r.2 = performance_metrics self.
Proof.
  cbv zeta. rewrite load_data_run.
  cbn [fst snd pnl_data trade_data orderbook_data performance_metrics].
  split; [|repeat split].
  destruct (pnl_files d) as [|pf ?], (trade_files d) as [|tf ?],
    (orderbook_files d) as [|bf ?], (pnl_data self) as [p|], (trade_data self) as [t|],
    (orderbook_data self) as [b|]; cbn; split;
    try (intros ((? & ? & ?) & (? & ? & ?)); discriminate);
    try (intros H; discriminate H); auto.
Qed.

End Loader.

(** ** What [calculate_performance_metrics] reads and writes *)

Section Frame.

Lemma calculate_pnl_metrics_keeps df self k :
  is_Some (metric k self) -> is_Some (metric k (calculate_pnl_metrics df self).2).
Proof.
  unfold metric. run_monad.
  destruct (last (TotalPnL <$> pnl_records df)) as [lp|]; simpl; [|auto].
  destruct (pnl_CumulativePnL df) as [cum|]; simpl.
  - rewrite lookup_insert_eq. simpl.
    destruct (0 <? _)%float; simpl; rewrite !lookup_insert; intros H;
      repeat case_decide; eauto.
  - rewrite !lookup_insert; intros H; repeat case_decide; eauto.
Qed.

Lemma calculate_trade_metrics_keeps df self k :
  is_Some (metric k self) -> is_Some (metric k (calculate_trade_metrics df self).2).
Proof.
  unfold metric. run_monad. rewrite !lookup_insert; intros H; repeat case_decide; eauto.
Qed.

(** X2: [calculate_performance_metrics] leaves the three tables as they
    are and writes under its own thirteen keys only: an entry under any
    other key keeps its value, and no entry is ever removed, also when the
    method raises. *)
Theorem calculate_performance_metrics_frame (self : HFTAnalyzer) :
  let a := (calculate_performance_metrics self).2 in
  pnl_data a = pnl_data self /\
  trade_data a = trade_data self /\
  orderbook_data a = orderbook_data self /\
  (forall k, k ∉ (pnl_keys ++ trade_keys) -> metric k a = metric k self) /\
  (forall k, is_Some (metric k self) -> is_Some (metric k a)).
Proof.
  cbv zeta. destruct (calculate_performance_metrics_tables self) as (T1 & T2 & T3).
  refine (conj T1 (conj T2 (conj T3 _))). clear T1 T2 T3.
  rewrite calculate_performance_metrics_run.
  assert (Hsplit : forall k, k ∉ (pnl_keys ++ trade_keys) ->
                             (k ∉ pnl_keys) /\ (k ∉ trade_keys)).
  { intros k Hk. split; intros Hin; apply Hk, elem_of_app; auto. }
  assert (Hpnl : forall df,
    let a := (calculate_pnl_metrics df self).2 in
    (forall k, k ∉ (pnl_keys ++ trade_keys) -> metric k a = metric k self) /\
    (forall k, is_Some (metric k self) -> is_Some (metric k a))).
  { intros df. destruct (calculate_pnl_metrics_frame df self) as (_ & _ & _ & H4). split.
    - intros k Hk. apply H4. now apply Hsplit.
    - intros k. apply calculate_pnl_metrics_keeps. }
  assert (Htrade : forall tf s,
    let a := (calculate_trade_metrics tf s).2 in
    (forall k, k ∉ (pnl_keys ++ trade_keys) -> metric k a = metric k s) /\
    (forall k, is_Some (metric k s) -> is_Some (metric k a))).
  { intros tf s. destruct (calculate_trade_metrics_frame tf s) as (_ & _ & _ & H4). split.
    - intros k Hk. apply H4. now apply Hsplit.
    - intros k. apply calculate_trade_metrics_keeps. }
  destruct (pnl_data self) as [df|].
  - specialize (Hpnl df). cbv zeta in Hpnl.
    destruct (calculate_pnl_metrics df self) as [[e|[]] a]; cbn [snd] in *; [exact Hpnl|].
    destruct Hpnl as (H4 & H5).
    destruct (trade_data a) as [tf|]; [|cbn [snd]; auto].
    destruct (Htrade tf a) as (G4 & G5). split.
    + intros k Hk. rewrite G4, H4; auto.
    + intros k Hk. auto.
  - destruct (trade_data self) as [tf|]; [apply Htrade|].
    cbn [snd]. auto.
Qed.

End Frame.

Section Columns.

Lemma calculate_pnl_metrics_columns df df' self self' :
  TotalPnL <$> pnl_records df = TotalPnL <$> pnl_records df' ->
  pnl_CumulativePnL df = pnl_CumulativePnL df' ->
  performance_metrics self = performance_metrics self' ->
  (calculate_pnl_metrics df self).1 = (calculate_pnl_metrics df' self').1 /\
  performance_metrics (calculate_pnl_metrics df self).2
  = performance_metrics (calculate_pnl_metrics df' self').2.
Proof.
  intros Ht Hc Hm. destruct self as [p t b m], self' as [p' t' b' m'].
  cbn [performance_metrics] in Hm. subst m'.
  unfold calculate_pnl_metrics. rewrite <- Ht, <- Hc.
  unfold iloc_last, column, mbind, py_bind, mret, py_ret, raise, set_metric,
    get_metric, with_metrics.
  destruct (last (TotalPnL <$> pnl_records df)) as [lp|];
    cbn [fst snd performance_metrics pnl_data trade_data orderbook_data]; [|auto].
  destruct (pnl_CumulativePnL df) as [cum|];
    cbn [fst snd performance_metrics pnl_data trade_data orderbook_data]; [|auto].
  rewrite !lookup_insert_eq.
  destruct (py_gt0 _); cbn [fst snd performance_metrics]; auto.
Qed.

Lemma calculate_trade_metrics_columns df df' self self' :
  trade_records df = trade_records df' ->
  performance_metrics self = performance_metrics self' ->
  (calculate_trade_metrics df self).1 = (calculate_trade_metrics df' self').1 /\
  performance_metrics (calculate_trade_metrics df self).2
  = performance_metrics (calculate_trade_metrics df' self').2.
Proof.
  intros Ht Hm. rewrite !calculate_trade_metrics_run. cbv zeta.
  cbn [fst snd with_metrics performance_metrics]. rewrite Ht, Hm. auto.
Qed.

Lemma calculate_performance_metrics_columns self self' :
  (fun f => (TotalPnL <$> pnl_records f, pnl_CumulativePnL f)) <$> pnl_data self
  = (fun f => (TotalPnL <$> pnl_records f, pnl_CumulativePnL f)) <$> pnl_data self' ->
  trade_records <$> trade_data self = trade_records <$> trade_data self' ->
  performance_metrics self = performance_metrics self' ->
  (calculate_performance_metrics self).1 = (calculate_performance_metrics self').1 /\
  performance_metrics (calculate_performance_metrics self).2
  = performance_metrics (calculate_performance_metrics self').2.
Proof.
  intros Hp Ht Hm. rewrite !calculate_performance_metrics_run.
  destruct (pnl_data self) as [df|], (pnl_data self') as [df'|]; try discriminate.
  - injection Hp as Hp1 Hp2.
    pose proof (calculate_pnl_metrics_columns df df' self self' Hp1 Hp2 Hm) as (E1 & E2).
    pose proof (calculate_pnl_metrics_frame df self) as (_ & F & _).
    pose proof (calculate_pnl_metrics_frame df' self') as (_ & F' & _).
    destruct (calculate_pnl_metrics df self) as [[e|[]] a],
             (calculate_pnl_metrics df' self') as [[e'|[]] a'];
      cbn [fst snd] in *; try discriminate; [auto|].
    rewrite F, F'.
    destruct (trade_data self) as [tf|], (trade_data self') as [tf'|]; try discriminate.
    + injection Ht as Ht. now apply calculate_trade_metrics_columns.
    + auto.
  - destruct (trade_data self) as [tf|], (trade_data self') as [tf'|]; try discriminate.
    + injection Ht as Ht. now apply calculate_trade_metrics_columns.
    + auto.
Qed.

Lemma analyze_metrics d :
  performance_metrics (analyze d) =
  performance_metrics
    (calculate_performance_metrics
       {| pnl_data := preprocess_pnl <$> head (pnl_files d);
          trade_data := preprocess_trades <$> head (trade_files d);
          orderbook_data := head (orderbook_files d);
          performance_metrics := ∅ |}).2.
Proof.
  rewrite analyze_unfold.
  destruct (pnl_files d), (trade_files d), (orderbook_files d); reflexivity.
Qed.

(** X3: the metrics of a run depend on nothing but the TotalPnL column of
    the first PnL file and the Price, Quantity and Side columns of the
    first trade file, row by row in file order.  Further matching files,
    the order book, the timestamps (dates that pandas can parse: the rows
    are never sorted by them) and the DailyPnL column do not change a
    metric; and when the two directories agree on having an order book
    file, the two runs end the same way. *)
Theorem metrics_depend_on_columns (d d' : data_dir) :
  (fun f => TotalPnL <$> pnl_records f) <$> head (pnl_files d)
  = (fun f => TotalPnL <$> pnl_records f) <$> head (pnl_files d') ->
  trade_records <$> head (trade_files d) = trade_records <$> head (trade_files d') ->
  performance_metrics (analyze d) = performance_metrics (analyze d') /\
  ((orderbook_files d = [] <-> orderbook_files d' = []) ->
   (run_analysis d init).1 = (run_analysis d' init).1).
Proof.
  intros Hp Ht.
  set (s := {| pnl_data := preprocess_pnl <$> head (pnl_files d);
               trade_data := preprocess_trades <$> head (trade_files d);
               orderbook_data := head (orderbook_files d);
               performance_metrics := ∅ |}).
  set (s' := {| pnl_data := preprocess_pnl <$> head (pnl_files d');
                trade_data := preprocess_trades <$> head (trade_files d');
                orderbook_data := head (orderbook_files d');
                performance_metrics := ∅ |}).
  assert (H : (calculate_performance_metrics s).1 = (calculate_performance_metrics s').1 /\
              performance_metrics (calculate_performance_metrics s).2
              = performance_metrics (calculate_performance_metrics s').2).
  { apply calculate_performance_metrics_columns; [| |reflexivity]; subst s s';
      cbn [pnl_data trade_data].
    - destruct (head (pnl_files d)) as [f|], (head (pnl_files d')) as [f'|];
        try discriminate; [|reflexivity].
      injection Hp as Hp. cbn [fmap option_fmap option_map].
      rewrite !preprocess_pnl_total, !preprocess_pnl_cumulative, Hp. reflexivity.
    - destruct (head (trade_files d)) as [f|], (head (trade_files d')) as [f'|];
        try discriminate; [|reflexivity].
      injection Ht as Ht. cbn [fmap option_fmap option_map].
      rewrite !preprocess_trades_records, Ht. reflexivity. }
  destruct H as (H1 & H2). split.
  - rewrite !analyze_metrics. exact H2.
  - intros Hb. rewrite !run_analysis_init. fold s s'.
    assert (Hany : (bool_decide (pnl_files d <> []) || bool_decide (trade_files d <> [])
                    || bool_decide (orderbook_files d <> []))
                 = (bool_decide (pnl_files d' <> []) || bool_decide (trade_files d' <> [])
                    || bool_decide (orderbook_files d' <> []))).
    { f_equal; [f_equal|]; apply bool_decide_ext.
      - destruct (pnl_files d), (pnl_files d'); try discriminate; split; congruence.
      - destruct (trade_files d), (trade_files d'); try discriminate; split; congruence.
      - tauto. }
    rewrite <- Hany. destruct (_ || _ || _); [|reflexivity].
    destruct (calculate_performance_metrics s) as [[e|[]] a],
             (calculate_performance_metrics s') as [[e'|[]] a'];
      cbn [fst] in *; congruence.
Qed.

(** The tables of [both_tables] against a directory without timestamps,
    with other DailyPnL values, a second PnL file and another order
    book. *)
Lemma metrics_depend_on_columns_other_directory :
  let d' := {| pnl_files :=
                 [read_pnl None
                    [ {| TotalPnL := 100; DailyPnL := nan |};
                      {| TotalPnL := 150; DailyPnL := 0 |};
                      {| TotalPnL := 90; DailyPnL := 7 |} ];
                  read_pnl None [ {| TotalPnL := -1; DailyPnL := -1 |} ]];
               trade_files :=
                 [read_trades None
                    [ {| Price := 10; Quantity := 5; Side := Str "BUY" |};
                      {| Price := 10.5; Quantity := 3; Side := Str "SELL" |} ]];
               orderbook_files := [[["price"]]; []] |} in
  performance_metrics (analyze both_tables) = performance_metrics (analyze d') /\
  ((orderbook_files both_tables = [] <-> orderbook_files d' = []) ->
   (run_analysis both_tables init).1 = (run_analysis d' init).1).
Proof.
  intros d'. exact (metrics_depend_on_columns both_tables d' eq_refl eq_refl).
Defined.

End Columns.

(** ** Computing the metrics again *)

Section Recompute.

(** The state [calculate_performance_metrics] ends in is a fixed point of
    it: the same values are stored again under the same keys. *)
Lemma calculate_performance_metrics_again self a :
  calculate_performance_metrics self = (inr tt, a) ->
  calculate_performance_metrics a = (inr tt, a).
Proof.
  intros E. rewrite calculate_performance_metrics_run in E.
  rewrite (calculate_performance_metrics_run a).
  destruct self as [p t b m]. cbn [pnl_data trade_data] in *.
  destruct p as [df|].
  - destruct (last (TotalPnL <$> pnl_records df)) as [lp|] eqn:Hl.
    2:{ unfold calculate_pnl_metrics, iloc_last in E. rewrite Hl in E. discriminate. }
    destruct (pnl_CumulativePnL df) as [cum|] eqn:Hc.
    2:{ unfold calculate_pnl_metrics, iloc_last, column in E. rewrite Hl, Hc in E.
        discriminate. }
    rewrite (calculate_pnl_metrics_run df _ lp cum Hl Hc) in E.
    cbn [with_metrics pnl_data trade_data orderbook_data performance_metrics] in E.
    destruct t as [tf|].
    + rewrite calculate_trade_metrics_run in E. injection E as <-.
      cbn [with_metrics pnl_data trade_data orderbook_data performance_metrics].
      rewrite (calculate_pnl_metrics_run df _ lp cum Hl Hc).
      cbn [with_metrics pnl_data trade_data orderbook_data performance_metrics].
      rewrite calculate_trade_metrics_run.
      unfold with_metrics; cbn [pnl_data trade_data orderbook_data performance_metrics].
      do 2 f_equal. same_entries.
    + injection E as <-.
      cbn [with_metrics pnl_data trade_data orderbook_data performance_metrics].
      rewrite (calculate_pnl_metrics_run df _ lp cum Hl Hc).
      unfold with_metrics; cbn [pnl_data trade_data orderbook_data performance_metrics].
      do 2 f_equal. same_entries.
  - destruct t as [tf|].
    + rewrite calculate_trade_metrics_run in E. injection E as <-.
      cbn [with_metrics pnl_data trade_data orderbook_data performance_metrics].
      rewrite calculate_trade_metrics_run.
      unfold with_metrics; cbn [pnl_data trade_data orderbook_data performance_metrics].
      do 2 f_equal. same_entries.
    + injection E as <-. reflexivity.
Qed.

(** X4: [calculate_performance_metrics] is idempotent: called twice in a
    row on any analyzer it ends with the same outcome, the same tables and
    the same dictionary as called once. *)
Theorem calculate_performance_metrics_idempotent (self : HFTAnalyzer) :
  (calculate_performance_metrics ;; calculate_performance_metrics) self
  = calculate_performance_metrics self.
Proof.
  rewrite bind_run.
  destruct (calculate_performance_metrics self) as [[e|[]] a] eqn:E; [reflexivity|].
  now apply calculate_performance_metrics_again with (self := self).
Qed.

(** X5: [run_analysis] called a second time on the same analyzer and the
    same directory ends exactly as the first call did: [load_data] reads
    the files again, so the tables are normalised once, not twice, and the
    metrics are stored again with the same values. *)
Theorem run_analysis_twice (d : data_dir) :
  (run_analysis d ;; run_analysis d) init = run_analysis d init.
Proof.
  rewrite bind_run.
  destruct (run_analysis d init) as [[e|[]] a] eqn:E; [reflexivity| |].
  - rewrite run_analysis_init in E.
    destruct (_ || _ || _) eqn:Hany in E; [|discriminate].
    set (s := {| pnl_data := preprocess_pnl <$> head (pnl_files d);
                 trade_data := preprocess_trades <$> head (trade_files d);
                 orderbook_data := head (orderbook_files d);
                 performance_metrics := ∅ |}) in E.
    pose proof (calculate_performance_metrics_tables s) as (F1 & F2 & F3).
    destruct (calculate_performance_metrics s) as [[e|[]] a'] eqn:Ec; [discriminate|].
    injection E as <-. cbn [snd] in F1, F2, F3.
    pose proof (calculate_performance_metrics_again s a' Ec) as Ha.
    unfold run_analysis. rewrite bind_run, load_data_run, F1, F2, F3.
    subst s. cbn [pnl_data trade_data orderbook_data performance_metrics].
    replace (match pnl_files d with
             | f :: _ => Some f
             | [] => preprocess_pnl <$> head (pnl_files d)
             end)
      with (head (pnl_files d)) by (destruct (pnl_files d); reflexivity).
    replace (match trade_files d with
             | f :: _ => Some f
             | [] => preprocess_trades <$> head (trade_files d)
             end)
      with (head (trade_files d)) by (destruct (trade_files d); reflexivity).
    replace (match orderbook_files d with
             | f :: _ => Some f
             | [] => head (orderbook_files d)
             end)
      with (head (orderbook_files d)) by (destruct (orderbook_files d); reflexivity).
    replace (bool_decide (is_Some (head (pnl_files d)))
             || bool_decide (is_Some (head (trade_files d)))
             || bool_decide (is_Some (head (orderbook_files d)))) with true.
    2:{ symmetry. rewrite <- Hany.
        destruct (pnl_files d), (trade_files d), (orderbook_files d); reflexivity. }
    cbn [negb]. unfold preprocess_data. rewrite !bind_run.
    unfold get_self, put_self. cbn [pnl_data trade_data orderbook_data performance_metrics].
    assert (Es : {| pnl_data := preprocess_pnl <$> head (pnl_files d);
                    trade_data := preprocess_trades <$> head (trade_files d);
                    orderbook_data := head (orderbook_files d);
                    performance_metrics := performance_metrics a' |} = a').
    { destruct a' as [p t b m]. cbn in *. now subst. }
    rewrite Es, bind_run, Ha. reflexivity.
  - rewrite run_analysis_init in E.
    destruct (_ || _ || _) eqn:Hany in E.
    + destruct (calculate_performance_metrics _) as [[?|[]] ?]; discriminate.
    + injection E as <-. rewrite run_analysis_init, Hany. reflexivity.
Qed.

End Recompute.

(** ** The normalised PnL table *)

Section Normaliser.
Import F64Facts F64Special.
Local Open Scope float_scope.

Lemma np_accumulate_length f l : forall acc,
  length (Series.np_accumulate f acc l) = length l.
Proof. induction l as [|x l IH]; intros acc; cbn; [reflexivity|]. now rewrite IH. Qed.

Lemma np_cumsum_length l : length (Series.np_cumsum l) = length l.
Proof. destruct l as [|x l]; cbn; [reflexivity|]. now rewrite np_accumulate_length. Qed.

Lemma fillna_length v s : length (Series.fillna v s) = length s.
Proof. unfold Series.fillna. apply length_map. Qed.

Lemma cumsum_length s : length (Series.cumsum s) = length s.
Proof.
  unfold Series.cumsum. rewrite length_zip_with, np_cumsum_length, fillna_length. lia.
Qed.

Lemma np_accumulate_step l : forall acc i c y,
  (acc :: Series.np_accumulate PrimFloat.add acc l) !! i = Some c ->
  l !! i = Some y ->
  Series.np_accumulate PrimFloat.add acc l !! i = Some (c + y).
Proof.
  induction l as [|x l IH]; intros acc i c y Hc Hy; [discriminate|].
  destruct i as [|i]; cbn in *.
  - injection Hc as <-. injection Hy as <-. reflexivity.
  - eapply IH; eauto.
Qed.

Lemma np_cumsum_step l i c y :
  Series.np_cumsum l !! i = Some c -> l !! S i = Some y ->
  Series.np_cumsum l !! S i = Some (c + y).
Proof.
  destruct l as [|x l]; [discriminate|]. cbn [Series.np_cumsum]. intros Hc Hy.
  change ((x :: Series.np_accumulate PrimFloat.add x l) !! S i)
    with (Series.np_accumulate PrimFloat.add x l !! i).
  now apply np_accumulate_step.
Qed.

Lemma fillna_lookup v s i x :
  s !! i = Some x -> Series.fillna v s !! i = Some (if is_nan x then v else x).
Proof.
  intros H. unfold Series.fillna.
  change (map ?f ?l) with (f <$> l). rewrite list_lookup_fmap, H. reflexivity.
Qed.

Lemma cumsum_lookup s i x r :
  s !! i = Some x -> Series.np_cumsum (Series.fillna 0 s) !! i = Some r ->
  Series.cumsum s !! i = Some (if is_nan x then nan else r).
Proof.
  intros Hx Hr. unfold Series.cumsum. rewrite lookup_zip_with, Hx. cbn. rewrite Hr.
  reflexivity.
Qed.

Lemma cumsum_lookup_inv s i x c :
  s !! i = Some x -> is_nan x = false -> Series.cumsum s !! i = Some c ->
  Series.np_cumsum (Series.fillna 0 s) !! i = Some c.
Proof.
  intros Hx Hn. unfold Series.cumsum. rewrite lookup_zip_with, Hx. cbn.
  destruct (Series.np_cumsum (Series.fillna 0 s) !! i) as [r|]; [|discriminate].
  cbn. unfold Series.isna. rewrite Hn. auto.
Qed.

(** X6: [preprocess_data] adds a CumulativePnL column with one cell per
    row, the running sum of TotalPnL in file order: the first cell is the
    first TotalPnL, each later cell is the cell before it plus the TotalPnL
    of its row (in binary64 arithmetic) wherever both rows have a value, and
    a row whose TotalPnL is missing has a missing CumulativePnL. *)
Theorem cumulative_pnl_running_sum (df : pnl_frame) :
  let total_pnl := TotalPnL <$> pnl_records df in
  exists cumulative,
    pnl_CumulativePnL (preprocess_pnl df) = Some cumulative /\
    length cumulative = length (pnl_records df) /\
    (forall x, total_pnl !! 0%nat = Some x -> is_nan x = false ->
               cumulative !! 0%nat = Some x) /\
    (forall i x y c,
       total_pnl !! i = Some x -> total_pnl !! S i = Some y ->
       is_nan x = false -> is_nan y = false ->
       cumulative !! i = Some c -> cumulative !! S i = Some (c + y)) /\
    (forall i x, total_pnl !! i = Some x -> is_nan x = true ->
                 cumulative !! i = Some nan).
Proof.
  intros total_pnl. exists (Series.cumsum total_pnl).
  split; [apply preprocess_pnl_cumulative|].
  split; [subst total_pnl; now rewrite cumsum_length, length_fmap|].
  split; [|split].
  - intros x Hx Hn. destruct total_pnl as [|x' s]; [discriminate|].
    injection Hx as ->. destruct (cumsum_head x s Hn) as [cs ->]. reflexivity.
  - intros i x y c Hx Hy Hnx Hny Hc.
    pose proof (cumsum_lookup_inv _ _ _ _ Hx Hnx Hc) as Hr.
    pose proof (fillna_lookup 0 _ _ _ Hy) as Hf. rewrite Hny in Hf.
    pose proof (np_cumsum_step _ _ _ _ Hr Hf) as Hs.
    rewrite (cumsum_lookup _ _ _ _ Hy Hs), Hny. reflexivity.
  - intros i x Hx Hn.
    assert (Hlt : (i < length (Series.np_cumsum (Series.fillna 0 total_pnl)))%nat).
    { rewrite np_cumsum_length, fillna_length. eapply lookup_lt_Some; eauto. }
    apply lookup_lt_is_Some in Hlt as [r Hr].
    rewrite (cumsum_lookup _ _ _ _ Hx Hr), Hn. reflexivity.
Qed.

Lemma preprocess_pnl_daily df :
  DailyPnL <$> pnl_records (preprocess_pnl df) = Series.fillna 0 (DailyPnL <$> pnl_records df).
Proof.
  unfold preprocess_pnl. destruct (pnl_Timestamp df); cbn [pnl_records];
    unfold Series.fillna; generalize (pnl_records df) as rows;
    induction rows as [|r rows IH]; cbn; f_equal; auto.
Qed.

(** X7: [preprocess_data] drops and reorders no PnL row and keeps the
    TotalPnL column as it is; in every row a missing DailyPnL becomes 0 and
    any other DailyPnL is kept, so that no DailyPnL is missing afterwards. *)
Theorem preprocess_pnl_rows (df : pnl_frame) :
  let df' := preprocess_pnl df in
  length (pnl_records df') = length (pnl_records df) /\
  TotalPnL <$> pnl_records df' = TotalPnL <$> pnl_records df /\
  (forall i r, pnl_records df !! i = Some r ->
     pnl_records df' !! i =
       Some {| TotalPnL := TotalPnL r;
               DailyPnL := if is_nan (DailyPnL r) then 0 else DailyPnL r |}) /\
  Forall (fun r => is_nan (DailyPnL r) = false) (pnl_records df').
Proof.
  cbv zeta.
  assert (Hrow : forall i r, pnl_records df !! i = Some r ->
     pnl_records (preprocess_pnl df) !! i =
       Some {| TotalPnL := TotalPnL r;
               DailyPnL := if is_nan (DailyPnL r) then 0 else DailyPnL r |}).
  { intros i r Hr. unfold preprocess_pnl.
    destruct (pnl_Timestamp df); cbn [pnl_records];
      rewrite lookup_zip_with, Hr; cbn;
      erewrite fillna_lookup by (rewrite list_lookup_fmap, Hr; reflexivity);
      reflexivity. }
  split; [|split; [apply preprocess_pnl_total|split; [exact Hrow|]]].
  - rewrite <- (length_fmap TotalPnL), preprocess_pnl_total. now rewrite length_fmap.
  - apply Forall_lookup. intros i r' Hr'.
    assert (Hlt : (i < length (pnl_records df))%nat).
    { rewrite <- (length_fmap TotalPnL), <- preprocess_pnl_total, length_fmap.
      eapply lookup_lt_Some; eauto. }
    apply lookup_lt_is_Some in Hlt as [r Hr]. rewrite (Hrow i r Hr) in Hr'.
    injection Hr' as <-. cbn. destruct (is_nan (DailyPnL r)) eqn:E; [reflexivity|exact E].
Qed.

End Normaliser.

(** ** The Side column *)

Section Sides.
Local Open Scope float_scope.

(** X8: [preprocess_data] is not idempotent on the trade table.  Called a
    second time it leaves the PnL table as the first call made it, but maps
    the Side column again: 1 and -1 are no keys of the dictionary, every
    Side becomes NaN, and metrics computed afterwards count no buy and no
    sell among all the trades. *)
Theorem preprocess_data_twice (self : HFTAnalyzer) (tf : trade_frame) :
  trade_data self = Some tf ->
  let once := (preprocess_data self).2 in
  let twice := (preprocess_data once).2 in
  pnl_data twice = pnl_data once /\
  (exists tf2, trade_data twice = Some tf2 /\
     Side <$> trade_records tf2 = (fun _ => Num nan) <$> trade_records tf) /\
  forall a, calculate_performance_metrics twice = (inr tt, a) ->
    metric "TotalTrades" a = Some (PyInt (Z.of_nat (length (trade_records tf)))) /\
    metric "BuyTrades" a = Some (PyInt 0) /\
    metric "SellTrades" a = Some (PyInt 0).
Proof.
  intros Ht. cbv zeta. unfold preprocess_data, mbind, py_bind, get_self, put_self.
  cbn [fst snd pnl_data trade_data orderbook_data performance_metrics]. rewrite Ht.
  cbn [fmap option_fmap option_map].
  set (tf2 := preprocess_trades (preprocess_trades tf)).
  assert (Hrec : trade_records tf2 = map_side_row <$> (map_side_row <$> trade_records tf)).
  { subst tf2. now rewrite !preprocess_trades_records. }
  assert (Hside : Forall (fun r => Side r = Num nan) (trade_records tf2)).
  { rewrite Hrec. apply Forall_fmap, Forall_fmap, Forall_true. intros r. cbn.
    apply map_side_twice. }
  split; [|split].
  - destruct (pnl_data self) as [pf|]; cbn [fmap option_fmap option_map]; [|reflexivity].
    now rewrite preprocess_pnl_idempotent.
  - exists tf2. split; [reflexivity|]. rewrite Hrec, <- !list_fmap_compose.
    apply list_fmap_ext. intros i r _. cbn. apply map_side_twice.
  - intros a Ha. rewrite calculate_performance_metrics_run in Ha.
    cbn -[calculate_pnl_metrics calculate_trade_metrics] in Ha.
    assert (Hfin : forall s, calculate_trade_metrics tf2 s = (inr tt, a) ->
      metric "TotalTrades" a = Some (PyInt (Z.of_nat (length (trade_records tf)))) /\
      metric "BuyTrades" a = Some (PyInt 0) /\ metric "SellTrades" a = Some (PyInt 0)).
    { intros s E. rewrite calculate_trade_metrics_run in E. injection E as <-.
      unfold metric, with_metrics; cbn [performance_metrics].
      rewrite !(filter_none (side_eq _)) by
        (eapply Forall_impl; [exact Hside|]; intros r Hr; now apply side_eq_nan).
      rewrite Hrec, !length_fmap.
      repeat split; rewrite ?lookup_insert_ne by done; apply lookup_insert_eq. }
    destruct (pnl_data self) as [pf|];
      cbn -[calculate_pnl_metrics calculate_trade_metrics] in Ha.
    + match type of Ha with context [calculate_pnl_metrics ?g ?s] =>
        pose proof (calculate_pnl_metrics_frame g s) as (_ & Hf & _);
        destruct (calculate_pnl_metrics g s) as [[e|[]] a1] end; [discriminate|].
      cbn [snd trade_data] in Hf. rewrite Hf in Ha. fold tf2 in Ha. eauto.
    + fold tf2 in Ha. eauto.
Qed.

(** The tables of [both_tables], loaded and normalised twice. *)
Lemma preprocess_data_twice_both_tables :
  let self := (load_data both_tables init).2 in
  let once := (preprocess_data self).2 in
  let twice := (preprocess_data once).2 in
  pnl_data twice = pnl_data once /\
  (exists tf2, trade_data twice = Some tf2 /\
     Side <$> trade_records tf2 = [Num nan; Num nan]) /\
  forall a, calculate_performance_metrics twice = (inr tt, a) ->
    metric "TotalTrades" a = Some (PyInt 2) /\
    metric "BuyTrades" a = Some (PyInt 0) /\
    metric "SellTrades" a = Some (PyInt 0).
Proof.
  intros self.
  exact (preprocess_data_twice self
           (read_trades (Some ["t1"; "t2"])
              [ {| Price := 10; Quantity := 5; Side := Str "BUY" |};
                {| Price := 10.5; Quantity := 3; Side := Str "SELL" |} ]) eq_refl).
Defined.

Lemma filter_ext_eq {A} (p q : A -> bool) l :
  (forall x, p x = q x) -> List.filter p l = List.filter q l.
Proof. intros H. induction l as [|x l IH]; cbn; [reflexivity|]. now rewrite H, IH. Qed.

Lemma filter_fmap_length {A B} (g : A -> B) (p : B -> bool) l :
  length (List.filter p (g <$> l)) = length (List.filter (fun x => p (g x)) l).
Proof.
  induction l as [|x l IH]; cbn; [reflexivity|].
  destruct (p (g x)); cbn; now rewrite IH.
Qed.

(** X9: after a run that went through, BuyTrades is the number of rows of
    the trade file whose Side cell is exactly the text BUY, and SellTrades
    the number of rows whose Side is exactly SELL; any other spelling
    (another case, surrounding blanks) or an empty cell counts on neither
    side. *)
Theorem buy_sell_count_exact_text (d : data_dir) (f : trade_frame)
    (rest : list trade_frame) (a : HFTAnalyzer) :
  trade_files d = f :: rest ->
  run_analysis d init = (inr true, a) ->
  metric "BuyTrades" a = Some (PyInt (Z.of_nat (count_side "BUY" (trade_records f)))) /\
  metric "SellTrades" a = Some (PyInt (Z.of_nat (count_side "SELL" (trade_records f)))).
Proof.
  intros Hd Hr. destruct (trade_metrics_of_run d f rest a Hd Hr) as (_ & Hb & Hs).
  rewrite Hb, Hs, !filter_fmap_length. unfold count_side.
  rewrite (filter_ext_eq _ _ _ side_eq_buy), (filter_ext_eq _ _ _ side_eq_sell).
  split; reflexivity.
Qed.

(** Four rows: BUY, SELL, buy in lower case and an empty cell. *)
Lemma buy_sell_count_exact_text_four_rows :
  let rows := [ {| Price := 10; Quantity := 5; Side := Str "BUY" |};
                {| Price := 10.5; Quantity := 3; Side := Str "SELL" |};
                {| Price := 11; Quantity := 1; Side := Str "buy" |};
                {| Price := 11; Quantity := 1; Side := Num nan |} ] in
  let a := analyze (trades_only rows) in
  metric "BuyTrades" a = Some (PyInt 1) /\ metric "SellTrades" a = Some (PyInt 1).
Proof.
  intros rows a.
  exact (buy_sell_count_exact_text (trades_only rows) _ [] a eq_refl eq_refl).
Defined.

(** X10: on an analyzer that has loaded no PnL file and a trade file in
    which every Side cell is a text, [calculate_performance_metrics] called
    without [preprocess_data] raises nothing and stores TotalTrades = the
    number of rows and BuyTrades = SellTrades = 0, whatever the texts are:
    none of them equals 1 or -1. *)
Theorem sides_before_normalisation (d : data_dir) (f : trade_frame)
    (rest : list trade_frame) :
  pnl_files d = [] ->
  trade_files d = f :: rest ->
  Forall (fun r => exists s, Side r = Str s) (trade_records f) ->
  let r := (load_data d ;; calculate_performance_metrics) init in
  r.1 = inr tt /\
  metric "TotalTrades" r.2 = Some (PyInt (Z.of_nat (length (trade_records f)))) /\
  metric "BuyTrades" r.2 = Some (PyInt 0) /\
  metric "SellTrades" r.2 = Some (PyInt 0).
Proof.
  intros Hp Hd Hs. cbv zeta. rewrite bind_run, load_data_run, Hp, Hd.
  rewrite calculate_performance_metrics_run.
  cbn -[calculate_trade_metrics]. rewrite calculate_trade_metrics_run.
  unfold metric, with_metrics; cbn [fst snd performance_metrics].
  rewrite !(filter_none (side_eq _)) by
    (eapply Forall_impl; [exact Hs|]; intros r [s Hr]; unfold side_eq; now rewrite Hr).
  repeat split; rewrite ?lookup_insert_ne by done; apply lookup_insert_eq.
Qed.

(** One BUY and one SELL, as read. *)
Lemma sides_before_normalisation_two_rows :
  let rows := [ {| Price := 10; Quantity := 5; Side := Str "BUY" |};
                {| Price := 10.5; Quantity := 3; Side := Str "SELL" |} ] in
  let r := (load_data (trades_only rows) ;; calculate_performance_metrics) init in
  r.1 = inr tt /\
  metric "TotalTrades" r.2 = Some (PyInt 2) /\
  metric "BuyTrades" r.2 = Some (PyInt 0) /\
  metric "SellTrades" r.2 = Some (PyInt 0).
Proof.
  intros rows.
  refine (sides_before_normalisation (trades_only rows) _ [] eq_refl eq_refl _).
  repeat constructor; eexists; reflexivity.
Defined.

End Sides.

(** ** The keys of the dictionary of metrics *)

Section Keys.

Lemma dom_pnl_metrics (m : gmap string pyval) v1 v2 v3 v4 v5 v6 :
  dom (<["SharpeRatio" := v6]> (<["Volatility" := v5]> (<["MaxDrawdown" := v4]>
        (<["MinPnL" := v3]> (<["MaxPnL" := v2]> (<["TotalPnL" := v1]> m))))))
  = list_to_set pnl_keys ∪ dom m.
Proof.
  rewrite !dom_insert_L. unfold pnl_keys. cbn [list_to_set].
  apply set_eq. intros k. rewrite !elem_of_union, !elem_of_singleton, elem_of_empty. tauto.
Qed.

Lemma dom_trade_metrics (m : gmap string pyval) v1 v2 v3 v4 v5 v6 v7 :
  dom (<["PriceRange" := v7]> (<["AvgTradePrice" := v6]> (<["AvgTradeSize" := v5]>
        (<["TotalVolume" := v4]> (<["SellTrades" := v3]> (<["BuyTrades" := v2]>
          (<["TotalTrades" := v1]> m)))))))
  = list_to_set trade_keys ∪ dom m.
Proof.
  rewrite !dom_insert_L. unfold trade_keys. cbn [list_to_set].
  apply set_eq. intros k. rewrite !elem_of_union, !elem_of_singleton, elem_of_empty. tauto.
Qed.

(** X11: after a run that went through, the dictionary of metrics holds
    exactly the six PnL keys when a PnL file was found, exactly the seven
    trade keys when a trade file was found, and no other key: a family of
    metrics is stored as a whole or not at all. *)
Theorem metrics_keys (d : data_dir) (a : HFTAnalyzer) :
  run_analysis d init = (inr true, a) ->
  dom (performance_metrics a) =
    (if bool_decide (pnl_files d = []) then ∅ else list_to_set pnl_keys) ∪
    (if bool_decide (trade_files d = []) then ∅ else list_to_set trade_keys).
Proof.
  intros Hr. rewrite run_analysis_init in Hr.
  destruct (_ || _ || _) eqn:Hany in Hr; [|discriminate].
  rewrite calculate_performance_metrics_run in Hr.
  cbn -[calculate_pnl_metrics calculate_trade_metrics] in Hr.
  destruct (pnl_files d) as [|f rest] eqn:Hp;
    cbn -[calculate_pnl_metrics calculate_trade_metrics] in Hr |- *.
  - destruct (trade_files d) as [|tf trest] eqn:Ht;
      cbn -[calculate_pnl_metrics calculate_trade_metrics] in Hr |- *.
    + injection Hr as <-. cbn [performance_metrics].
      now rewrite dom_empty_L, (left_id_L ∅ (∪)).
    + rewrite calculate_trade_metrics_run in Hr. injection Hr as <-.
      cbn [performance_metrics with_metrics].
      now rewrite dom_trade_metrics, dom_empty_L, (left_id_L ∅ (∪)), (right_id_L ∅ (∪)).
  - destruct (pnl_records f) as [|r rows] eqn:Hrows.
    { rewrite calculate_pnl_metrics_empty in Hr by now apply preprocess_pnl_records_nil.
      discriminate. }
    assert (Hne : pnl_records f <> []) by (rewrite Hrows; discriminate).
    destruct (last_total_pnl f Hne) as [lp Hl].
    erewrite calculate_pnl_metrics_run in Hr;
      [| rewrite preprocess_pnl_total; exact Hl | apply preprocess_pnl_cumulative].
    cbn -[calculate_trade_metrics] in Hr.
    destruct (trade_files d) as [|tf trest] eqn:Ht;
      cbn -[calculate_trade_metrics] in Hr |- *.
    + injection Hr as <-. cbn [performance_metrics with_metrics].
      now rewrite dom_pnl_metrics, dom_empty_L.
    + rewrite calculate_trade_metrics_run in Hr. injection Hr as <-.
      cbn [performance_metrics with_metrics].
      rewrite dom_trade_metrics, dom_pnl_metrics, dom_empty_L, (right_id_L ∅ (∪)).
      apply (comm_L (∪)).
Qed.

(** A PnL file and a trade file: the thirteen keys. *)
Lemma metrics_keys_both_tables :
  dom (performance_metrics (analyze both_tables)) =
    (if bool_decide (pnl_files both_tables = []) then ∅ else list_to_set pnl_keys) ∪
    (if bool_decide (trade_files both_tables = []) then ∅ else list_to_set trade_keys).
Proof.
  refine (metrics_keys both_tables (analyze both_tables) _). vm_compute. reflexivity.
Defined.

End Keys.

(** ** Metrics that cannot be computed *)

Section Errors.

(** X12: when the first PnL file has a header and no row, the run normalises
    the tables and then raises [IndexError] at [iloc[-1]]; no metric is
    stored, also none of a trade file that was loaded. *)
Theorem empty_pnl_raises (d : data_dir) (f : pnl_frame) (rest : list pnl_frame) :
  pnl_files d = f :: rest ->
  pnl_records f = [] ->
  run_analysis d init =
    (inl IndexError,
     {| pnl_data := Some (preprocess_pnl f);
        trade_data := preprocess_trades <$> head (trade_files d);
        orderbook_data := head (orderbook_files d);
        performance_metrics := ∅ |}).
Proof.
  intros Hd Hrows. rewrite run_analysis_init, Hd.
  cbn -[calculate_performance_metrics].
  rewrite calculate_performance_metrics_run.
  cbn -[calculate_pnl_metrics calculate_trade_metrics].
  rewrite calculate_pnl_metrics_empty by now apply preprocess_pnl_records_nil.
  reflexivity.
Qed.

(** An empty PnL file beside a trade file with one row. *)
Lemma empty_pnl_raises_beside_trades :
  let f := read_pnl (Some []) [] in
  let d := {| pnl_files := [f];
              trade_files :=
                [read_trades (Some ["t1"])
                   [ {| Price := 10; Quantity := 5; Side := Str "BUY" |} ]];
              orderbook_files := [] |} in
  run_analysis d init =
    (inl IndexError,
     {| pnl_data := Some (preprocess_pnl f);
        trade_data := preprocess_trades <$> head (trade_files d);
        orderbook_data := head (orderbook_files d);
        performance_metrics := ∅ |}).
Proof.
  intros f d. exact (empty_pnl_raises d f [] eq_refl eq_refl).
Defined.

(** X13: [calculate_performance_metrics] called on the tables as loaded,
    without [preprocess_data], raises [KeyError('CumulativePnL')] on a PnL
    table with a row, after it has stored TotalPnL, MaxPnL and MinPnL: the
    dictionary is left with these three PnL metrics only. *)
Theorem metrics_before_normalisation (d : data_dir) (f : pnl_frame)
    (rest : list pnl_frame) (self : HFTAnalyzer) (last_pnl : float) :
  pnl_files d = f :: rest ->
  last (TotalPnL <$> pnl_records f) = Some last_pnl ->
  pnl_CumulativePnL f = None ->
  let r := (load_data d ;; calculate_performance_metrics) self in
  r.1 = inl (KeyError "CumulativePnL") /\
  performance_metrics r.2 =
    <["MinPnL" := PyFloat (Series.min (TotalPnL <$> pnl_records f))]>
      (<["MaxPnL" := PyFloat (Series.max (TotalPnL <$> pnl_records f))]>
         (<["TotalPnL" := PyFloat last_pnl]> (performance_metrics self))).
Proof.
  intros Hd Hl Hc. cbv zeta.
  rewrite bind_run, load_data_run, Hd.
  rewrite calculate_performance_metrics_run.
  cbn -[calculate_pnl_metrics calculate_trade_metrics].
  unfold calculate_pnl_metrics, iloc_last, column. rewrite Hl, Hc.
  unfold mbind, py_bind, mret, py_ret, raise, set_metric, with_metrics.
  cbn. split; reflexivity.
Qed.

(** The rows of Scenario A, as read. *)
Lemma metrics_before_normalisation_scenario_A :
  let d := pnl_only [100; 150; 90]%float in
  let r := (load_data d ;; calculate_performance_metrics) init in
  r.1 = inl (KeyError "CumulativePnL") /\
  performance_metrics r.2 =
    <["MinPnL" := PyFloat (Series.min [100; 150; 90]%float)]>
      (<["MaxPnL" := PyFloat (Series.max [100; 150; 90]%float)]>
         (<["TotalPnL" := PyFloat 90]> ∅)).
Proof.
  intros d.
  exact (metrics_before_normalisation d _ [] init 90%float eq_refl eq_refl eq_refl).
Defined.

End Errors.

(** ** Extremes, sums and averages *)

Section Ranges.
Import F64Facts F64Special F64Round.
Local Open Scope float_scope.

Lemma fold_fmax_In xs : forall acc,
  fold_left Series.fmax xs acc = acc \/ In (fold_left Series.fmax xs acc) xs.
Proof.
  induction xs as [|y xs IH]; intros acc; cbn [fold_left]; [now left|].
  destruct (IH (Series.fmax acc y)) as [H|H]; [|right; now right].
  rewrite H. unfold Series.fmax. destruct (acc <? y); [right; now left|now left].
Qed.

Lemma max_In s : Series.dropna s <> [] -> In (Series.max s) (Series.dropna s).
Proof.
  unfold Series.max, Series.reduce. destruct (Series.dropna s) as [|y ys]; [congruence|].
  intros _. destruct (fold_fmax_In ys y) as [->|H]; [now left|now right].
Qed.

Lemma dropna_In_inv s x : In x (Series.dropna s) -> In x s /\ is_nan x = false.
Proof.
  unfold Series.dropna. intros [H1 H2]%List.filter_In. split; [exact H1|].
  unfold Series.notna in H2. now apply negb_true_iff in H2.
Qed.

Lemma reduce_all_missing pick s : Series.dropna s = [] -> Series.reduce pick s = nan.
Proof. unfold Series.reduce. now intros ->. Qed.

(** The minimum is not above the maximum. *)
Lemma min_le_max s : Series.dropna s <> [] -> (Series.min s <=? Series.max s) = true.
Proof.
  intros Hne. pose proof (max_In s Hne) as Hin.
  apply dropna_In_inv in Hin as [Hin Hn]. now apply min_le.
Qed.

Lemma sub_not_below x y : (y <=? x) = true -> (x - y <? 0) = false.
Proof.
  intros Hle. destruct (x - y <? 0) eqn:E; [|reflexivity].
  apply sub_neg_lt in E. apply ltb_not_leb in E. congruence.
Qed.

Lemma binary_normalize_notna m e :
  (-1074 <= e)%Z -> binary_normalize prec emax m e false <> S754_nan.
Proof.
  intros He. destruct m as [|p|p]; cbn [binary_normalize]; [discriminate| |].
  - destruct (binary_round_lower false p e He) as (mf & ef & e1 & E & _).
    rewrite E. destruct (ef <=? emax - prec)%Z; discriminate.
  - destruct (binary_round_lower true p e He) as (mf & ef & e1 & E & _).
    rewrite E. destruct (ef <=? emax - prec)%Z; discriminate.
Qed.

Lemma sub_finite_notna x y :
  PrimFloat.is_finite x = true -> PrimFloat.is_finite y = true -> is_nan (x - y) = false.
Proof.
  intros Hx Hy. apply is_finite_spec in Hx, Hy. apply is_nan_false.
  pose proof (Prim2SF_valid x) as Vx. pose proof (Prim2SF_valid y) as Vy.
  rewrite sub_spec. unfold SF64sub, SFsub.
  destruct (Prim2SF x) as [sx|sx| |sx mx ex], (Prim2SF y) as [sy|sy| |sy my ey];
    try contradiction; try discriminate.
  - destruct sx, sy; discriminate.
  - cbv zeta. apply binary_normalize_notna.
    cbn [valid_binary] in Vx, Vy.
    pose proof (bounded_spec _ _ Vx) as (? & _). pose proof (bounded_spec _ _ Vy) as (? & _).
    lia.
Qed.

Lemma leb_of_not_ltb x y :
  is_nan x = false -> is_nan y = false -> (y <? x) = false -> (x <=? y) = true.
Proof. intros Hx Hy H. now apply leb_total. Qed.

End Ranges.

Section TradeRun.

(** The last step of a completed run on a directory with a trade file is
    [calculate_trade_metrics] on the normalised trade table. *)
Lemma run_with_trades d f rest a :
  trade_files d = f :: rest -> run_analysis d init = (inr true, a) ->
  exists s, calculate_trade_metrics (preprocess_trades f) s = (inr tt, a).
Proof.
  intros Hd Hr. rewrite run_analysis_init, Hd in Hr.
  rewrite orb_true_r in Hr. cbn [orb head fmap option_fmap option_map] in Hr.
  rewrite calculate_performance_metrics_run in Hr.
  cbn -[calculate_pnl_metrics calculate_trade_metrics] in Hr.
  destruct (head (pnl_files d)) as [df|];
    cbn -[calculate_pnl_metrics calculate_trade_metrics] in Hr.
  - match type of Hr with context [calculate_pnl_metrics ?g ?s] =>
      destruct (calculate_pnl_metrics_frame g s) as (_ & Ht & _);
      destruct (calculate_pnl_metrics g s) as [[e|[]] a1] end;
      cbn -[calculate_trade_metrics] in *; [discriminate|].
    rewrite Ht in Hr. exists a1.
    destruct (calculate_trade_metrics (preprocess_trades f) a1) as [[e|[]] a2];
      [discriminate|]. now injection Hr as <-.
  - eexists.
    match type of Hr with context [calculate_trade_metrics ?g ?s] =>
      destruct (calculate_trade_metrics g s) as [[e|[]] a2] eqn:E end; [discriminate|].
    injection Hr as <-. exact E.
Qed.

Lemma preprocess_trades_price f :
  Price <$> trade_records (preprocess_trades f) = Price <$> trade_records f.
Proof.
  rewrite preprocess_trades_records, <- list_fmap_compose. reflexivity.
Qed.

Lemma preprocess_trades_quantity f :
  Quantity <$> trade_records (preprocess_trades f) = Quantity <$> trade_records f.
Proof.
  rewrite preprocess_trades_records, <- list_fmap_compose. reflexivity.
Qed.

(** The four float metrics of the trade table after a completed run. *)
Lemma trade_floats_of_run d f rest a :
  trade_files d = f :: rest -> run_analysis d init = (inr true, a) ->
  let prices := Price <$> trade_records f in
  let quantities := Quantity <$> trade_records f in
  metric "TotalTrades" a = Some (PyInt (Z.of_nat (length (trade_records f)))) /\
  metric "TotalVolume" a = Some (PyFloat (Series.sum quantities)) /\
  metric "AvgTradeSize" a = Some (PyFloat (Series.mean quantities)) /\
  metric "AvgTradePrice" a = Some (PyFloat (Series.mean prices)) /\
  metric "PriceRange" a = Some (PyFloat (Series.max prices - Series.min prices)%float).
Proof.
  intros Hd Hr. cbv zeta. destruct (run_with_trades d f rest a Hd Hr) as [s E].
  rewrite calculate_trade_metrics_run in E. injection E as <-.
  unfold metric, with_metrics; cbn [performance_metrics].
  rewrite preprocess_trades_price, preprocess_trades_quantity.
  rewrite preprocess_trades_records, length_fmap.
  repeat split; rewrite ?lookup_insert_ne by done; apply lookup_insert_eq.
Qed.

End TradeRun.

Section TradeRanges.
Import F64Facts F64Special F64Round.
Local Open Scope float_scope.

Lemma is_finite_notna x : PrimFloat.is_finite x = true -> is_nan x = false.
Proof.
  intros H%is_finite_spec. apply is_nan_false. destruct (Prim2SF x); congruence.
Qed.

(** X14: PriceRange is never below zero.  It is the maximum minus the
    minimum of the prices that are not missing: a number that is not below
    zero when the table has a row and every price is finite, and NaN when
    no row has a price. *)
Theorem price_range_not_negative (d : data_dir) (f : trade_frame)
    (rest : list trade_frame) (a : HFTAnalyzer) :
  trade_files d = f :: rest ->
  run_analysis d init = (inr true, a) ->
  let prices := Price <$> trade_records f in
  exists v : float,
    metric "PriceRange" a = Some (PyFloat v) /\
    (v <? 0) = false /\
    (prices <> [] -> Forall (fun p => PrimFloat.is_finite p = true) prices ->
     (0 <=? v) = true) /\
    (Series.dropna prices = [] -> is_nan v = true).
Proof.
  intros Hd Hr prices.
  destruct (trade_floats_of_run d f rest a Hd Hr) as (_ & _ & _ & _ & Hv).
  fold prices in Hv. eexists. split; [exact Hv|]. split; [|split].
  - destruct (Series.dropna prices) as [|p ps] eqn:E.
    + unfold Series.max. rewrite (reduce_all_missing _ _ E).
      apply ltb_nan_l. now apply sub_nan_l.
    + apply sub_not_below, min_le_max. rewrite E. discriminate.
  - intros Hne Hfin.
    assert (Hd' : Series.dropna prices <> []).
    { destruct prices as [|p ps]; [congruence|].
      apply Forall_cons in Hfin as [Hp _]. intros E.
      pose proof (dropna_In (p :: ps) p (or_introl eq_refl) (is_finite_notna _ Hp)) as Hin.
      rewrite E in Hin. destruct Hin. }
    assert (Hall : forall x, In x (Series.dropna prices) -> PrimFloat.is_finite x = true).
    { intros x [Hx _]%dropna_In_inv. rewrite List.Forall_forall in Hfin. auto. }
    apply leb_of_not_ltb; [reflexivity| |].
    + apply sub_finite_notna; apply Hall; [now apply max_In|now apply min_In].
    + apply sub_not_below. now apply min_le_max.
  - intros E. unfold Series.max. rewrite (reduce_all_missing _ _ E). now apply sub_nan_l.
Qed.

(** The two trades of Scenario B: the range is 0.5. *)
Lemma price_range_not_negative_scenario_B :
  let a := analyze both_tables in
  let prices := [10; 10.5] in
  exists v : float,
    metric "PriceRange" a = Some (PyFloat v) /\
    (v <? 0) = false /\
    (prices <> [] -> Forall (fun p => PrimFloat.is_finite p = true) prices ->
     (0 <=? v) = true) /\
    (Series.dropna prices = [] -> is_nan v = true).
Proof.
  intros a prices.
  refine (price_range_not_negative both_tables _ [] a eq_refl _). vm_compute. reflexivity.
Defined.

End TradeRanges.

Section Averages.
Import F64Facts F64Special F64Round.
Local Open Scope float_scope.

Lemma of_Z_of_nat n : F64.of_Z (Z.of_nat n) = F64.of_nat n.
Proof.
  unfold F64.of_Z, F64.of_nat.
  destruct (Z.ltb_spec (Z.of_nat n) 0) as [H|H]; [lia|reflexivity].
Qed.

(** X15: AvgTradeSize is TotalVolume divided by the number of rows that
    have a Quantity, and NaN when no row has one.  When no Quantity is
    missing this number is TotalTrades, so that AvgTradeSize = TotalVolume /
    TotalTrades; a row with a missing Quantity is counted in TotalTrades and
    not in the average. *)
Theorem avg_trade_size_of_volume (d : data_dir) (f : trade_frame)
    (rest : list trade_frame) (a : HFTAnalyzer) :
  trade_files d = f :: rest ->
  run_analysis d init = (inr true, a) ->
  let quantities := Quantity <$> trade_records f in
  exists (volume size : float) (trades : Z),
    metric "TotalVolume" a = Some (PyFloat volume) /\
    metric "AvgTradeSize" a = Some (PyFloat size) /\
    metric "TotalTrades" a = Some (PyInt trades) /\
    (Series.dropna quantities <> [] ->
     size = volume / F64.of_nat (length (Series.dropna quantities))) /\
    (Series.dropna quantities = [] -> size = nan) /\
    (trade_records f <> [] ->
     Forall (fun q => is_nan q = false) quantities ->
     size = volume / py_float (PyInt trades)).
Proof.
  intros Hd Hr quantities.
  destruct (trade_floats_of_run d f rest a Hd Hr) as (Ht & Hv & Hs & _).
  fold quantities in Hv, Hs. do 3 eexists.
  split; [exact Hv|]. split; [exact Hs|]. split; [exact Ht|].
  unfold Series.mean, Series.count. split; [|split].
  - intros Hne. destruct (Series.dropna quantities); [congruence|reflexivity].
  - now intros ->.
  - intros Hne Hall. rewrite (dropna_all _ Hall). subst quantities.
    rewrite length_fmap. cbn [py_float]. rewrite of_Z_of_nat.
    destruct (trade_records f); [congruence|reflexivity].
Qed.

(** Scenario B: 8 / 2. *)
Lemma avg_trade_size_of_volume_scenario_B :
  let rows := [ {| Price := 10; Quantity := 5; Side := Str "BUY" |};
                {| Price := 10.5; Quantity := 3; Side := Str "SELL" |} ] in
  let a := analyze both_tables in
  let quantities := [5; 3] in
  exists (volume size : float) (trades : Z),
    metric "TotalVolume" a = Some (PyFloat volume) /\
    metric "AvgTradeSize" a = Some (PyFloat size) /\
    metric "TotalTrades" a = Some (PyInt trades) /\
    (Series.dropna quantities <> [] ->
     size = volume / F64.of_nat (length (Series.dropna quantities))) /\
    (Series.dropna quantities = [] -> size = nan) /\
    (rows <> [] -> Forall (fun q => is_nan q = false) quantities ->
     size = volume / py_float (PyInt trades)).
Proof.
  intros rows a quantities.
  refine (avg_trade_size_of_volume both_tables (read_trades (Some ["t1"; "t2"]) rows) []
            a eq_refl _).
  vm_compute. reflexivity.
Defined.

End Averages.

Section Extremes.
Import F64Facts F64Special.
Local Open Scope float_scope.

(** X16: MinPnL and MaxPnL are attained.  When some row has a TotalPnL,
    each of the two is the TotalPnL of a row, MinPnL <= MaxPnL, and every
    TotalPnL that is not missing lies between them; when every TotalPnL is
    missing both are NaN. *)
Theorem pnl_extremes_attained (d : data_dir) (f : pnl_frame) (rest : list pnl_frame) :
  pnl_files d = f :: rest ->
  pnl_records f <> [] ->
  let total_pnl := TotalPnL <$> pnl_records f in
  exists lo hi : float,
    metric "MinPnL" (analyze d) = Some (PyFloat lo) /\
    metric "MaxPnL" (analyze d) = Some (PyFloat hi) /\
    (Forall (fun x => is_nan x = true) total_pnl -> lo = nan /\ hi = nan) /\
    (Exists (fun x => is_nan x = false) total_pnl ->
     In lo total_pnl /\ In hi total_pnl /\ (lo <=? hi) = true /\
     forall x, In x total_pnl -> is_nan x = false ->
               (lo <=? x) = true /\ (x <=? hi) = true).
Proof.
  intros Hd Hne total_pnl.
  destruct (run_with_pnl d f rest Hd Hne) as (a & Hr & _ & _ & _ & Hmax & Hmin & _).
  unfold analyze. rewrite Hr. cbn [snd]. fold total_pnl in Hmax, Hmin.
  exists (Series.min total_pnl), (Series.max total_pnl).
  split; [exact Hmin|]. split; [exact Hmax|]. split.
  - intros Hall.
    assert (E : Series.dropna total_pnl = []).
    { unfold Series.dropna. apply filter_none. eapply Forall_impl; [exact Hall|].
      intros x Hx. unfold Series.notna. now rewrite Hx. }
    unfold Series.min, Series.max. now rewrite !(reduce_all_missing _ _ E).
  - intros Hex. apply Exists_exists in Hex as (x0 & Hin0%list_elem_of_In & Hn0).
    assert (Hd' : Series.dropna total_pnl <> []).
    { intros E. pose proof (dropna_In _ _ Hin0 Hn0) as H. rewrite E in H. destruct H. }
    split; [|split; [|split]].
    + now apply min_In, dropna_In_inv in Hd'.
    + now apply max_In, dropna_In_inv in Hd'.
    + now apply min_le_max.
    + intros x Hx Hn. split; [now apply min_le|now apply max_ge].
Qed.

(** Scenario A with a missing cell in the middle. *)
Lemma pnl_extremes_attained_missing_cell :
  let total_pnl := [100; nan; 150; 90] in
  let d := pnl_only total_pnl in
  exists lo hi : float,
    metric "MinPnL" (analyze d) = Some (PyFloat lo) /\
    metric "MaxPnL" (analyze d) = Some (PyFloat hi) /\
    (Forall (fun x => is_nan x = true) total_pnl -> lo = nan /\ hi = nan) /\
    (Exists (fun x => is_nan x = false) total_pnl ->
     In lo total_pnl /\ In hi total_pnl /\ (lo <=? hi) = true /\
     forall x, In x total_pnl -> is_nan x = false ->
               (lo <=? x) = true /\ (x <=? hi) = true).
Proof.
  intros total_pnl d.
  refine (pnl_extremes_attained d _ [] eq_refl _). discriminate.
Defined.

End Extremes.

Section VolatilitySign.
Import F64Facts F64Special F64Round.
Local Open Scope float_scope.

(** A square root is NaN or not below zero. *)
Lemma sqrt_not_negative x :
  match Prim2SF (PrimFloat.sqrt x) with
  | S754_nan | S754_zero _ => True
  | S754_infinity s | S754_finite s _ _ => s = false
  end.
Proof.
  rewrite sqrt_spec. unfold SF64sqrt, SFsqrt.
  destruct (Prim2SF x) as [s|[]| |[] m e]; auto.
  destruct (SFsqrt_core_binary prec emax (Z.pos m) e) as [[mz ez] lz].
  pose proof (binary_round_aux_sign false mz ez lz) as Hs.
  destruct (binary_round_aux prec emax false mz ez lz); cbn in Hs; auto.
Qed.

Lemma annualised_not_negative x : (PrimFloat.sqrt x * F64.sqrt252 <? 0) = false.
Proof.
  pose proof (sqrt_not_negative x) as H.
  rewrite FloatAxioms.ltb_spec, mul_spec, Prim2SF_0.
  assert (E : exists m e, Prim2SF F64.sqrt252 = S754_finite false m e).
  { unfold F64.sqrt252. vm_compute. eauto. }
  destruct E as (mk & ek & ->).
  unfold SF64mul, SFmul.
  destruct (Prim2SF (PrimFloat.sqrt x)) as [s|s| |s m e]; cbn [xorb].
  - destruct s; reflexivity.
  - now subst s.
  - reflexivity.
  - subst s. apply has_sign_false_not_neg, binary_round_aux_sign.
Qed.

(** X17: Volatility is never below zero: it is NaN or a number that is not
    below zero.  SharpeRatio is the integer 0 exactly when Volatility is NaN
    or zero, and a float in every other case. *)
Theorem volatility_not_negative (d : data_dir) (f : pnl_frame) (rest : list pnl_frame) :
  pnl_files d = f :: rest ->
  pnl_records f <> [] ->
  exists v : float,
    metric "Volatility" (analyze d) = Some (PyFloat v) /\
    (v <? 0) = false /\
    (metric "SharpeRatio" (analyze d) = Some (PyInt 0) <->
     is_nan v = true \/ (v =? 0) = true).
Proof.
  intros Hd Hne.
  destruct (run_with_pnl d f rest Hd Hne)
    as (a & Hr & _ & _ & _ & _ & _ & _ & Hv & Hs).
  unfold analyze. rewrite Hr. cbn [snd]. eexists. split; [exact Hv|].
  set (v := Series.std _ * F64.sqrt252) in *.
  assert (Hneg : (v <? 0) = false) by apply annualised_not_negative.
  split; [exact Hneg|]. rewrite Hs. unfold sharpe_value.
  destruct (is_nan v) eqn:Hn.
  - rewrite (ltb_nan_r 0 v Hn). split; auto.
  - destruct (0 <? v) eqn:Hpos.
    + split; [discriminate|]. intros [H|H]; [discriminate|].
      exfalso. revert Hpos H.
      rewrite FloatAxioms.ltb_spec, FloatAxioms.eqb_spec. unfold SFltb, SFeqb.
      rewrite Prim2SF_0.
      destruct (Prim2SF v) as [[]|[]| |[] ? ?]; cbn; congruence.
    + split; auto. intros _. right.
      assert (H1 : (v <=? 0) = true) by now apply leb_total.
      assert (H2 : (0 <=? v) = true) by now apply leb_total.
      revert H1 H2. rewrite !FloatAxioms.leb_spec, FloatAxioms.eqb_spec, Prim2SF_0.
      unfold SFleb, SFeqb.
      destruct (Prim2SF v) as [[]|[]| |[] ? ?]; cbn; congruence.
Qed.

(** Scenario A. *)
Lemma volatility_not_negative_scenario_A :
  let d := pnl_only [100; 150; 90] in
  exists v : float,
    metric "Volatility" (analyze d) = Some (PyFloat v) /\
    (v <? 0) = false /\
    (metric "SharpeRatio" (analyze d) = Some (PyInt 0) <->
     is_nan v = true \/ (v =? 0) = true).
Proof.
  intros d. refine (volatility_not_negative d _ [] eq_refl _). discriminate.
Defined.

End VolatilitySign.

Section Volume.
Import F64Facts F64Special F64Round.
Local Open Scope float_scope.

Lemma SFadd_comm a b : SF64add a b = SF64add b a.
Proof.
  unfold SF64add, SFadd.
  destruct a as [sa|sa| |sa ma ea], b as [sb|sb| |sb mb eb];
    try destruct sa; try destruct sb; try reflexivity.
  all: cbv zeta; rewrite (Z.min_comm eb ea); f_equal; apply Z.add_comm.
Qed.

Lemma float_add_comm x y : x + y = y + x.
Proof. apply Prim2SF_inj. rewrite !add_spec. apply SFadd_comm. Qed.

(** A sum of values that are not below zero is not below zero and not
    below any of them, in whatever order numpy adds them. *)
Lemma np_sum_not_below s :
  Forall (fun x => (0 <=? x) = true) s ->
  (0 <=? Series.np_sum s) = true /\
  forall x, In x s -> (x <=? Series.np_sum s) = true.
Proof.
  intros Hs.
  assert (Hadd : forall a b, (0 <=? a) = true -> (0 <=? b) = true -> (0 <=? a + b) = true).
  { intros a b Ha Hb. exact (leb_trans _ _ _ Ha (add_ge a b Ha Hb)). }
  split.
  - destruct s as [|y s]; [reflexivity|].
    apply (np_sum_all (fun y => (0 <=? y) = true)); auto; discriminate.
  - intros x Hx.
    assert (H0 : (0 <=? x) = true).
    { rewrite Forall_forall in Hs. now apply Hs, list_elem_of_In. }
    apply (np_sum_some (fun y => (0 <=? y) = true) (fun y => (x <=? y) = true)); auto.
    + intros a b Ha Hb. apply (leb_trans _ _ _ Ha). apply add_ge; [|exact Hb].
      exact (leb_trans _ _ _ H0 Ha).
    + intros a b Ha Hb. apply (leb_trans _ _ _ Hb). rewrite (float_add_comm a b).
      apply add_ge; [|exact Ha]. exact (leb_trans _ _ _ H0 Hb).
    + apply Exists_exists. exists x. split; [now apply list_elem_of_In|].
      apply leb_refl. exact (leb_not_nan_r _ _ H0).
Qed.

Lemma fillna_not_below_zero s :
  Forall (fun x => is_nan x = true \/ (0 <=? x) = true) s ->
  Forall (fun x => (0 <=? x) = true) (Series.fillna 0 s).
Proof.
  intros H. unfold Series.fillna. induction H as [|x s Hx _ IH]; constructor; [|exact IH].
  unfold Series.isna. destruct (is_nan x) eqn:E; [reflexivity|].
  destruct Hx as [Hx|Hx]; [discriminate|exact Hx].
Qed.

(** X18: when no Quantity of a float64 Quantity column is below zero (a
    missing Quantity counts as 0), TotalVolume is not below zero and not
    below the Quantity of any single row, whatever rounding the additions
    of numpy's pairwise summation go through. *)
Theorem total_volume_not_negative (d : data_dir) (f : trade_frame)
    (rest : list trade_frame) (a : HFTAnalyzer) :
  trade_files d = f :: rest ->
  run_analysis d init = (inr true, a) ->
  Forall (fun r => is_nan (Quantity r) = true \/ (0 <=? Quantity r) = true)
         (trade_records f) ->
  exists volume : float,
    metric "TotalVolume" a = Some (PyFloat volume) /\
    (0 <=? volume) = true /\
    forall r, In r (trade_records f) -> is_nan (Quantity r) = false ->
              (Quantity r <=? volume) = true.
Proof.
  intros Hd Hr Hall.
  destruct (trade_floats_of_run d f rest a Hd Hr) as (_ & Hv & _).
  eexists. split; [exact Hv|].
  assert (Hq : Forall (fun x => is_nan x = true \/ (0 <=? x) = true)
                      (Quantity <$> trade_records f)).
  { apply Forall_fmap. exact Hall. }
  apply fillna_not_below_zero in Hq.
  assert (Hin : forall r, In r (trade_records f) -> is_nan (Quantity r) = false ->
                          In (Quantity r) (Series.fillna 0 (Quantity <$> trade_records f))).
  { intros r Hr' Hn. unfold Series.fillna. apply List.in_map_iff. exists (Quantity r).
    unfold Series.isna. rewrite Hn. split; [reflexivity|].
    apply list_elem_of_In, list_elem_of_fmap. exists r. split; [reflexivity|].
    now apply list_elem_of_In. }
  unfold Series.sum.
  destruct (np_sum_not_below _ Hq) as [H1 H2].
  split; [exact H1|]. intros r Hr' Hn. apply H2. now apply Hin.
Qed.

(** Three trades, one without a Quantity. *)
Lemma total_volume_not_negative_missing_quantity :
  let rows := [ {| Price := 10; Quantity := 5; Side := Str "BUY" |};
                {| Price := 10.5; Quantity := nan; Side := Str "SELL" |};
                {| Price := 11; Quantity := 3; Side := Str "SELL" |} ] in
  let a := analyze (trades_only rows) in
  exists volume : float,
    metric "TotalVolume" a = Some (PyFloat volume) /\
    (0 <=? volume) = true /\
    forall r, In r rows -> is_nan (Quantity r) = false ->
              (Quantity r <=? volume) = true.
Proof.
  intros rows a.
  refine (total_volume_not_negative (trades_only rows) _ [] a eq_refl eq_refl _).
  repeat constructor; (now left) || (now right).
Defined.

End Volume.

(** ** Tables on one side of zero have no drawdown *)

Section AlwaysInLoss.
Import F64Facts F64Special F64Round.
Local Open Scope float_scope.

Lemma ltb_notna_l x y : (x <? y) = true -> is_nan x = false.
Proof.
  intros H. destruct (is_nan x) eqn:E; [|reflexivity].
  rewrite (ltb_nan_l x y E) in H. discriminate.
Qed.

Lemma below_zero_sign x : (x <? 0) = true -> F64.sign_bit (Prim2SF x) = Some true.
Proof.
  rewrite FloatAxioms.ltb_spec, Prim2SF_0.
  destruct (Prim2SF x) as [[]|[]| |[] ? ?]; cbn; congruence.
Qed.

(** A value at or below a running peak that is below zero: the drawdown
    ratio is not below zero. *)
Lemma ratio_below_zero_peak c m :
  (m <? 0) = true -> m = c \/ (c <? m) = true -> ((c - m) / m <? 0) = false.
Proof.
  intros Hm Hc. destruct ((c - m) / m <? 0) eqn:E; [exfalso|reflexivity].
  pose proof (below_zero_sign m Hm) as Hs.
  rewrite FloatAxioms.ltb_spec, div_spec, Prim2SF_0 in E.
  apply SFdiv_neg in E as [[_ Hs']|[Hpos _]]; [congruence|].
  rewrite <- Prim2SF_0, <- FloatAxioms.ltb_spec in Hpos. apply sub_pos_lt in Hpos.
  pose proof (ltb_not_leb _ _ Hpos) as Hn.
  destruct Hc as [<-|Hc].
  - rewrite leb_refl in Hn; [discriminate|]. now apply ltb_notna_l with (y := 0).
  - rewrite (ltb_leb _ _ Hc) in Hn. discriminate.
Qed.

Lemma drawdown_below_zero_peak cs : forall best,
  match best with Some m => (m <? 0) = true | None => True end ->
  Forall (fun c => (c <? 0) = true) cs ->
  let ms := Series.expanding_max_from best cs in
  Forall (fun r => (r <? 0) = false) (Series.div (Series.sub cs ms) ms).
Proof.
  induction cs as [|c cs IH]; intros best Hb Hcs; cbv zeta; [constructor|].
  apply Forall_cons in Hcs as [Hc Hcs].
  pose proof (ltb_notna_l _ _ Hc) as Hn.
  cbn [Series.expanding_max_from]. unfold Series.isna. rewrite Hn.
  set (best' := match best with
                | Some m => Some (if m <=? c then c else m)
                | None => Some c
                end).
  assert (E : exists m', best' = Some m' /\ (m' <? 0) = true /\
                         (m' = c \/ (c <? m') = true)).
  { subst best'. destruct best as [m|]; [|eauto].
    destruct (m <=? c) eqn:Emc; [eauto|].
    exists m. repeat split; auto. right.
    apply leb_false_ltb; auto. now apply ltb_notna_l with (y := 0). }
  destruct E as (m' & -> & Hm' & Hcm). cbn [default].
  unfold Series.div, Series.sub. cbn [zip_with]. constructor.
  - now apply ratio_below_zero_peak.
  - apply (IH (Some m')); assumption.
Qed.

(** When no ratio is below zero and the first row is a non-zero finite
    number, the minimum of the ratios is the zero of the first row. *)
Lemma max_drawdown_zero_of_ratios x xs :
  F64.is_finite_nonzero x = true ->
  Forall (fun r => (r <? 0) = false) (drawdown (Series.cumsum (x :: xs))) ->
  (Series.min (drawdown (Series.cumsum (x :: xs))) =? 0) = true.
Proof.
  intros Hx Hall.
  pose proof (max_drawdown_nonpositive x xs Hx) as Hle.
  assert (Hin : In (Series.min (drawdown (Series.cumsum (x :: xs))))
                   (drawdown (Series.cumsum (x :: xs)))).
  { assert (Hd : Series.dropna (drawdown (Series.cumsum (x :: xs))) <> []).
    { intros E. pose proof (leb_not_nan_l _ _ Hle) as Hnn.
      unfold Series.min, Series.reduce in Hnn. rewrite E in Hnn. discriminate. }
    apply min_In in Hd. unfold Series.dropna in Hd. now apply List.filter_In in Hd. }
  rewrite List.Forall_forall in Hall. specialize (Hall _ Hin).
  revert Hle Hall. rewrite FloatAxioms.leb_spec, FloatAxioms.ltb_spec, FloatAxioms.eqb_spec.
  apply SFleb_ltb_eqb.
Qed.

(** X19: a table that is always in loss has no drawdown.  When the first
    TotalPnL is finite and the cumulative PnL is below zero at every row,
    the running peak is below zero, every ratio (cumulative - peak) / peak
    is a loss divided by a negative number, hence not below zero, and
    MaxDrawdown is the zero of the first row, however deep the losses. *)
Theorem max_drawdown_always_in_loss (d : data_dir) (f : pnl_frame)
    (rest : list pnl_frame) (x : float) (xs : list float) :
  pnl_files d = f :: rest ->
  TotalPnL <$> pnl_records f = x :: xs ->
  PrimFloat.is_finite x = true ->
  Forall (fun c => (c <? 0) = true) (Series.cumsum (x :: xs)) ->
  exists v : float,
    metric "MaxDrawdown" (analyze d) = Some (PyFloat v) /\ (v =? 0) = true.
Proof.
  intros Hd Hrows Hfin Hloss.
  assert (Hne : pnl_records f <> []).
  { intros E. rewrite E in Hrows. discriminate. }
  destruct (run_with_pnl d f rest Hd Hne) as (a & Hr & _ & _ & _ & _ & _ & Hdd & _).
  unfold analyze. rewrite Hr. cbn [snd]. rewrite Hrows in Hdd.
  eexists. split; [exact Hdd|].
  assert (Hx : F64.is_finite_nonzero x = true).
  { unfold F64.is_finite_nonzero. rewrite Hfin. cbn [andb]. apply negb_true_iff.
    assert (Hn : is_nan x = false) by now apply is_finite_notna.
    destruct (cumsum_head x xs Hn) as [cs E]. rewrite E in Hloss.
    apply Forall_cons in Hloss as [Hlt _]. revert Hlt.
    unfold is_zero. change zero with 0.
    rewrite FloatAxioms.ltb_spec, FloatAxioms.eqb_spec, Prim2SF_0.
    destruct (Prim2SF x) as [[]|[]| |[] ? ?]; cbn; congruence. }
  apply max_drawdown_zero_of_ratios; [exact Hx|].
  unfold drawdown. now apply (drawdown_below_zero_peak _ None).
Qed.

(** The rows -1, -100: the ratios are -0 and 100. *)
Lemma max_drawdown_always_in_loss_rows_m1_m100 :
  exists v : float,
    metric "MaxDrawdown" (analyze (pnl_only [-1; -100])) = Some (PyFloat v) /\
    (v =? 0) = true.
Proof.
  refine (max_drawdown_always_in_loss (pnl_only [-1; -100]) _ [] (-1) [-100]
            eq_refl eq_refl eq_refl _).
  vm_compute. repeat constructor.
Defined.

End AlwaysInLoss.

Section NeverBelowZero.
Import F64Facts F64Special F64Round.
Local Open Scope float_scope.

Lemma ltb_irrefl x : (x <? x) = false.
Proof.
  destruct (x <? x) eqn:E; [|reflexivity].
  pose proof (ltb_not_leb _ _ E) as H. rewrite (ltb_leb _ _ E) in H. discriminate.
Qed.

(** At a row where the cumulative value is the running peak the ratio is
    not below zero. *)
Lemma ratio_at_peak c : ((c - c) / c <? 0) = false.
Proof.
  destruct ((c - c) / c <? 0) eqn:E; [exfalso|reflexivity].
  rewrite FloatAxioms.ltb_spec, div_spec, Prim2SF_0 in E.
  apply SFdiv_neg in E as [[H _]|[H _]];
    rewrite <- Prim2SF_0, <- FloatAxioms.ltb_spec in H.
  - apply sub_neg_lt in H. now rewrite ltb_irrefl in H.
  - apply sub_pos_lt in H. now rewrite ltb_irrefl in H.
Qed.

(** The running sum of values that are not below zero never decreases, and
    is its own running maximum. *)
Lemma accumulate_not_below_zero xs : forall c,
  (0 <=? c) = true -> Forall (fun x => (0 <=? x) = true) xs ->
  let cs := Series.np_accumulate PrimFloat.add c xs in
  nondecreasing (c :: cs) = true /\
  Forall (fun y => (0 <=? y) = true) cs /\
  Series.expanding_max_from (Some c) cs = cs.
Proof.
  induction xs as [|x xs IH]; intros c Hc Hxs; cbv zeta; [repeat split; constructor|].
  apply Forall_cons in Hxs as [Hx Hxs].
  pose proof (add_ge c x Hc Hx) as Hle.
  pose proof (leb_trans _ _ _ Hc Hle) as Hc'.
  destruct (IH (c + x) Hc' Hxs) as (H1 & H2 & H3). cbv zeta in *.
  cbn [Series.np_accumulate Series.expanding_max_from].
  unfold Series.isna. rewrite (leb_not_nan_r _ _ Hle), Hle. cbn [default].
  split; [|split].
  - change (nondecreasing (c :: (c + x) :: ?l))
      with ((c <=? c + x) && nondecreasing ((c + x) :: l)).
    now rewrite Hle, H1.
  - constructor; assumption.
  - now rewrite H3.
Qed.

Lemma not_below_zero_notna s :
  Forall (fun x => (0 <=? x) = true) s -> Forall (fun x => is_nan x = false) s.
Proof.
  intros H. eapply Forall_impl; [exact H|]. intros x Hx. exact (leb_not_nan_r _ _ Hx).
Qed.

(** On an int64 column the running sum wraps at 2^63: the rows
    9223372036854775807 and 1, none below zero, give the CumulativePnL
    9223372036854775807, -9223372036854775808 and MaxDrawdown -2. *)
Lemma int64_cumulative_pnl_wraps :
  Int64.CumulativePnL [2 ^ 63 - 1; 1]%Z = [2 ^ 63 - 1; - 2 ^ 63]%Z /\
  Int64.MaxDrawdown [2 ^ 63 - 1; 1]%Z = (-2)%float.
Proof. vm_compute. split; reflexivity. Qed.

(** X20: when no TotalPnL of a float64 TotalPnL column is below zero, the
    CumulativePnL column never decreases from one row to the next, whatever
    rounding the additions go through, and it is its own running maximum.
    (An int64 column wraps instead: [int64_cumulative_pnl_wraps].) *)
Theorem cumulative_pnl_never_decreases (df : pnl_frame) :
  Forall (fun x => (0 <=? x) = true) (TotalPnL <$> pnl_records df) ->
  exists cumulative,
    pnl_CumulativePnL (preprocess_pnl df) = Some cumulative /\
    nondecreasing cumulative = true /\
    Series.expanding_max cumulative = cumulative.
Proof.
  intros Hall. exists (Series.cumsum (TotalPnL <$> pnl_records df)).
  split; [apply preprocess_pnl_cumulative|].
  rewrite cumsum_notna by now apply not_below_zero_notna.
  destruct (TotalPnL <$> pnl_records df) as [|x xs]; [split; reflexivity|].
  apply Forall_cons in Hall as [Hx Hxs].
  destruct (accumulate_not_below_zero xs x Hx Hxs) as (H1 & _ & H3).
  cbn [Series.np_cumsum]. split; [exact H1|].
  unfold Series.expanding_max. cbn [Series.expanding_max_from]. unfold Series.isna.
  rewrite (leb_not_nan_r _ _ Hx). cbn [default]. now rewrite H3.
Qed.

(** The rows of Scenario A. *)
Lemma cumulative_pnl_never_decreases_scenario_A :
  let df := read_pnl None
              [ {| TotalPnL := 100; DailyPnL := 100 |};
                {| TotalPnL := 150; DailyPnL := 50 |};
                {| TotalPnL := 90; DailyPnL := -60 |} ] in
  exists cumulative,
    pnl_CumulativePnL (preprocess_pnl df) = Some cumulative /\
    nondecreasing cumulative = true /\
    Series.expanding_max cumulative = cumulative.
Proof.
  intros df. refine (cumulative_pnl_never_decreases df _). repeat constructor.
Defined.

Lemma ratios_at_peak cs :
  Forall (fun r => (r <? 0) = false) (Series.div (Series.sub cs cs) cs).
Proof.
  unfold Series.div, Series.sub. induction cs as [|c cs IH]; [constructor|].
  cbn [zip_with]. constructor; [apply ratio_at_peak|exact IH].
Qed.

(** X21: a table that is never in loss has no drawdown either.  When the
    first TotalPnL of a float64 TotalPnL column is a non-zero finite number
    and no TotalPnL is below zero, the cumulative PnL is its own running
    peak at every row and MaxDrawdown is zero, also when TotalPnL itself
    falls from one row to the next.  (An int64 column wraps instead:
    [int64_cumulative_pnl_wraps].) *)
Theorem max_drawdown_without_loss (d : data_dir) (f : pnl_frame)
    (rest : list pnl_frame) (x : float) (xs : list float) :
  pnl_files d = f :: rest ->
  TotalPnL <$> pnl_records f = x :: xs ->
  F64.is_finite_nonzero x = true ->
  Forall (fun y => (0 <=? y) = true) (x :: xs) ->
  exists v : float,
    metric "MaxDrawdown" (analyze d) = Some (PyFloat v) /\ (v =? 0) = true.
Proof.
  intros Hd Hrows Hx Hall.
  assert (Hne : pnl_records f <> []).
  { intros E. rewrite E in Hrows. discriminate. }
  destruct (run_with_pnl d f rest Hd Hne) as (a & Hr & _ & _ & _ & _ & _ & Hdd & _).
  unfold analyze. rewrite Hr. cbn [snd]. rewrite Hrows in Hdd.
  eexists. split; [exact Hdd|].
  apply max_drawdown_zero_of_ratios; [exact Hx|].
  rewrite cumsum_notna by now apply not_below_zero_notna.
  pose proof Hall as Hall'. apply Forall_cons in Hall' as [H0 Hxs].
  destruct (accumulate_not_below_zero xs x H0 Hxs) as (_ & _ & H3).
  unfold drawdown, Series.expanding_max.
  cbn [Series.np_cumsum Series.expanding_max_from]. unfold Series.isna.
  rewrite (leb_not_nan_r _ _ H0). cbn [default]. rewrite H3.
  apply (ratios_at_peak (x :: _)).
Qed.

(** Scenario A: TotalPnL falls from 150 to 90. *)
Lemma max_drawdown_without_loss_scenario_A :
  exists v : float,
    metric "MaxDrawdown" (analyze (pnl_only [100; 150; 90])) = Some (PyFloat v) /\
    (v =? 0) = true.
Proof.
  refine (max_drawdown_without_loss (pnl_only [100; 150; 90]) _ [] 100 [150; 90]
            eq_refl eq_refl eq_refl _).
  repeat constructor.
Defined.

End NeverBelowZero.

(** ** A table that never moves *)

Section Quotients.
Import F64Facts F64Special F64Round.
Local Open Scope float_scope.

(** A non-zero finite number divided by itself is 1, exactly. *)
Lemma SFdiv_self s m e :
  SF64div (S754_finite s m e) (S754_finite s m e) = Prim2SF 1.
Proof.
  unfold SF64div, SFdiv, SFdiv_core_binary. cbv zeta.
  rewrite !Z.sub_diag.
  change (Z.min (fexp prec emax 0) 0) with (-53)%Z.
  change (0 - -53)%Z with 53%Z. cbv iota.
  assert (E : Z.div_eucl (Z.shiftl (Z.pos m) 53) (Z.pos m) = (2 ^ 53, 0)%Z).
  { rewrite Z.shiftl_mul_pow2 by lia. generalize (2 ^ 53)%Z as k. intros k.
    pose proof (Z_div_mod (Z.pos m * k) (Z.pos m) ltac:(lia)) as H.
    destruct (Z.div_eucl (Z.pos m * k) (Z.pos m)) as [q r].
    destruct H as [H1 H2].
    assert (Hq : q = k) by nia. subst q. f_equal. lia. }
  rewrite E.
  replace (new_location (Z.pos m) 0) with loc_Exact
    by (unfold new_location; destruct (Z.even (Z.pos m)); reflexivity).
  destruct s; reflexivity.
Qed.

Lemma div_self x : F64.is_finite_nonzero x = true -> x / x = 1.
Proof.
  intros (s & m & e & Hx)%finite_nonzero_spec. apply Prim2SF_inj.
  rewrite div_spec, Hx. apply SFdiv_self.
Qed.

End Quotients.

Section Counts.
Import F64Facts F64Special F64Round.
Local Open Scope float_scope.

(** The float of a count below 2^63. *)
Lemma of_nat_spec n :
  (Z.of_nat n < 2 ^ 63)%Z ->
  Prim2SF (F64.of_nat n) = binary_normalize prec emax (Z.of_nat n) 0 false.
Proof.
  intros Hn. unfold F64.of_nat. rewrite of_uint63_spec, Uint63.of_Z_spec.
  rewrite Z.mod_small; [reflexivity|]. split; [lia|exact Hn].
Qed.

Lemma finite_mantissa_lt m e : bounded prec emax m e = true -> (Z.pos m < 2 ^ 53)%Z.
Proof.
  intros (_ & Hd & _)%bounded_spec. pose proof (digits2_bounds m) as [_ Hu].
  eapply Z.lt_le_trans; [exact Hu|]. apply Z.pow_le_mono_r; lia.
Qed.

(** The float of a count of at least 2: a finite number with an exponent
    above that of 1, or an infinity. *)
Lemma of_nat_above_one n :
  (2 <= n)%nat -> (Z.of_nat n < 2 ^ 63)%Z ->
  (exists m e, Prim2SF (F64.of_nat n) = S754_finite false m e /\ (-52 < e)%Z) \/
  Prim2SF (F64.of_nat n) = S754_infinity false.
Proof.
  intros H2 Hn. pose proof (Prim2SF_valid (F64.of_nat n)) as Hv.
  rewrite (of_nat_spec n Hn) in *.
  destruct (Z.of_nat n) as [|p|p] eqn:Ep; try lia. cbn [binary_normalize] in *.
  destruct (binary_round_lower false p 0 ltac:(lia)) as (mf & ef & e1 & E & H1 & H3 & H4).
  rewrite E in *. destruct (ef <=? emax - prec)%Z; [left|now right].
  exists mf, ef. split; [reflexivity|].
  cbn [valid_binary] in Hv. pose proof (finite_mantissa_lt _ _ Hv) as Hlt.
  destruct (Z.le_gt_cases ef (-52)) as [Hle|Hgt]; [exfalso|lia].
  assert (Hp : (Z.pos p * 2 ^ (0 - e1) = Z.pos p * 2 ^ (- ef) * 2 ^ (ef - e1))%Z).
  { rewrite <- Z.mul_assoc, <- Z.pow_add_r by lia. do 2 f_equal. lia. }
  rewrite Hp, Z.div_mul in H4 by (apply Z.pow_nonzero; lia).
  assert (Hpow : (2 ^ 52 <= 2 ^ (- ef))%Z) by (apply Z.pow_le_mono_r; lia).
  nia.
Qed.

Lemma of_nat_positive n :
  (1 <= n)%nat -> (Z.of_nat n < 2 ^ 63)%Z -> (0 <? F64.of_nat n) = true.
Proof.
  intros H1 Hn. rewrite FloatAxioms.ltb_spec, Prim2SF_0, (of_nat_spec n Hn).
  destruct (Z.of_nat n) as [|p|p] eqn:Ep; try lia. cbn [binary_normalize].
  destruct (binary_round_lower false p 0 ltac:(lia)) as (mf & ef & e1 & -> & _).
  destruct (ef <=? emax - prec)%Z; reflexivity.
Qed.

Lemma of_nat_minus_one_positive n :
  (2 <= n)%nat -> (Z.of_nat n < 2 ^ 63)%Z -> (0 <? F64.of_nat n - 1) = true.
Proof.
  intros H2 Hn. pose proof (Prim2SF_valid (F64.of_nat n)) as Hv.
  rewrite FloatAxioms.ltb_spec, Prim2SF_0, sub_spec.
  destruct (of_nat_above_one n H2 Hn) as [(m & e & E & He)| ->]; [|reflexivity].
  rewrite E in *. cbn [valid_binary] in Hv.
  change (Prim2SF 1) with (S754_finite false 4503599627370496 (-52)).
  assert (H1 : bounded prec emax 4503599627370496 (-52) = true) by reflexivity.
  unfold SF64sub, SFsub. cbv zeta. cbn [cond_Zopp negb].
  destruct (aligned_cases m e 4503599627370496 (-52) Hv H1)
    as [(Heq & _)|[(Hlt & _)|(Hgt & HB & HAB)]]; try lia.
  cbv zeta in HB, HAB.
  match goal with |- context [binary_normalize _ _ ?D ?ez _] =>
    destruct D as [|p|p] eqn:ED; try lia;
    assert (Hez : (-1074 <= ez)%Z) by
      (pose proof (bounded_spec _ _ Hv) as (? & _); lia)
  end.
  cbn [binary_normalize].
  match goal with |- context [binary_round _ _ false p ?ez] =>
    destruct (binary_round_lower false p ez Hez) as (mf & ef & e1 & -> & _) end.
  destruct (ef <=? emax - prec)%Z; reflexivity.
Qed.

(** Zero over a count is zero. *)
Lemma zero_div_positive c : (0 <? c) = true -> 0 / c = 0.
Proof.
  rewrite FloatAxioms.ltb_spec, Prim2SF_0. intros Hc. apply Prim2SF_inj.
  rewrite div_spec, Prim2SF_0.
  destruct (Prim2SF c) as [[]|[]| |[] m e]; try discriminate; reflexivity.
Qed.

End Counts.

Section FlatTable.
Import F64Facts F64Special F64Round.
Local Open Scope float_scope.

(** A sum of zeros is zero, in whatever order they are added. *)
Lemma np_sum_zeros k : Series.np_sum (replicate k 0) = 0.
Proof.
  destruct k as [|k]; [reflexivity|].
  apply (np_sum_all (fun y => y = 0)); [now intros a b -> ->|reflexivity|discriminate|].
  apply Forall_forall. intros y Hy. now apply elem_of_replicate_inv in Hy.
Qed.

Lemma dropna_zeros k : Series.dropna (replicate k 0) = replicate k 0.
Proof. apply dropna_all, Forall_replicate. reflexivity. Qed.

Lemma fillna_zeros k : Series.fillna 0 (replicate k 0) = replicate k 0.
Proof. unfold Series.fillna. induction k as [|k IH]; [reflexivity|]. cbn. now rewrite IH. Qed.

(** The sample variance of [k] zeros, [k] at least 2, is zero. *)
Lemma var_zeros k :
  (2 <= k)%nat -> (Z.of_nat k < 2 ^ 63)%Z -> Series.var (replicate k 0) = 0.
Proof.
  intros H2 Hk. unfold Series.var, Series.count.
  rewrite dropna_zeros, length_replicate, fillna_zeros, np_sum_zeros.
  destruct (Nat.leb_spec k 1) as [|_]; [lia|].
  rewrite (zero_div_positive (F64.of_nat k)) by (apply of_nat_positive; [lia|exact Hk]).
  assert (E : map (fun v => if Series.isna v then 0 else F64.sqr (0 - v)) (replicate k 0)
              = replicate k 0).
  { clear. induction k as [|k IH]; [reflexivity|]. cbn [replicate map]. now rewrite IH. }
  rewrite E, np_sum_zeros.
  apply zero_div_positive. now apply of_nat_minus_one_positive.
Qed.

Lemma changes_from_flat x k :
  F64.is_finite_nonzero x = true -> changes_from x (replicate k x) = replicate k 0.
Proof.
  intros Hx. induction k as [|k IH]; [reflexivity|].
  cbn [replicate changes_from]. rewrite IH, (div_self x Hx). reflexivity.
Qed.

Lemma finite_nonzero_notna x : F64.is_finite_nonzero x = true -> is_nan x = false.
Proof.
  intros (s & m & e & Hx)%finite_nonzero_spec. apply is_nan_false. rewrite Hx. discriminate.
Qed.

Lemma pct_change_flat x k :
  F64.is_finite_nonzero x = true ->
  Series.dropna (Series.pct_change (x :: replicate k x)) = replicate k 0.
Proof.
  intros Hx. pose proof (finite_nonzero_notna x Hx) as Hn.
  rewrite pct_change_adjacent.
  2:{ constructor; [exact Hn|]. apply Forall_replicate. exact Hn. }
  rewrite (changes_from_flat x k Hx). unfold Series.dropna. cbn [List.filter].
  unfold Series.notna at 1.
  rewrite (sub_nan_l (x / nan) 1) by (apply div_nan_r; reflexivity). cbn [negb].
  apply dropna_zeros.
Qed.

(** X22: a PnL table of at least three rows that all hold the same
    non-zero finite TotalPnL has Volatility 0, exactly, and the [if] of the
    Sharpe ratio takes its [else] branch: SharpeRatio is the integer 0 and
    nothing is divided by the zero volatility. *)
Theorem flat_pnl_has_no_volatility (d : data_dir) (f : pnl_frame)
    (rest : list pnl_frame) (x : float) :
  pnl_files d = f :: rest ->
  (3 <= length (pnl_records f))%nat ->
  (Z.of_nat (length (pnl_records f)) < 2 ^ 63)%Z ->
  Forall (fun y => y = x) (TotalPnL <$> pnl_records f) ->
  F64.is_finite_nonzero x = true ->
  metric "Volatility" (analyze d) = Some (PyFloat 0) /\
  metric "SharpeRatio" (analyze d) = Some (PyInt 0).
Proof.
  intros Hd Hlen Hbig Hall Hx.
  assert (Hne : pnl_records f <> []).
  { intros E. rewrite E in Hlen. cbn in Hlen. lia. }
  destruct (run_with_pnl d f rest Hd Hne)
    as (a & Hr & _ & _ & _ & _ & _ & _ & Hv & Hs).
  unfold analyze. rewrite Hr. cbn [snd].
  assert (Ht : TotalPnL <$> pnl_records f
               = x :: replicate (length (pnl_records f) - 1) x).
  { rewrite <- (length_fmap TotalPnL). revert Hall Hlen.
    rewrite <- (length_fmap TotalPnL (pnl_records f)).
    generalize (TotalPnL <$> pnl_records f) as l. intros l Hall Hlen.
    destruct l as [|y l]; [cbn in Hlen; lia|].
    apply Forall_cons in Hall as [-> Hall]. f_equal. cbn [length].
    rewrite Nat.sub_succ, Nat.sub_0_r. clear Hlen.
    induction Hall as [|z l -> _ IH]; [reflexivity|]. cbn. now rewrite <- IH. }
  rewrite Ht in Hv, Hs.
  set (k := (length (pnl_records f) - 1)%nat) in *.
  rewrite (pct_change_flat x k Hx) in Hv, Hs.
  assert (E : Series.std (replicate k 0) * F64.sqrt252 = 0).
  { unfold Series.std. rewrite var_zeros by (subst k; lia). reflexivity. }
  rewrite E in Hv, Hs. split; [exact Hv|exact Hs].
Qed.

(** Four rows holding 5. *)
Lemma flat_pnl_has_no_volatility_four_rows :
  let d := pnl_only [5; 5; 5; 5] in
  metric "Volatility" (analyze d) = Some (PyFloat 0) /\
  metric "SharpeRatio" (analyze d) = Some (PyInt 0).
Proof.
  intros d.
  refine (flat_pnl_has_no_volatility d _ [] 5 eq_refl _ _ _ eq_refl).
  - cbn. lia.
  - cbn. lia.
  - repeat constructor.
Defined.

End FlatTable.

(** ** What the charts are given *)

Section RiskPanel.
Import F64Facts F64Special F64Round.
Local Open Scope float_scope.

Lemma py_gt_nan_r x v : is_nan v = true -> py_gt x (PyFloat v) = false.
Proof.
  intros Hv. destruct x; unfold py_gt; cbn [py_float]; now apply ltb_nan_l.
Qed.

(** A NaN in first place stays the maximum: nothing compares greater. *)
Lemma py_max_nan v vs : is_nan v = true -> py_max (PyFloat v) vs = PyFloat v.
Proof.
  intros Hv. unfold py_max. induction vs as [|x vs IH]; [reflexivity|].
  cbn [fold_left]. now rewrite py_gt_nan_r.
Qed.

Lemma py_max_In v vs : In (py_max v vs) (v :: vs).
Proof.
  unfold py_max. revert v. induction vs as [|x vs IH]; intros v; [now left|].
  cbn [fold_left]. destruct (IH (if py_gt x v then x else v)) as [H|H].
  - rewrite <- H. destruct (py_gt x v); [right; now left|now left].
  - right. now right.
Qed.

(** X23: when MaxDrawdown is NaN the bars of the risk panel are not
    normalised, whatever Volatility and SharpeRatio are.  MaxDrawdown is the
    first item of the list, Python's [max] keeps a first item that is NaN,
    and NaN > 0 is false. *)
Theorem risk_values_missing_drawdown (self : HFTAnalyzer) (v : float) :
  metric "MaxDrawdown" self = Some (PyFloat v) ->
  is_nan v = true ->
  risk_values self =
    [PyFloat v; get_or_0 "Volatility" self; get_or_0 "SharpeRatio" self].
Proof.
  intros Hm Hv. unfold risk_values.
  replace (get_or_0 "MaxDrawdown" self) with (PyFloat v)
    by (unfold get_or_0; unfold metric in Hm; now rewrite Hm).
  cbv zeta. rewrite (py_max_nan _ _ Hv). cbn [py_gt0].
  now rewrite (ltb_nan_r 0 v Hv).
Qed.

(** The rows 0, 0: the two drawdown ratios are 0/0. *)
Lemma risk_values_missing_drawdown_zero_start :
  let self := analyze (pnl_only [0; 0]) in
  risk_values self =
    [PyFloat nan; get_or_0 "Volatility" self; get_or_0 "SharpeRatio" self].
Proof.
  intros self. exact (risk_values_missing_drawdown self nan eq_refl eq_refl).
Defined.

(** X24: when the maximum of the three risk values is greater than 0 the
    bars are the values divided by that maximum, and when the maximum is
    finite the bar of the largest value is exactly 1. *)
Theorem risk_values_largest_is_one (self : HFTAnalyzer) :
  let values := [get_or_0 "MaxDrawdown" self; get_or_0 "Volatility" self;
                 get_or_0 "SharpeRatio" self] in
  let m := py_max (get_or_0 "MaxDrawdown" self)
             [get_or_0 "Volatility" self; get_or_0 "SharpeRatio" self] in
  py_gt0 m = true ->
  F64.is_finite_nonzero (py_float m) = true ->
  risk_values self = (fun v => PyFloat (py_float v / py_float m)) <$> values /\
  In m values /\
  py_truediv m m = PyFloat 1 /\
  In (PyFloat 1) (risk_values self).
Proof.
  intros values m Hpos Hfin.
  assert (Hr : risk_values self = (fun v => PyFloat (py_float v / py_float m)) <$> values).
  { unfold risk_values. cbv zeta. fold m. rewrite Hpos. reflexivity. }
  assert (Hin : In m values) by apply py_max_In.
  assert (Hone : py_truediv m m = PyFloat 1).
  { unfold py_truediv. now rewrite div_self. }
  repeat split; auto.
  rewrite Hr, <- Hone. unfold py_truediv.
  apply list_elem_of_In.
  apply (list_elem_of_fmap_2 (fun v => PyFloat (py_float v / py_float m))).
  now apply list_elem_of_In.
Qed.

(** Scenario A: MaxDrawdown 0, Volatility about 10.1, Sharpe ratio about
    1.25; the bar of Volatility is 1. *)
Lemma risk_values_largest_is_one_scenario_A :
  let self := analyze (pnl_only [100; 150; 90]) in
  let values := [get_or_0 "MaxDrawdown" self; get_or_0 "Volatility" self;
                 get_or_0 "SharpeRatio" self] in
  let m := get_or_0 "Volatility" self in
  risk_values self = (fun v => PyFloat (py_float v / py_float m)) <$> values /\
  In m values /\
  py_truediv m m = PyFloat 1 /\
  In (PyFloat 1) (risk_values self).
Proof.
  intros self.
  exact (risk_values_largest_is_one self eq_refl eq_refl).
Defined.

End RiskPanel.

Section BuySellChart.
Local Open Scope nat_scope.

(** X25: the buy/sell chart of [plot_trade_analysis] can be drawn only when
    the trade file holds at least one BUY and at least one SELL.  The chart
    is given one count per side that occurs and always the two labels, and
    matplotlib raises ValueError when the two lengths differ: with trades on
    one side only, or with no recognised Side at all, it has no wedges. *)
Theorem buy_sell_chart_needs_both_sides (f : trade_frame) :
  let buys := count_side "BUY" (trade_records f) in
  let sells := count_side "SELL" (trade_records f) in
  (side_wedges (preprocess_trades f) = None <-> buys = 0 \/ sells = 0) /\
  length (side_counts (preprocess_trades f))
  = (if buys =? 0 then 0 else 1) + (if sells =? 0 then 0 else 1).
Proof.
  intros buys sells. pose proof (side_counts_values f) as Hs. cbv zeta in Hs.
  fold buys sells in Hs.
  assert (Hlen : length (side_counts (preprocess_trades f))
                 = (if buys =? 0 then 0 else 1) + (if sells =? 0 then 0 else 1)).
  { rewrite <- (length_fmap snd), Hs. destruct buys, sells; reflexivity. }
  split; [|exact Hlen].
  unfold side_wedges, pie. rewrite length_fmap, Hlen.
  destruct buys, sells; cbn; split; intros H; auto; try discriminate;
    destruct H; discriminate.
Qed.

(** X26: the labels of the buy/sell chart follow the counts, not the
    sides.  With at least one trade on each side and different counts, the
    wedge labelled Sell is that of the more frequent side and the wedge
    labelled Buy that of the less frequent one: when the buys outnumber the
    sells the two labels are exchanged. *)
Theorem buy_sell_chart_labels (f : trade_frame) :
  let buys := count_side "BUY" (trade_records f) in
  let sells := count_side "SELL" (trade_records f) in
  0 < buys -> 0 < sells -> buys <> sells ->
  side_wedges (preprocess_trades f)
  = Some [("Sell", Nat.max buys sells); ("Buy", Nat.min buys sells)] /\
  (sells < buys ->
   side_wedges (preprocess_trades f) = Some [("Sell", buys); ("Buy", sells)]).
Proof.
  intros buys sells Hb Hs Hne. pose proof (side_counts_values f) as Hv. cbv zeta in Hv.
  fold buys sells in Hv. unfold side_wedges. rewrite Hv.
  destruct buys as [|b], sells as [|s]; try lia.
  split; [reflexivity|]. intros Hlt. unfold pie. cbn [length Nat.eqb zip zip_with].
  rewrite Nat.max_l, Nat.min_r by lia. reflexivity.
Qed.

(** Two BUY rows and one SELL row: the wedge labelled Sell holds the two
    buys. *)
Lemma buy_sell_chart_labels_two_buys :
  let f := read_trades (Some ["t1"; "t2"; "t3"])
             [ {| Price := 10; Quantity := 5; Side := Str "SELL" |};
               {| Price := 10.5; Quantity := 3; Side := Str "BUY" |};
               {| Price := 11; Quantity := 1; Side := Str "BUY" |} ] in
  side_wedges (preprocess_trades f) = Some [("Sell", 2); ("Buy", 1)] /\
  (1 < 2 -> side_wedges (preprocess_trades f) = Some [("Sell", 2); ("Buy", 1)]).
Proof.
  intros f. refine (buy_sell_chart_labels f _ _ _); cbn; lia.
Defined.

End BuySellChart.
